(** * prisma-ezfilter: a shallow embedding of the query pipeline

    The development follows the TypeScript sources file by file:

    - [JS]            the fragment of JavaScript data the library handles
    - [QueryBuilder]  src/builders/queryBuilder.ts
    - [Validation]    src/utils/validation.ts
    - [Extractor]     src/utils/queryExtractor.ts
    - [Transformer]   src/transformers/queryTransformer.ts
    - [Facade]        src/BuildQueryFilter.ts

    Conventions of the embedding.

    - A JavaScript object is the list of its own enumerable string-keyed
      properties in the order [Object.entries] lists them, with distinct
      keys: the keys that are array indices first, in ascending order, then
      the other keys in the order of their creation ([JS.own_entries]).
      Names inherited from [Object.prototype] ([constructor], [__proto__],
      ...) are outside the model: property reads are reads of own
      properties.
    - A string is the sequence of its characters, taken to be ASCII where
      the code takes a string apart (a split at dots, the date pattern).
    - A number is an integer or [NaN]; this is the range of [parseInt] that
      the library feeds into pagination.  Arithmetic is the exact one, which
      is the arithmetic of IEEE doubles as long as operands and result are
      integers of magnitude up to 2^53 ([JS.safe_integer]); statements about
      a difference or a product are made in this range.  Fractions and
      infinities are not represented.
    - A thrown [TypeError] is the [None] of an [option] result.  The
      transformer also answers [None] where a run leaves the data modelled
      here: a field named like a member of [Object.prototype], an
      assignment to [__proto__], a property put on an array or a date.
    - Built-ins whose result the library only passes on ([JSON.parse],
      [parseInt], the conversion to a number, the [Date] constructor) are
      parameters of the sections that use them.  The [TypeError] with which
      a conversion of an object to a primitive fails is not left to them:
      it is computed from the value ([JS.coercion_throws]). *)

From Stdlib Require Import ZArith Ascii String List Bool Lia.
From stdpp Require Import base option list strings pretty gmap.

Import ListNotations.
Local Open Scope string_scope.
Local Open Scope list_scope.
Local Open Scope Z_scope.

(* ================================================================== *)
(** ** JavaScript data *)
(* ================================================================== *)

Module JS.

Inductive number : Type :=
| Num (z : Z)
| NaN.

(** The integers on which the arithmetic of doubles is exact: a difference
    or a product of two of them that is one of them is computed without
    rounding. *)
Definition safe_integer (z : Z) : Prop := Z.abs z <= 2 ^ 53.

(** [a - b] and [a * b] where operands and result are safe integers. *)
Definition num_sub (a b : number) : number :=
  match a, b with
  | Num x, Num y => Num (x - y)
  | _, _ => NaN
  end.

Definition num_mul (a b : number) : number :=
  match a, b with
  | Num x, Num y => Num (x * y)
  | _, _ => NaN
  end.

(** [a < b] and [a > b] on numbers: any comparison with [NaN] is false. *)
Definition num_lt (a b : number) : bool :=
  match a, b with
  | Num x, Num y => x <? y
  | _, _ => false
  end.

Definition num_gt (a b : number) : bool := num_lt b a.

Definition num_isNaN (a : number) : bool :=
  match a with NaN => true | Num _ => false end.

(** Truthiness of a number: [0] and [NaN] are falsy. *)
Definition num_truthy (a : number) : bool :=
  match a with
  | Num z => negb (z =? 0)
  | NaN => false
  end.

Unset Elimination Schemes.
Inductive value : Type :=
| VUndefined
| VNull
| VBool (b : bool)
| VNum (n : number)
| VStr (s : string)
| VDate (t : number)
| VArr (l : list value)
| VObj (o : list (string * value)).
Set Elimination Schemes.

(** An object: own properties in enumeration order. *)
Abbreviation obj := (list (string * value)).

Definition nullish (v : value) : bool :=
  match v with
  | VUndefined | VNull => true
  | _ => false
  end.

Definition isArray (v : value) : bool :=
  match v with VArr _ => true | _ => false end.

(** [typeof v === 'object'] (true of [null], arrays and dates too). *)
Definition typeof_object (v : value) : bool :=
  match v with
  | VNull | VDate _ | VArr _ | VObj _ => true
  | _ => false
  end.

Definition typeof_string (v : value) : bool :=
  match v with VStr _ => true | _ => false end.

Definition str_truthy (s : string) : bool :=
  negb (String.eqb s "").

Definition truthy (v : value) : bool :=
  match v with
  | VUndefined | VNull => false
  | VBool b => b
  | VNum n => num_truthy n
  | VStr s => str_truthy s
  | VDate _ | VArr _ | VObj _ => true
  end.

(** Own-property read [o[k]]; a missing property reads as [None]
    ([undefined]). *)
Fixpoint get (k : string) (o : obj) : option value :=
  match o with
  | [] => None
  | (k', v) :: r => if String.eqb k k' then Some v else get k r
  end.

(** [k in o] for own properties. *)
Definition has (k : string) (o : obj) : bool :=
  match get k o with Some _ => true | None => false end.

(** *** The order of own properties

    [Object.entries] lists the keys that are array indices first, in
    ascending numeric order, then the other keys in the order in which they
    were created. *)

Definition digit_of (c : ascii) : option N :=
  let n := nat_of_ascii c in
  if ((48 <=? n) && (n <=? 57))%nat then Some (N.of_nat (n - 48)) else None.

Fixpoint decimal (acc : N) (s : string) : option N :=
  match s with
  | EmptyString => Some acc
  | String c r =>
      match digit_of c with
      | Some d => decimal (10 * acc + d)%N r
      | None => None
      end
  end.

(** The value of a key that is an array index: decimal digits without a
    leading zero (["0"] itself apart), at most 2^32 - 2. *)
Definition array_index (s : string) : option N :=
  match s with
  | EmptyString => None
  | String c r =>
      if Ascii.eqb c "0" && negb (String.eqb r "") then None
      else
        match decimal 0 s with
        | Some n => if (n <? 4294967295)%N then Some n else None
        | None => None
        end
  end.

(** [k] is listed before [k']: both are array indices and [k] is the
    smaller, or only [k] is one. *)
Definition precedes (k k' : string) : bool :=
  match array_index k, array_index k' with
  | Some i, Some j => (i <? j)%N
  | Some _, None => true
  | None, _ => false
  end.

(** Assignment [o[k] = v]: an existing property keeps its place; a new one
    that is an array index goes to its place among the indices, any other
    goes last. *)
Fixpoint set (k : string) (v : value) (o : obj) : obj :=
  match o with
  | [] => [(k, v)]
  | (k', v') :: r =>
      if String.eqb k k' then (k', v) :: r
      else if precedes k k' then (k, v) :: (k', v') :: r
      else (k', v') :: set k v r
  end.

(** The object with the given members, written or parsed in this order
    (the keys distinct): what [Object.entries] lists. *)
Definition own_entries (members : obj) : obj :=
  fold_left (fun o '(k, v) => set k v o) members [].

Definition keys (o : obj) : list string := map fst o.

(** The conversion of a value to a primitive, behind [isNaN(v)] and
    [new Date(v)], throws a [TypeError] when neither [valueOf] nor
    [toString] gives a primitive.  The inherited [valueOf] of an object or
    an array returns the object itself, so all hangs on [toString]: an own
    property of that name (which no value here can make callable) hides
    the inherited method of an object, and the [toString] of an array
    joins the strings of its elements, [null] and [undefined] apart. *)
Fixpoint coercion_throws (v : value) : bool :=
  match v with
  | VObj o => has "toString" o
  | VArr l => existsb coercion_throws l
  | _ => false
  end.

(** [a.push(x)] *)
Definition push {A} (a : list A) (x : A) : list A := a ++ [x].

(** [s.includes(c)] for a one-character needle. *)
Fixpoint includes (c : ascii) (s : string) : bool :=
  match s with
  | EmptyString => false
  | String a r => if Ascii.eqb a c then true else includes c r
  end.

(** [s.split(c)] for a one-character separator: never empty, and
    [''.split(c)] is [['']]. *)
Fixpoint split (c : ascii) (s : string) : list string :=
  match s with
  | EmptyString => [EmptyString]
  | String a r =>
      if Ascii.eqb a c then EmptyString :: split c r
      else match split c r with
           | h :: t => String a h :: t
           | [] => [String a EmptyString]
           end
  end.

(** [parts[i]] used as a string; an index past the end reads [undefined],
    which as a property key is the string ["undefined"]. *)
Definition part (i : nat) (parts : list string) : string :=
  nth i parts "undefined".

Definition dot : ascii := "."%char.

End JS.

Import JS.

(* ================================================================== *)
(** ** src/types *)
(* ================================================================== *)

Record RangedFilter : Type := {
  key : string;
  start : value;
  end_ : value
}.

Record FilteringQuery : Type := {
  filters : option obj;
  searchFilters : option obj;
  rangedFilters : option (list RangedFilter);
  orderKey : option string;
  orderRule : option string;
  page : option number;
  rows : option number
}.

Record PrismaQueryOptions : Type := {
  where_ : value;
  orderBy : value;
  take : number;
  skip : number
}.

Definition emptyQuery : FilteringQuery :=
  {| filters := None; searchFilters := None; rangedFilters := None;
     orderKey := None; orderRule := None; page := None; rows := None |}.

(* ================================================================== *)
(** ** src/builders/queryBuilder.ts *)
(* ================================================================== *)

Module QueryBuilder.

(** [{ [relation]: { [column]: v } }] *)
Definition nested (relation column : string) (v : value) : value :=
  VObj [(relation, VObj [(column, v)])].

Definition buildWhereQuery (filters : obj) : list value :=
  fold_left
    (fun whereConditions '(key, value) =>
       if nullish value then whereConditions
       else if includes dot key then
         let parts := split dot key in
         let relation := part 0 parts in
         let column := part 1 parts in
         match value with
         | VArr vs =>
             let orQueryArray := map (fun val => nested relation column val) vs in
             push whereConditions (VObj [("OR", VArr orQueryArray)])
         | _ => push whereConditions (nested relation column value)
         end
       else
         match value with
         | VArr vs =>
             let orQueryArray := map (fun val => VObj [(key, val)]) vs in
             push whereConditions (VObj [("OR", VArr orQueryArray)])
         | _ => push whereConditions (VObj [(key, value)])
         end)
    filters [].

(** The loop state of [buildSearchQuery]: [whereConditions] and
    [orQuerySearchArray]. *)
Definition buildSearchQuery (searchFilters : obj) : list value :=
  let isMultiKey := (1 <? length searchFilters)%nat in
  let '(whereConditions, orQuerySearchArray) :=
    fold_left
      (fun '(whereConditions, orQuerySearchArray) '(key, value) =>
         if nullish value then (whereConditions, orQuerySearchArray)
         else
           let searchQuery :=
             if includes dot key then
               let parts := split dot key in
               let relation := part 0 parts in
               let column := part 1 parts in
               nested relation column (VObj [("contains", value)])
             else VObj [(key, VObj [("contains", value)])] in
           if isMultiKey
           then (whereConditions, push orQuerySearchArray searchQuery)
           else (push whereConditions searchQuery, orQuerySearchArray))
      searchFilters ([], []) in
  if isMultiKey && (0 <? length orQuerySearchArray)%nat
  then push whereConditions (VObj [("OR", VArr orQuerySearchArray)])
  else whereConditions.

Definition buildRangedFilter (rangedFilters : list RangedFilter) : list value :=
  fold_left
    (fun whereConditions range =>
       let bounds := VObj [("gte", start range); ("lte", end_ range)] in
       if includes dot (key range) then
         let parts := split dot (key range) in
         let relation := part 0 parts in
         let column := part 1 parts in
         push whereConditions (nested relation column bounds)
       else push whereConditions (VObj [(key range, bounds)]))
    rangedFilters [].

Definition buildPagination (filter : FilteringQuery) : number * number :=
  let take := Num 10 in
  let skip := Num 0 in
  match page filter with
  | Some p =>
      if num_truthy p then
        match rows filter with
        | Some r =>
            if num_truthy r
            then (r, num_mul (num_sub p (Num 1)) r)
            else (take, num_mul (Num 10) (num_sub p (Num 1)))
        | None => (take, num_mul (Num 10) (num_sub p (Num 1)))
        end
      else (take, skip)
  | None => (take, skip)
  end.

Definition buildFilterQuery (filter : FilteringQuery) : PrismaQueryOptions :=
  let and0 : list value := [] in
  let and1 :=
    match filters filter with
    | Some f => and0 ++ buildWhereQuery f
    | None => and0
    end in
  let and2 :=
    match searchFilters filter with
    | Some s => and1 ++ buildSearchQuery s
    | None => and1
    end in
  let and3 :=
    match rangedFilters filter with
    | Some r => and2 ++ buildRangedFilter r
    | None => and2
    end in
  let orderBy0 :=
    match orderKey filter with
    | Some k =>
        if str_truthy k then
          let orderRule0 := match orderRule filter with Some r => r | None => "asc" end in
          VObj [(k, VStr orderRule0)]
        else VObj []
    | None => VObj []
    end in
  let '(take0, skip0) := buildPagination filter in
  {| where_ := VObj [("AND", VArr and3)];
     orderBy := orderBy0;
     take := take0;
     skip := skip0 |}.

End QueryBuilder.

(* ================================================================== *)
(** ** src/utils/validation.ts *)
(* ================================================================== *)

Record QuerySpecification : Type := {
  allowedFields : option (list string);
  allowedOperators : option (list string);
  allowedRelations : option (list string);
  maxPageSize : option number;
  defaultPageSize : option number;
  requiredFields : option (list string);
  forbiddenFields : option (list string)
}.

Record ValidationResult : Type := {
  isValid : bool;
  errors : list string;
  warnings : list string
}.

Module Validation.

(** [a.includes(s)] on an array of strings. *)
Definition arr_includes (a : list string) (s : string) : bool :=
  existsb (String.eqb s) a.

(** [spec.allowedFields && !spec.allowedFields.includes(field)] and its
    two siblings: the list is configured and lacks the name. *)
Definition configured_without (l : option (list string)) (s : string) : bool :=
  match l with
  | Some a => negb (arr_includes a s)
  | None => false
  end.

(** [spec.forbiddenFields?.includes(field)] *)
Definition optional_includes (l : option (list string)) (s : string) : bool :=
  match l with
  | Some a => arr_includes a s
  | None => false
  end.

(** *** The pattern of [isValidDate]

    [/^\d{4}-\d{2}-\d{2}T\d{2}:\d{2}:\d{2}(?:\.\d+)?Z$/], matched from left to
    right.  Each step consumes a prefix and returns the rest.  [\d] is an
    ASCII digit; without the [m] flag [$] is the end of the input. *)

Definition is_digit (c : ascii) : bool :=
  let n := nat_of_ascii c in
  ((48 <=? n) && (n <=? 57))%nat.

(** [\d{n}] *)
Fixpoint digits (n : nat) (s : string) : option string :=
  match n with
  | O => Some s
  | S n' =>
      match s with
      | String c r => if is_digit c then digits n' r else None
      | EmptyString => None
      end
  end.

(** [\d*], greedy *)
Fixpoint digits_star (s : string) : string :=
  match s with
  | String c r => if is_digit c then digits_star r else s
  | EmptyString => s
  end.

(** a literal character *)
Definition lit (c : ascii) (s : string) : option string :=
  match s with
  | String a r => if Ascii.eqb a c then Some r else None
  | EmptyString => None
  end.

(** [(?:\.\d+)?Z$]: no digit is a [Z] or a dot, so the greedy match never
    has to give a character back. *)
Definition fraction_Z_end (s : string) : bool :=
  match s with
  | String c r =>
      if Ascii.eqb c "."%char then
        match digits 1 r with
        | Some r' => String.eqb (digits_star r') "Z"
        | None => false
        end
      else String.eqb s "Z"
  | EmptyString => false
  end.

Definition dateRegex_test (s : string) : bool :=
  match
    s ← digits 4 s; s ← lit "-" s;
    s ← digits 2 s; s ← lit "-" s;
    s ← digits 2 s; s ← lit "T" s;
    s ← digits 2 s; s ← lit ":" s;
    s ← digits 2 s; s ← lit ":" s;
    digits 2 s
  with
  | Some rest => fraction_Z_end rest
  | None => false
  end.

Definition isValidDate (dateString : value) : bool :=
  match dateString with
  | VStr s => dateRegex_test s
  | _ => false
  end.

(** [`${v}`] at the one place it is evaluated, under [isValidDate v],
    where [v] is a string. *)
Definition template (v : value) : string :=
  match v with
  | VStr s => s
  | _ => ""
  end.

(** [`${n}`] for a number of magnitude below 10^21, which prints as its
    digits; a larger one prints in exponent form, a text that no statement
    of this development depends on. *)
Definition template_num (n : number) : string :=
  match n with
  | Num z => pretty z
  | NaN => "NaN"
  end.

(** The two message arrays every helper pushes to. *)
Record Log : Type := {
  log_errors : list string;
  log_warnings : list string
}.

Definition push_error (msg : string) (l : Log) : Log :=
  {| log_errors := push (log_errors l) msg; log_warnings := log_warnings l |}.

Definition push_warning (msg : string) (l : Log) : Log :=
  {| log_errors := log_errors l; log_warnings := push (log_warnings l) msg |}.

(** The relation check shared by the four helpers, with the helper's own
    word in front of the message. *)
Definition check_relation (prefix field : string)
    (specification : QuerySpecification) (l : Log) : Log :=
  if includes dot field then
    let parts := split dot field in
    let relation := part 0 parts in
    if str_truthy relation
       && configured_without (allowedRelations specification) relation
    then push_error (prefix +:+ "'" +:+ relation +:+ "' is not allowed") l
    else l
  else l.

Definition validateFilters (filters : obj)
    (specification : QuerySpecification) (l : Log) : Log :=
  fold_left
    (fun l '(field, value) =>
       if nullish value then l
       else
         let l :=
           if configured_without (allowedFields specification) field then
             if optional_includes (forbiddenFields specification) field
             then push_error ("Field '" +:+ field +:+ "' is forbidden") l
             else push_warning
                    ("Field '" +:+ field +:+ "' is not in allowed fields list") l
           else l in
         check_relation "Relation " field specification l)
    filters l.

Definition validateSearchFilters (searchFilters : obj)
    (specification : QuerySpecification) (l : Log) : Log :=
  fold_left
    (fun l '(field, value) =>
       if nullish value then l
       else
         let l :=
           if configured_without (allowedFields specification) field
           then push_warning
                  ("Search field '" +:+ field
                   +:+ "' is not in allowed fields list") l
           else l in
         check_relation "Search relation " field specification l)
    searchFilters l.

Section WithDate.

(** The time value of [new Date(v)], [NaN] for an invalid date. *)
Variable Date_new : value -> number.

Definition validateRangedFilters (rangedFilters : list RangedFilter)
    (specification : QuerySpecification) (l : Log) : Log :=
  fold_left
    (fun l range =>
       let l :=
         if configured_without (allowedFields specification) (key range)
         then push_warning
                ("Range field '" +:+ key range
                 +:+ "' is not in allowed fields list") l
         else l in
       let l := check_relation "Range relation " (key range) specification l in
       if isValidDate (start range) && isValidDate (end_ range) then
         let startDate := Date_new (start range) in
         let endDate := Date_new (end_ range) in
         if num_gt startDate endDate
         then push_error
                ("Range start date '" +:+ template (start range)
                 +:+ "' is after end date '" +:+ template (end_ range)
                 +:+ "'") l
         else l
       else l)
    rangedFilters l.

Definition validateOrderKey (orderKey : string)
    (specification : QuerySpecification) (l : Log) : Log :=
  let l :=
    if configured_without (allowedFields specification) orderKey
    then push_warning
           ("Order field '" +:+ orderKey +:+ "' is not in allowed fields list") l
    else l in
  check_relation "Order relation " orderKey specification l.

Definition validatePagination (query : FilteringQuery)
    (specification : QuerySpecification) (l : Log) : Log :=
  let l :=
    match page query with
    | Some p =>
        if num_lt p (Num 1)
        then push_error "Page number must be greater than 0" l
        else l
    | None => l
    end in
  match rows query with
  | Some r =>
      if num_lt r (Num 1)
      then push_error "Rows per page must be greater than 0" l
      else
        match maxPageSize specification with
        | Some m =>
            if num_truthy m && num_gt r m
            then push_error
                   ("Rows per page cannot exceed " +:+ template_num m) l
            else l
        | None => l
        end
  | None => l
  end.

Definition validateQuery (query : FilteringQuery)
    (specification : option QuerySpecification) : ValidationResult :=
  let l := {| log_errors := []; log_warnings := [] |} in
  match specification with
  | None =>
      {| isValid := true; errors := log_errors l; warnings := log_warnings l |}
  | Some specification =>
      let l :=
        match filters query with
        | Some f => validateFilters f specification l
        | None => l
        end in
      let l :=
        match searchFilters query with
        | Some s => validateSearchFilters s specification l
        | None => l
        end in
      let l :=
        match rangedFilters query with
        | Some r => validateRangedFilters r specification l
        | None => l
        end in
      let l :=
        match orderKey query with
        | Some k =>
            if str_truthy k then validateOrderKey k specification l else l
        | None => l
        end in
      let l := validatePagination query specification l in
      {| isValid := (length (log_errors l) =? 0)%nat;
         errors := log_errors l;
         warnings := log_warnings l |}
  end.

End WithDate.

End Validation.

(* ================================================================== *)
(** ** src/utils/queryExtractor.ts *)
(* ================================================================== *)

(** A value of [QueryParams]: [string | string[]]; an absent key is
    [undefined]. *)
Inductive Param : Type :=
| PStr (s : string)
| PArr (a : list string).

Module Extractor.

Definition param_truthy (p : option Param) : bool :=
  match p with
  | Some (PStr s) => str_truthy s
  | Some (PArr _) => true
  | None => false
  end.

(** [Array.isArray(p) ? p[0] : p], for a truthy [p]; [None] is the
    [undefined] that [[][0]] reads. *)
Definition first_value (p : option Param) : option string :=
  match p with
  | Some (PStr s) => Some s
  | Some (PArr a) => a !! 0%nat
  | None => None
  end.

(** *** Statements of the extractor

    The function assigns to the fields of a local [filter] object and writes
    to the console; [JSON.parse] may throw.  A statement takes the state to
    an outcome and a new state. *)

Record State : Type := {
  filter : FilteringQuery;
  console : list string
}.

Inductive Outcome (A : Type) : Type :=
| Ok (a : A)
| Thrown (error : string).
Arguments Ok {A} a.
Arguments Thrown {A} error.

Definition M (A : Type) : Type := State -> Outcome A * State.

Definition ret {A} (a : A) : M A := fun st => (Ok a, st).

Definition bind {A B} (m : M A) (k : A -> M B) : M B :=
  fun st =>
    match m st with
    | (Ok a, st') => k a st'
    | (Thrown e, st') => (Thrown e, st')
    end.

Definition throw {A} (e : string) : M A := fun st => (Thrown e, st).

(** [try { body } catch (error) { handler(error) }] *)
Definition try_catch (body : M unit) (handler : string -> M unit) : M unit :=
  fun st =>
    match body st with
    | (Ok a, st') => (Ok a, st')
    | (Thrown e, st') => handler e st'
    end.

Definition when (c : bool) (body : M unit) : M unit :=
  if c then body else ret tt.

Definition assign (upd : FilteringQuery -> FilteringQuery) : M unit :=
  fun st => (Ok tt, {| filter := upd (filter st); console := console st |}).

Definition console_warn (msg : string) : M unit :=
  fun st => (Ok tt, {| filter := filter st; console := push (console st) msg |}).

Definition read_filter : M FilteringQuery := fun st => (Ok (filter st), st).

Declare Scope extract_scope.
Delimit Scope extract_scope with extract.
Notation "x <- m ;; k" := (bind m (fun x => k))
  (at level 90, m at next level, right associativity) : extract_scope.
Notation "m ;;; k" := (bind m (fun _ => k))
  (at level 90, right associativity) : extract_scope.

Definition set_filters (v : option obj) (q : FilteringQuery) : FilteringQuery :=
  {| filters := v; searchFilters := searchFilters q;
     rangedFilters := rangedFilters q; orderKey := orderKey q;
     orderRule := orderRule q; page := page q; rows := rows q |}.

Definition set_searchFilters (v : option obj) (q : FilteringQuery) : FilteringQuery :=
  {| filters := filters q; searchFilters := v;
     rangedFilters := rangedFilters q; orderKey := orderKey q;
     orderRule := orderRule q; page := page q; rows := rows q |}.

Definition set_rangedFilters (v : option (list RangedFilter))
    (q : FilteringQuery) : FilteringQuery :=
  {| filters := filters q; searchFilters := searchFilters q;
     rangedFilters := v; orderKey := orderKey q;
     orderRule := orderRule q; page := page q; rows := rows q |}.

Definition set_orderKey (v : option string) (q : FilteringQuery) : FilteringQuery :=
  {| filters := filters q; searchFilters := searchFilters q;
     rangedFilters := rangedFilters q; orderKey := v;
     orderRule := orderRule q; page := page q; rows := rows q |}.

Definition set_orderRule (v : option string) (q : FilteringQuery) : FilteringQuery :=
  {| filters := filters q; searchFilters := searchFilters q;
     rangedFilters := rangedFilters q; orderKey := orderKey q;
     orderRule := v; page := page q; rows := rows q |}.

Definition set_page (v : option number) (q : FilteringQuery) : FilteringQuery :=
  {| filters := filters q; searchFilters := searchFilters q;
     rangedFilters := rangedFilters q; orderKey := orderKey q;
     orderRule := orderRule q; page := v; rows := rows q |}.

Definition set_rows (v : option number) (q : FilteringQuery) : FilteringQuery :=
  {| filters := filters q; searchFilters := searchFilters q;
     rangedFilters := rangedFilters q; orderKey := orderKey q;
     orderRule := orderRule q; page := page q; rows := v |}.

Section WithBuiltins.

(** [JSON.parse] at the declared type of the field that receives its
    result (the source assigns the [any] it returns unchecked); [None] when
    it throws its [SyntaxError]. *)
Variable JSON_parse_record : string -> option obj.
Variable JSON_parse_ranges : string -> option (list RangedFilter).

(** [parseInt(s, 10)] *)
Variable parseInt : string -> number.

Definition JSON_parse {A} (decode : string -> option A) (s : string) : M A :=
  match decode s with
  | Some a => ret a
  | None => throw "SyntaxError"
  end.

(** [typeof v === 'string' ? JSON.parse(v) : v]; the other case is the
    [undefined] of an empty array. *)
Definition parse_if_string {A} (decode : string -> option A)
    (v : option string) : M (option A) :=
  match v with
  | Some s => (a <- JSON_parse decode s ;; ret (Some a))%extract
  | None => ret None
  end.

(** [parseInt(v, 10)], where an [undefined] argument is first made the
    string ["undefined"]. *)
Definition parseInt_arg (v : option string) : number :=
  match v with
  | Some s => parseInt s
  | None => parseInt "undefined"
  end.

Definition extractQueryFromParams (queryParams : gmap string Param)
    : M FilteringQuery :=
  (when (param_truthy (queryParams !! "filters"))
     (try_catch
        (let filtersValue := first_value (queryParams !! "filters") in
         v <- parse_if_string JSON_parse_record filtersValue ;;
         assign (set_filters v))
        (fun error => console_warn ("Failed to parse filters: " +:+ error))) ;;;
   when (param_truthy (queryParams !! "searchFilters"))
     (try_catch
        (let searchValue := first_value (queryParams !! "searchFilters") in
         v <- parse_if_string JSON_parse_record searchValue ;;
         assign (set_searchFilters v))
        (fun error => console_warn ("Failed to parse searchFilters: " +:+ error))) ;;;
   when (param_truthy (queryParams !! "rangedFilters"))
     (try_catch
        (let rangedValue := first_value (queryParams !! "rangedFilters") in
         v <- parse_if_string JSON_parse_ranges rangedValue ;;
         assign (set_rangedFilters v))
        (fun error => console_warn ("Failed to parse rangedFilters: " +:+ error))) ;;;
   when (param_truthy (queryParams !! "orderKey"))
     (assign (set_orderKey (first_value (queryParams !! "orderKey")))) ;;;
   when (param_truthy (queryParams !! "orderRule"))
     (let orderRule := first_value (queryParams !! "orderRule") in
      assign (set_orderRule orderRule)) ;;;
   when (param_truthy (queryParams !! "page"))
     (let page := first_value (queryParams !! "page") in
      assign (set_page (Some (parseInt_arg page)))) ;;;
   when (param_truthy (queryParams !! "rows"))
     (let rows := first_value (queryParams !! "rows") in
      assign (set_rows (Some (parseInt_arg rows)))) ;;;
   read_filter)%extract.

(** The call: a fresh [filter = {}] and the console as it stands. *)
Definition run (queryParams : gmap string Param) (out : list string)
    : Outcome FilteringQuery * State :=
  extractQueryFromParams queryParams {| filter := emptyQuery; console := out |}.

End WithBuiltins.

End Extractor.

(* ================================================================== *)
(** ** src/transformers/queryTransformer.ts *)
(* ================================================================== *)

Inductive PrismaOperator : Type :=
| equals | not_ | in_ | notIn | lt | lte | gt | gte
| contains | startsWith | endsWith | mode | search.

Definition operator_name (op : PrismaOperator) : string :=
  match op with
  | equals => "equals" | not_ => "not" | in_ => "in" | notIn => "notIn"
  | lt => "lt" | lte => "lte" | gt => "gt" | gte => "gte"
  | contains => "contains" | startsWith => "startsWith"
  | endsWith => "endsWith" | mode => "mode" | search => "search"
  end.

Inductive FieldType : Type :=
| TString | TNumber | TBoolean | TDate | TCustom.

Record FieldTypeHandler : Type := {
  type : FieldType;
  searchOperator : option PrismaOperator;
  customHandler : option (value -> value)
}.

Inductive RelationType : Type := OneToMany | ManyToMany | OneToOne.
Inductive RelationQuery : Type := RSome | REvery | RNone.

Record RelationHandler : Type := {
  relationType : RelationType;
  relationQuery : RelationQuery;
  nestedField : option string;
  relationCustomHandler : option (value -> string -> value)
}.

Record TransformConfig : Type := {
  fieldMappings : gmap string string;
  fieldNameMappings : option (gmap string string);
  fieldTypeHandlers : option (gmap string FieldTypeHandler);
  relationHandlers : option (gmap string RelationHandler)
}.

Module Transformer.

(** [Object.entries(v)]: [None] is the [TypeError] on [null] and
    [undefined]; numbers, booleans and dates have no own enumerable
    properties; strings and arrays list their indices. *)
Definition indexed {A} (f : A -> value) (l : list A) : obj :=
  imap (fun i a => (pretty i, f a)) l.

Definition entries (v : value) : option obj :=
  match v with
  | VUndefined | VNull => None
  | VBool _ | VNum _ | VDate _ => Some []
  | VStr s => Some (indexed (fun c => VStr (String c EmptyString)) (list_ascii_of_string s))
  | VArr l => Some (indexed id l)
  | VObj o => Some o
  end.

(** Reading a named property [v.k] off a value that is not [null] or
    [undefined]: only objects have one. *)
Definition prop (k : string) (v : value) : option value :=
  match v with
  | VObj o => get k o
  | _ => None
  end.

(** [f] of the value stored under [k], if there is one.  The function
    comes first so that [extractRawValue] can recurse through it. *)
Definition get_with {B} (f : value -> B) (k : string) : obj -> option B :=
  fix go (o : obj) : option B :=
    match o with
    | [] => None
    | (k', v) :: r => if String.eqb k k' then Some (f v) else go r
    end.

Fixpoint extractRawValue (value : JS.value) : JS.value :=
  match value with
  | VObj o =>
      match get_with (fun c => if typeof_object c then extractRawValue c else c)
                     "contains" o with
      | Some raw => raw
      | None =>
      match get_with (fun c => if typeof_object c then extractRawValue c else c)
                     "equals" o with
      | Some raw => raw
      | None =>
      match get "startsWith" o with
      | Some raw => raw
      | None =>
      match get "endsWith" o with
      | Some raw => raw
      | None =>
      match o with
      | (_, first) :: _ => first
      | [] => value
      end end end end end
  | _ => value
  end.

(** The names every object inherits from [Object.prototype].  A map of
    the configuration written as an object literal answers a read of such
    a name with the inherited member, a function; [value] has none. *)
Definition Object_prototype : list string :=
  ["constructor"; "__defineGetter__"; "__defineSetter__"; "hasOwnProperty";
   "__lookupGetter__"; "__lookupSetter__"; "isPrototypeOf";
   "propertyIsEnumerable"; "toString"; "valueOf"; "__proto__";
   "toLocaleString"].

Definition inherited (k : string) : bool :=
  existsb (String.eqb k) Object_prototype.

(** [o[k] = v] on an object under construction.  Assigning to
    [__proto__] replaces the prototype instead of adding a property: [None]. *)
Definition assign (k : string) (v : value) (o : obj) : option obj :=
  if String.eqb k "__proto__" then None else Some (set k v o).

(** [s.toLowerCase() === 'true']; only ASCII letters lower to the letters
    of ['true']. *)
Definition ascii_lower (c : ascii) : ascii :=
  let n := nat_of_ascii c in
  if ((65 <=? n) && (n <=? 90))%nat then ascii_of_nat (n + 32) else c.

Fixpoint toLowerCase (s : string) : string :=
  match s with
  | EmptyString => EmptyString
  | String c r => String (ascii_lower c) (toLowerCase r)
  end.

(** [op || fallback] *)
Definition operator_or (op : option PrismaOperator) (fallback : string) : string :=
  match op with
  | Some o => operator_name o
  | None => fallback
  end.

Section WithBuiltins.

(** The number that the abstract operation [ToNumber], behind [Number(v)]
    and [isNaN(v)], gives for a value that is not a number, when the
    conversion does not throw. *)
Variable ToNumber : value -> number.

(** [None] is the [TypeError] of the conversion to a primitive. *)
Definition toNumber (v : value) : option number :=
  match v with
  | VNum n => Some n
  | _ => if coercion_throws v then None else Some (ToNumber v)
  end.

(** The time value of [new Date(v)], [NaN] for an invalid date, when the
    conversion does not throw. *)
Variable Date_new : value -> number.

Definition newDate (v : value) : option number :=
  if coercion_throws v then None else Some (Date_new v).

(** [None] is a [TypeError] thrown by [isNaN] or [new Date]. *)
Definition processFieldValue (value : JS.value)
    (typeHandler : option FieldTypeHandler) : option JS.value :=
  let rawValue := extractRawValue value in
  match typeHandler with
  | None =>
      match rawValue with
      | VStr _ => Some (VObj [("contains", rawValue)])
      | VObj _ | VDate _ => Some rawValue
      | _ => Some (VObj [("equals", rawValue)])
      end
  | Some typeHandler =>
      match customHandler typeHandler with
      | Some handler => Some (handler rawValue)
      | None =>
          match type typeHandler with
          | TNumber =>
              numValue ←
                match rawValue with
                | VStr _ => n ← toNumber rawValue; Some (VNum n)
                | _ => Some rawValue
                end;
              n ← toNumber numValue;
              Some (if num_isNaN n then VNull
                    else VObj [(operator_or (searchOperator typeHandler) "equals",
                                numValue)])
          | TBoolean =>
              let boolValue :=
                match rawValue with
                | VStr s => String.eqb (toLowerCase s) "true"
                | _ => truthy rawValue
                end in
              Some (VObj [("equals", VBool boolValue)])
          | TDate =>
              dateValue ←
                match rawValue with
                | VDate t => Some t
                | _ => newDate rawValue
                end;
              Some (if num_isNaN dateValue then VNull
                    else VObj [(operator_or (searchOperator typeHandler) "equals",
                                VDate dateValue)])
          | TString =>
              Some (VObj [(operator_or (searchOperator typeHandler) "contains",
                           rawValue)])
          | TCustom => Some (VObj [("equals", rawValue)])
          end
      end
  end.

Section WithConfig.

Variable config : TransformConfig.

Definition fieldNameMappings_ : gmap string string :=
  default ∅ (fieldNameMappings config).
Definition fieldTypeHandlers_ : gmap string FieldTypeHandler :=
  default ∅ (fieldTypeHandlers config).
Definition relationHandlers_ : gmap string RelationHandler :=
  default ∅ (relationHandlers config).

(** [m[key] || key] *)
Definition actualField_of (key : string) : string :=
  match fieldNameMappings_ !! key with
  | Some a => if str_truthy a then a else key
  | None => key
  end.

(** [if (!transformed[relation]) transformed[relation] = {};
     transformed[relation][actualField] = processedValue].
    The module is strict code, so putting a property on a truthy primitive
    throws.  Putting one on an array or a date succeeds in JavaScript but
    gives an object that [value] cannot hold, and the read of
    [transformed[relation]] finds the inherited member when the relation is
    named like one: these cases too are [None]. *)
Definition assign_nested (relation actualField : string)
    (processedValue : value) (transformed : obj) : option obj :=
  if inherited relation then None
  else
    match get relation transformed with
    | Some (VObj o) =>
        inner ← assign actualField processedValue o;
        Some (set relation (VObj inner) transformed)
    | Some cur =>
        if truthy cur then None
        else
          inner ← assign actualField processedValue [];
          Some (set relation (VObj inner) transformed)
    | None =>
        inner ← assign actualField processedValue [];
        Some (set relation (VObj inner) transformed)
    end.

(** One turn of the loop of [transformCondition]. *)
Definition transformField (transformed : obj) (entry : string * value)
    : option obj :=
  let '(key, value) := entry in
  if nullish value then Some transformed
  else if inherited key then None
  else
    let relation := fieldMappings config !! key in
    let actualField := actualField_of key in
    let typeHandler := fieldTypeHandlers_ !! key in
    let relationHandler := relationHandlers_ !! key in
    if match relation with Some r => str_truthy r | None => false end then
      let relation := default "" relation in
      match relationHandler ≫= relationCustomHandler with
      | Some handler =>
          let result := handler value actualField in
          match result with
          | VNull => Some transformed
          | _ => assign relation result transformed
          end
      | None =>
          processedValue ← processFieldValue value typeHandler;
          match processedValue with
          | VNull => Some transformed
          | _ => assign_nested relation actualField processedValue transformed
          end
      end
    else
      processedValue ← processFieldValue value typeHandler;
      match processedValue with
      | VNull => Some transformed
      | _ =>
          if negb (String.eqb actualField key)
          then assign actualField processedValue transformed
          else assign key processedValue transformed
      end.

Definition transformCondition (condition : value) : option value :=
  es ← entries condition;
  transformed ← fold_left (fun acc entry => t ← acc; transformField t entry)
                          es (Some []);
  Some (VObj transformed).

(** [condition && Object.keys(condition).length > 0], on what the maps
    below produce: an object or [null]. *)
Definition nonempty (condition : value) : bool :=
  match condition with
  | VObj (_ :: _) => true
  | _ => false
  end.

(** The callback of [whereConditions.AND.map]. *)
Definition transformAndElement (condition : value) : option value :=
  match condition with
  | VUndefined | VNull => None
  | _ =>
      match prop "OR" condition with
      | Some (VArr ors) =>
          transformedOR ← mapM transformCondition ors;
          let validORConditions := List.filter nonempty transformedOR in
          Some (if (0 <? length validORConditions)%nat
                then VObj [("OR", VArr validORConditions)]
                else VNull)
      | _ => transformCondition condition
      end
  end.

Definition transformWhereClause (whereConditions : value) : option value :=
  if negb (truthy whereConditions) then Some whereConditions
  else
    match prop "AND" whereConditions, prop "OR" whereConditions with
    | Some (VArr conds), _ =>
        mapped ← mapM transformAndElement conds;
        let transformedAND := List.filter nonempty mapped in
        Some (if (0 <? length transformedAND)%nat
              then VObj (set "AND" (VArr transformedAND)
                             (default [] (entries whereConditions)))
              else VObj [])
    | _, Some (VArr conds) =>
        mapped ← mapM transformCondition conds;
        let transformedOR := List.filter nonempty mapped in
        Some (if (0 <? length transformedOR)%nat
              then VObj (set "OR" (VArr transformedOR)
                             (default [] (entries whereConditions)))
              else VObj [])
    | _, _ => transformCondition whereConditions
    end.

Definition transformOrderBy (orderBy : value) : option value :=
  if negb (truthy orderBy) then Some orderBy
  else
    match default [] (entries orderBy) with
    | [] => Some orderBy
    | (field, direction) :: _ =>
        if inherited field then None else
        Some (
        let relation := fieldMappings config !! field in
        let actualField := actualField_of field in
        let relationHandler := relationHandlers_ !! field in
        if match relation with Some r => str_truthy r | None => false end then
          let relation := default "" relation in
          match relationHandler ≫= relationCustomHandler with
          | Some handler => handler direction actualField
          | None =>
              let nestedField :=
                match relationHandler ≫= nestedField with
                | Some n => if str_truthy n then n else actualField
                | None => actualField
                end in
              VObj [(relation, VObj [(nestedField, direction)])]
          end
        else if negb (String.eqb actualField field)
        then VObj [(actualField, direction)]
        else orderBy)
    end.

End WithConfig.

End WithBuiltins.

End Transformer.

(* ================================================================== *)
(** ** src/BuildQueryFilter.ts *)
(* ================================================================== *)

Record BuildQueryResult : Type := {
  query : PrismaQueryOptions;
  validation : ValidationResult
}.

Module Facade.

(** The two private fields of the class. *)
Record BuildQueryFilter : Type := {
  specification : option QuerySpecification;
  transformConfig : option TransformConfig
}.

Section WithBuiltins.

Variable ToNumber : value -> number.
Variable Date_new : value -> number.

(** [if (this.transformConfig && query.where) query.where = ...] *)
Definition applyWhere (this : BuildQueryFilter) (query : PrismaQueryOptions)
    : option PrismaQueryOptions :=
  match transformConfig this with
  | Some config =>
      if truthy (where_ query) then
        w ← Transformer.transformWhereClause ToNumber Date_new config (where_ query);
        Some {| where_ := w; orderBy := orderBy query;
                take := take query; skip := skip query |}
      else Some query
  | None => Some query
  end.

(** [if (this.transformConfig && query.orderBy) query.orderBy = ...] *)
Definition applyOrderBy (this : BuildQueryFilter) (query : PrismaQueryOptions)
    : option PrismaQueryOptions :=
  match transformConfig this with
  | Some config =>
      if truthy (orderBy query) then
        o ← Transformer.transformOrderBy config (orderBy query);
        Some {| where_ := where_ query; orderBy := o;
                take := take query; skip := skip query |}
      else Some query
  | None => Some query
  end.

Definition build (this : BuildQueryFilter) (filter : FilteringQuery)
    : option BuildQueryResult :=
  let validation := Validation.validateQuery Date_new filter (specification this) in
  let query := QueryBuilder.buildFilterQuery filter in
  query ← applyWhere this query;
  query ← applyOrderBy this query;
  Some {| query := query; validation := validation |}.

Definition buildWithoutValidation (this : BuildQueryFilter)
    (filter : FilteringQuery) : option PrismaQueryOptions :=
  let query := QueryBuilder.buildFilterQuery filter in
  query ← applyWhere this query;
  query ← applyOrderBy this query;
  Some query.

Definition validate (this : BuildQueryFilter) (filter : FilteringQuery)
    : ValidationResult :=
  Validation.validateQuery Date_new filter (specification this).

Definition setSpecification (this : BuildQueryFilter)
    (specification : QuerySpecification) : BuildQueryFilter :=
  {| specification := Some specification;
     transformConfig := transformConfig this |}.

Definition setTransformConfig (this : BuildQueryFilter)
    (config : TransformConfig) : BuildQueryFilter :=
  {| specification := specification this; transformConfig := Some config |}.

End WithBuiltins.

End Facade.

(* ================================================================== *)
(** * Statements *)
(* ================================================================== *)

(** ** On the compiler's output *)

(** The equality-style predicate of one filter value: [{ key: v }], or
    [{ relation: { column: v } }] for a dotted key. *)
Definition equality_predicate (key : string) (v : value) : value :=
  if includes dot key
  then QueryBuilder.nested (part 0 (split dot key)) (part 1 (split dot key)) v
  else VObj [(key, v)].

(** The contains-predicate of one search value. *)
Definition contains_predicate (key : string) (v : value) : value :=
  equality_predicate key (VObj [("contains", v)]).

(** The closed-interval predicate of one ranged filter. *)
Definition range_predicate (r : RangedFilter) : value :=
  equality_predicate (key r) (VObj [("gte", start r); ("lte", end_ r)]).

(** What a filter of the map contributes to [AND]: an [OR] of one
    predicate per element for an array, one predicate otherwise. *)
Definition filter_entry (kv : string * value) : value :=
  match kv.2 with
  | VArr vs => VObj [("OR", VArr (map (equality_predicate kv.1) vs))]
  | v => equality_predicate kv.1 v
  end.

(** The same, as a relation between the map's entry and the [AND] entry. *)
Definition entry_for (kv : string * value) (e : value) : Prop :=
  match kv.2 with
  | VArr vs =>
      exists preds,
        e = VObj [("OR", VArr preds)] /\
        Forall2 (fun x p => p = equality_predicate kv.1 x) vs preds
  | v => e = equality_predicate kv.1 v
  end.

(** The request with the filters map whose members were written in the
    given order, and nothing else. *)
Definition written (members : obj) : FilteringQuery :=
  {| filters := Some (own_entries members); searchFilters := None;
     rangedFilters := None; orderKey := None; orderRule := None;
     page := None; rows := None |}.

(** No key is an array index. *)
Definition named (members : obj) : Prop :=
  Forall (fun kv => array_index kv.1 = None) members.

(** The member's key is an array index; its value if it is one. *)
Definition is_index (kv : string * value) : bool :=
  match array_index kv.1 with Some _ => true | None => false end.

Definition index_of (kv : string * value) : N :=
  default 0%N (array_index kv.1).

(** No member has a smaller index than one before it. *)
Fixpoint ascending (l : obj) : Prop :=
  match l with
  | [] => True
  | a :: r => Forall (fun b => (index_of a <= index_of b)%N) r /\ ascending r
  end.

(** [m] lists the members the way [Object.entries] does: those whose key
    is an array index first, in ascending order of index, then the others
    in the order in which they were written. *)
Definition entries_order (members m : obj) : Prop :=
  exists indexed,
    m = indexed ++ List.filter (fun kv => negb (is_index kv)) members /\
    ascending indexed /\
    (forall kv, In kv indexed <-> In kv members /\ is_index kv = true).

(** The entries of a map whose value is neither [null] nor [undefined]. *)
Definition present (m : obj) : obj :=
  List.filter (fun kv => negb (nullish kv.2)) m.

(** What the later stages of [buildFilterQuery] append. *)
Definition search_conditions (fq : FilteringQuery) : list value :=
  match searchFilters fq with
  | Some s => QueryBuilder.buildSearchQuery s
  | None => []
  end.

Definition range_conditions (fq : FilteringQuery) : list value :=
  match rangedFilters fq with
  | Some r => QueryBuilder.buildRangedFilter r
  | None => []
  end.

Definition filter_conditions (fq : FilteringQuery) : list value :=
  match filters fq with
  | Some f => QueryBuilder.buildWhereQuery f
  | None => []
  end.

(** [where.AND] of a compiled query. *)
Definition and_of (w : value) : list value :=
  match w with
  | VObj o =>
      match get "AND" o with
      | Some (VArr l) => l
      | _ => []
      end
  | _ => []
  end.

(** *** Filters as worded: the entries of [AND] follow the order in which
    the members of the map were inserted. *)
Definition insertion_order_claim (members : obj) : Prop :=
  Forall2 entry_for (present members)
          (and_of (where_ (QueryBuilder.buildFilterQuery (written members)))).

(** *** Search: the two readings of the sentence as worded

    "One search field is present" either counts the keys of the map or
    counts the keys whose value is neither null nor undefined. *)

Definition search_or (s : obj) : value :=
  VObj [("OR", VArr (map (fun kv => contains_predicate kv.1 kv.2) (present s)))].

Definition search_direct (s : obj) : list value :=
  map (fun kv => contains_predicate kv.1 kv.2) (present s).

Definition search_claim_by_keys (s : obj) : Prop :=
  (length s = 1%nat -> QueryBuilder.buildSearchQuery s = search_direct s) /\
  ((1 < length s)%nat -> QueryBuilder.buildSearchQuery s = [search_or s]).

Definition search_claim_by_values (s : obj) : Prop :=
  (length (present s) = 1%nat -> QueryBuilder.buildSearchQuery s = search_direct s) /\
  ((1 < length (present s))%nat -> QueryBuilder.buildSearchQuery s = [search_or s]).

(** *** Pagination as worded: "set" is "not undefined". *)

Definition pagination_claim (fq : FilteringQuery) : Prop :=
  let q := QueryBuilder.buildFilterQuery fq in
  match page fq, rows fq with
  | Some p, Some r => take q = r /\ skip q = num_mul (num_sub p (Num 1)) r
  | Some p, None => take q = Num 10 /\ skip q = num_mul (Num 10) (num_sub p (Num 1))
  | None, _ => take q = Num 10 /\ skip q = Num 0
  end.

(** [take] and [skip] of the compiled query. *)
Definition take_skip (fq : FilteringQuery) : number * number :=
  (take (QueryBuilder.buildFilterQuery fq), skip (QueryBuilder.buildFilterQuery fq)).

(** A field that is [undefined], [0] or [NaN]: what [if (field)] skips. *)
Definition falsy_field (o : option number) : Prop :=
  o = None \/ o = Some (Num 0) \/ o = Some NaN.

(** *** Dotted keys as worded: split at the first dot only. *)

Fixpoint split_first (c : ascii) (s : string) : string * string :=
  match s with
  | EmptyString => (EmptyString, EmptyString)
  | String a r =>
      if Ascii.eqb a c then (EmptyString, r)
      else let '(h, t) := split_first c r in (String a h, t)
  end.

Definition first_dot_predicate (key : string) (v : value) : value :=
  let '(relation, column) := split_first dot key in
  QueryBuilder.nested relation column v.

(** [.s1.s2...sn]: the further segments of a key, each after its dot. *)
Definition dotted_tail (more : list string) : string :=
  fold_right (fun seg acc => String dot (seg +:+ acc)) EmptyString more.

(** ** On the validator's output *)

(** An ASCII digit. *)
Definition digit_char (c : ascii) : Prop :=
  In c (list_ascii_of_string "0123456789").

Fixpoint all_digits (s : string) : Prop :=
  match s with
  | EmptyString => True
  | String c r => digit_char c /\ all_digits r
  end.

(** A run of exactly [n] digits. *)
Definition digit_run (n : nat) (s : string) : Prop :=
  String.length s = n /\ all_digits s.

(** The optional fraction: nothing, or a dot and at least one digit. *)
Definition fraction (s : string) : Prop :=
  s = EmptyString \/
  exists ds, ds <> EmptyString /\ all_digits ds /\ s = String "." ds.

(** The fraction as the sentence words it, [.fff]: nothing, or a dot and
    three digits. *)
Definition millis_fraction (s : string) : Prop :=
  s = EmptyString \/ exists ds, digit_run 3 ds /\ s = String "." ds.

(** [YYYY-MM-DDTHH:mm:ss<fraction>Z], for a given notion of fraction. *)
Definition iso_utc_shape (F : string -> Prop) (s : string) : Prop :=
  exists Y M D h m sec frac,
    digit_run 4 Y /\ digit_run 2 M /\ digit_run 2 D /\
    digit_run 2 h /\ digit_run 2 m /\ digit_run 2 sec /\ F frac /\
    s = Y +:+ "-" +:+ M +:+ "-" +:+ D +:+ "T" +:+ h +:+ ":" +:+ m +:+ ":"
        +:+ sec +:+ frac +:+ "Z".

(** The shape the validator checks: any number of fraction digits. *)
Definition iso_utc_format : string -> Prop := iso_utc_shape fraction.

(** The shape as worded, [YYYY-MM-DDTHH:mm:ss[.fff]Z]. *)
Definition iso_utc_millis_format : string -> Prop := iso_utc_shape millis_fraction.

(** The date-ordering error of a range with string bounds. *)
Definition date_order_message (s e : string) : string :=
  "Range start date '" +:+ s +:+ "' is after end date '" +:+ e +:+ "'".

(** Date-ordering errors are told from the validator's other messages by
    how they start. *)
Fixpoint starts_with (p s : string) : bool :=
  match p with
  | EmptyString => true
  | String a p' =>
      match s with
      | String b s' => Ascii.eqb a b && starts_with p' s'
      | EmptyString => false
      end
  end.

Definition is_date_order_error (msg : string) : bool :=
  starts_with "Range start date '" msg.

Section DateOrder.

Variable Date_new : value -> number.

(** Both bounds are strings of the strict shape and the parsed start is
    strictly after the parsed end. *)
Definition out_of_order (r : RangedFilter) (msg : string) : Prop :=
  exists s e,
    start r = VStr s /\ end_ r = VStr e /\
    iso_utc_format s /\ iso_utc_format e /\
    num_gt (Date_new (VStr s)) (Date_new (VStr e)) = true /\
    msg = date_order_message s e.

(** A bound that is no string, or a string of another shape. *)
Definition unchecked_bound (v : value) : Prop :=
  forall s, v = VStr s -> ~ iso_utc_format s.

(** The date-ordering errors a list of ranges calls for: one per range that
    is out of order, in the order of the ranges. *)
Inductive DateErrors : list RangedFilter -> list string -> Prop :=
| DateErrors_nil : DateErrors [] []
| DateErrors_emit r rs msg msgs :
    out_of_order r msg -> DateErrors rs msgs ->
    DateErrors (r :: rs) (msg :: msgs)
| DateErrors_skip r rs msgs :
    (forall msg, ~ out_of_order r msg) -> DateErrors rs msgs ->
    DateErrors (r :: rs) msgs.

(** The guard of the date check, as the loop body evaluates it. *)
Definition date_check (r : RangedFilter) : bool :=
  Validation.isValidDate (start r) && Validation.isValidDate (end_ r)
  && num_gt (Date_new (start r)) (Date_new (end_ r)).

End DateOrder.

(** The date-ordering errors logged so far. *)
Definition date_errors (l : Validation.Log) : list string :=
  List.filter is_date_order_error (Validation.log_errors l).


(** ** On the extractor's result *)

(** What one of the three guarded [JSON.parse] blocks does to [filter]
    and to the console. *)
Definition after_json {A} (decode : string -> option A)
    (setter : option A -> FilteringQuery -> FilteringQuery)
    (p : option Param) (q : FilteringQuery) : FilteringQuery :=
  if Extractor.param_truthy p then
    match Extractor.first_value p with
    | Some s =>
        match decode s with
        | Some a => setter (Some a) q
        | None => q
        end
    | None => setter None q
    end
  else q.

Definition json_warning {A} (decode : string -> option A) (msg : string)
    (p : option Param) : list string :=
  if Extractor.param_truthy p then
    match Extractor.first_value p with
    | Some s =>
        match decode s with
        | Some _ => []
        | None => [msg +:+ "SyntaxError"]
        end
    | None => []
    end
  else [].

Section Extracted.

Variable JSON_parse_record : string -> option obj.
Variable JSON_parse_ranges : string -> option (list RangedFilter).
Variable parseInt : string -> number.

(** What a call returns, [None] if it threw. *)
Definition extracted (queryParams : gmap string Param) : option FilteringQuery :=
  match Extractor.run JSON_parse_record JSON_parse_ranges parseInt queryParams [] with
  | (Extractor.Ok fq, _) => Some fq
  | (Extractor.Thrown _, _) => None
  end.






(** The fields of the result, block by block. *)
Definition extract_fields (queryParams : gmap string Param) : FilteringQuery :=
  let q := emptyQuery in
  let q := after_json JSON_parse_record Extractor.set_filters
             (queryParams !! "filters") q in
  let q := after_json JSON_parse_record Extractor.set_searchFilters
             (queryParams !! "searchFilters") q in
  let q := after_json JSON_parse_ranges Extractor.set_rangedFilters
             (queryParams !! "rangedFilters") q in
  let q := if Extractor.param_truthy (queryParams !! "orderKey")
           then Extractor.set_orderKey
                  (Extractor.first_value (queryParams !! "orderKey")) q
           else q in
  let q := if Extractor.param_truthy (queryParams !! "orderRule")
           then Extractor.set_orderRule
                  (Extractor.first_value (queryParams !! "orderRule")) q
           else q in
  let q := if Extractor.param_truthy (queryParams !! "page")
           then Extractor.set_page
                  (Some (Extractor.parseInt_arg parseInt
                           (Extractor.first_value (queryParams !! "page")))) q
           else q in
  if Extractor.param_truthy (queryParams !! "rows")
  then Extractor.set_rows
         (Some (Extractor.parseInt_arg parseInt
                  (Extractor.first_value (queryParams !! "rows")))) q
  else q.

End Extracted.

(** ** On the transformer's output *)






(** The names a configuration relocates and renames fields to are not
    named like a member of [Object.prototype]. *)
Definition own_targets (config : TransformConfig) : Prop :=
  (forall k r, fieldMappings config !! k = Some r ->
               Transformer.inherited r = false) /\
  (forall k a, default ∅ (fieldNameMappings config) !! k = Some a ->
               Transformer.inherited a = false).

Section Transformed.

Variable ToNumber : value -> number.
Variable Date_new : value -> number.
Variable config : TransformConfig.





End Transformed.

(** *** The empty configuration and what it does to compiled trees *)

(** No relation, no renaming, no handler: each map is empty, the optional
    ones possibly absent. *)
Definition empty_maps (config : TransformConfig) : Prop :=
  fieldMappings config = ∅ /\
  default ∅ (fieldNameMappings config) = ∅ /\
  default ∅ (fieldTypeHandlers config) = ∅ /\
  default ∅ (relationHandlers config) = ∅.

Definition empty_config : TransformConfig :=
  {| fieldMappings := ∅; fieldNameMappings := None;
     fieldTypeHandlers := None; relationHandlers := None |}.

Definition scalar (v : value) : Prop :=
  match v with
  | VStr _ | VNum _ | VBool _ => True
  | _ => False
  end.

(** The default predicate wrapper of a scalar. *)
Definition default_wrapper (v : value) : value :=
  match v with
  | VStr _ => VObj [("contains", v)]
  | _ => VObj [("equals", v)]
  end.

(** The sentence as worded: [t'] is [t] with the same keys, the same
    sequences and the same leaves, where a scalar leaf may have been put in
    its default wrapper. *)
Unset Elimination Schemes.
Inductive Normalized : value -> value -> Prop :=
| Normalized_same v : Normalized v v
| Normalized_wrap v : scalar v -> Normalized v (default_wrapper v)
| Normalized_arr l l' :
    Forall2 Normalized l l' -> Normalized (VArr l) (VArr l')
| Normalized_obj o o' :
    Forall2 (fun kv kv' => kv.1 = kv'.1 /\ Normalized kv.2 kv'.2) o o' ->
    Normalized (VObj o) (VObj o').
Set Elimination Schemes.

(** The tree with every scalar field value in its default wrapper. *)
Definition normalize_condition (c : value) : value :=
  match c with
  | VObj [(k, (VStr _ | VNum _ | VBool _) as v)] => VObj [(k, default_wrapper v)]
  | _ => c
  end.

Definition normalize_element (c : value) : value :=
  match c with
  | VObj [(k, VArr cs)] =>
      if String.eqb "OR" k then VObj [(k, VArr (map normalize_condition cs))]
      else c
  | _ => normalize_condition c
  end.

Definition normalize_where (w : value) : value :=
  match and_of w with
  | [] => VObj []
  | cs => VObj [("AND", VArr (map normalize_element cs))]
  end.

(** Requests on which the empty configuration only wraps: no ranged
    filter, keys without a dot that are not named like a member of
    [Object.prototype], filter values that are scalars or non-empty arrays
    of scalars, search values that are strings; [null] and [undefined]
    values are skipped by the compiler and may stand anywhere. *)
Definition plain_key (k : string) : Prop :=
  includes dot k = false /\ Transformer.inherited k = false.

Definition plain_filter (kv : string * value) : Prop :=
  plain_key kv.1 /\
  (scalar kv.2 \/ nullish kv.2 = true \/
   exists vs, kv.2 = VArr vs /\ vs <> [] /\ Forall scalar vs).

Definition plain_search (kv : string * value) : Prop :=
  plain_key kv.1 /\
  ((exists s, kv.2 = VStr s) \/ nullish kv.2 = true).

Definition plain_request (fq : FilteringQuery) : Prop :=
  Forall plain_filter (default [] (filters fq)) /\
  Forall plain_search (default [] (searchFilters fq)) /\
  default [] (rangedFilters fq) = [].

(** The conditions such a request compiles to. *)
Definition flat_condition (c : value) : Prop :=
  exists k v,
    c = VObj [(k, v)] /\ Transformer.inherited k = false /\
    (scalar v \/ exists s, v = VObj [("contains", VStr s)]).

Definition flat_element (c : value) : Prop :=
  flat_condition c \/
  exists cs, c = VObj [("OR", VArr cs)] /\ cs <> [] /\ Forall flat_condition cs.

(** ** Sample requests *)

Definition sample_filters : FilteringQuery :=
  {| filters := Some [("status", VStr "active");
                      ("category", VArr [VStr "a"; VStr "b"]);
                      ("deleted", VNull);
                      ("author.name", VStr "ann")];
     searchFilters := None; rangedFilters := None;
     orderKey := None; orderRule := None; page := None; rows := None |}.


(** A map with a key that is an array index, written last. *)
Definition members_b_1 : obj := [("b", VNum (Num 1)); ("1", VNum (Num 2))].

(** A request with nothing but pagination fields. *)
Definition paged (p r : option number) : FilteringQuery :=
  {| filters := None; searchFilters := None; rangedFilters := None;
     orderKey := None; orderRule := None; page := p; rows := r |}.

Definition allow_a : QuerySpecification :=
  {| allowedFields := Some ["a"]; allowedOperators := None;
     allowedRelations := None; maxPageSize := None; defaultPageSize := None;
     requiredFields := None; forbiddenFields := None |}.

Definition allow_a_forbid_b : QuerySpecification :=
  {| allowedFields := Some ["a"]; allowedOperators := None;
     allowedRelations := None; maxPageSize := None; defaultPageSize := None;
     requiredFields := None; forbiddenFields := Some ["b"] |}.

Definition forbid_b : QuerySpecification :=
  {| allowedFields := None; allowedOperators := None;
     allowedRelations := None; maxPageSize := None; defaultPageSize := None;
     requiredFields := None; forbiddenFields := Some ["b"] |}.

Definition filter_b : FilteringQuery :=
  {| filters := Some [("b", VNum (Num 1))];
     searchFilters := None; rangedFilters := None;
     orderKey := None; orderRule := None; page := None; rows := None |}.

Definition search_b : FilteringQuery :=
  {| filters := None; searchFilters := Some [("b", VStr "x")];
     rangedFilters := None;
     orderKey := None; orderRule := None; page := None; rows := None |}.

Definition range_b : FilteringQuery :=
  {| filters := None; searchFilters := None;
     rangedFilters := Some [{| key := "b"; start := VNum (Num 1); end_ := VNum (Num 2) |}];
     orderKey := None; orderRule := None; page := None; rows := None |}.

Definition order_b : FilteringQuery :=
  {| filters := None; searchFilters := None; rangedFilters := None;
     orderKey := Some "b"; orderRule := None; page := None; rows := None |}.

(** A stand-in for the [Date] constructor that knows three instants. *)
Definition sample_Date_new (v : value) : number :=
  match v with
  | VStr s =>
      if String.eqb s "2023-12-31T00:00:00Z" then Num 1703980800000
      else if String.eqb s "2023-12-31T00:00:00.5Z" then Num 1703980800500
      else if String.eqb s "2023-01-01T00:00:00Z" then Num 1672531200000
      else NaN
  | _ => NaN
  end.

Definition range_backwards : FilteringQuery :=
  {| filters := None; searchFilters := None;
     rangedFilters :=
       Some [{| key := "createdAt";
                start := VStr "2023-12-31T00:00:00Z";
                end_ := VStr "2023-01-01T00:00:00Z" |}];
     orderKey := None; orderRule := None; page := None; rows := None |}.

(** Stand-ins for [JSON.parse] and [parseInt] that know one input each. *)
Definition sample_parse_record (s : string) : option obj :=
  if String.eqb s "{}" then Some [] else None.

Definition sample_parse_ranges (s : string) : option (list RangedFilter) :=
  if String.eqb s "[]" then Some [] else None.

Definition sample_parseInt (s : string) : number :=
  if String.eqb s "2" then Num 2 else NaN.

Definition params_bad_filters : gmap string Param :=
  {[ "filters" := PStr "{oops"; "searchFilters" := PStr "{}";
     "page" := PArr ["2"; "3"] ]}.

(** Stand-ins for [ToNumber]: never consulted without a type handler. *)
Definition sample_ToNumber (v : value) : number :=
  match v with
  | VNum n => n
  | _ => NaN
  end.

Definition range_price : FilteringQuery :=
  {| filters := None; searchFilters := None;
     rangedFilters :=
       Some [{| key := "price"; start := VNum (Num 10); end_ := VNum (Num 100) |}];
     orderKey := None; orderRule := None; page := None; rows := None |}.

Definition filter_status : FilteringQuery :=
  {| filters := Some [("status", VStr "active");
                      ("category", VArr [VStr "a"; VNum (Num 2)]);
                      ("deleted", VNull)];
     searchFilters := Some [("title", VStr "x")]; rangedFilters := None;
     orderKey := None; orderRule := None; page := None; rows := None |}.

Definition dotted_author : FilteringQuery :=
  {| filters := Some [("author.name", VStr "ann")];
     searchFilters := None; rangedFilters := None;
     orderKey := None; orderRule := None; page := None; rows := None |}.



Definition range_half_second : FilteringQuery :=
  {| filters := None; searchFilters := None;
     rangedFilters :=
       Some [{| key := "createdAt";
                start := VStr "2023-12-31T00:00:00.5Z";
                end_ := VStr "2023-01-01T00:00:00Z" |}];
     orderKey := None; orderRule := None; page := None; rows := None |}.

(* ================================================================== *)
(** * Further statements *)
(* ================================================================== *)

(** ** On the compiler's output *)

(** [{ gte: start, lte: end }] *)
Definition bounds (r : RangedFilter) : value :=
  VObj [("gte", start r); ("lte", end_ r)].

(** The entry of a ranged filter: its bounds under the key, or under
    relation and column for a key with dots. *)
Definition range_entry (r : RangedFilter) (e : value) : Prop :=
  (includes dot (key r) = false -> e = VObj [(key r, bounds r)]) /\
  (forall relation column more,
     includes dot relation = false ->
     includes dot column = false ->
     key r = relation +:+ String dot (column +:+ dotted_tail more) ->
     e = QueryBuilder.nested relation column (bounds r)).



(** ** On the validator's result *)

(** The request cut down to one of its five parts. *)
Definition only_filters (fq : FilteringQuery) : FilteringQuery :=
  {| filters := filters fq; searchFilters := None; rangedFilters := None;
     orderKey := None; orderRule := None; page := None; rows := None |}.

Definition only_searchFilters (fq : FilteringQuery) : FilteringQuery :=
  {| filters := None; searchFilters := searchFilters fq; rangedFilters := None;
     orderKey := None; orderRule := None; page := None; rows := None |}.

Definition only_rangedFilters (fq : FilteringQuery) : FilteringQuery :=
  {| filters := None; searchFilters := None; rangedFilters := rangedFilters fq;
     orderKey := None; orderRule := None; page := None; rows := None |}.

Definition only_order (fq : FilteringQuery) : FilteringQuery :=
  {| filters := None; searchFilters := None; rangedFilters := None;
     orderKey := orderKey fq; orderRule := orderRule fq;
     page := None; rows := None |}.

Definition only_pagination (fq : FilteringQuery) : FilteringQuery :=
  {| filters := None; searchFilters := None; rangedFilters := None;
     orderKey := None; orderRule := None; page := page fq; rows := rows fq |}.

(** The two message arrays, one after the other. *)
Definition log_app (l1 l2 : Validation.Log) : Validation.Log :=
  {| Validation.log_errors := Validation.log_errors l1 ++ Validation.log_errors l2;
     Validation.log_warnings := Validation.log_warnings l1 ++ Validation.log_warnings l2 |}.

Definition empty_log : Validation.Log :=
  {| Validation.log_errors := []; Validation.log_warnings := [] |}.

(** A helper that only pushes: what it returns is what it was given,
    followed by what it returns on empty arrays. *)
Definition appends (f : Validation.Log -> Validation.Log) : Prop :=
  forall l, f l = log_app l (f empty_log).

(** The result object built from the two arrays. *)
Definition result_of (l : Validation.Log) : ValidationResult :=
  {| isValid := (length (Validation.log_errors l) =? 0)%nat;
     errors := Validation.log_errors l;
     warnings := Validation.log_warnings l |}.

(** The five steps of [validateQuery] under a specification. *)
Section Stages.

Variable Date_new : value -> number.
Variable specification : QuerySpecification.
Variable query : FilteringQuery.

Definition filters_stage (l : Validation.Log) : Validation.Log :=
  match filters query with
  | Some f => Validation.validateFilters f specification l
  | None => l
  end.

Definition search_stage (l : Validation.Log) : Validation.Log :=
  match searchFilters query with
  | Some s => Validation.validateSearchFilters s specification l
  | None => l
  end.

Definition ranges_stage (l : Validation.Log) : Validation.Log :=
  match rangedFilters query with
  | Some r => Validation.validateRangedFilters Date_new r specification l
  | None => l
  end.

Definition order_stage (l : Validation.Log) : Validation.Log :=
  match orderKey query with
  | Some k =>
      if str_truthy k then Validation.validateOrderKey k specification l else l
  | None => l
  end.

Definition pagination_stage (l : Validation.Log) : Validation.Log :=
  Validation.validatePagination query specification l.

End Stages.

(** The key [k] is checked by the validator: it names a filter or a
    search filter whose value is neither null nor undefined, a ranged
    filter, or the order. *)
Definition checked_key (fq : FilteringQuery) (k : string) : Prop :=
  (exists v, In (k, v) (present (default [] (filters fq)))) \/
  (exists v, In (k, v) (present (default [] (searchFilters fq)))) \/
  (exists r, In r (default [] (rangedFilters fq)) /\ key r = k) \/
  orderKey fq = Some k.

(** [page] passes: absent, not a number, or at least 1. *)
Definition page_passes (fq : FilteringQuery) : Prop :=
  match page fq with
  | Some (Num p) => 1 <= p
  | _ => True
  end.

(** [rows] passes: absent, not a number, or at least 1 and not above a
    [maxPageSize] that is a number other than 0. *)
Definition rows_passes (fq : FilteringQuery) (specification : QuerySpecification)
    : Prop :=
  match rows fq with
  | Some (Num r) =>
      1 <= r /\
      match maxPageSize specification with
      | Some (Num m) => m = 0 \/ r <= m
      | _ => True
      end
  | _ => True
  end.

Definition without_allowedFields (specification : QuerySpecification)
    : QuerySpecification :=
  {| allowedFields := None;
     allowedOperators := allowedOperators specification;
     allowedRelations := allowedRelations specification;
     maxPageSize := maxPageSize specification;
     defaultPageSize := defaultPageSize specification;
     requiredFields := requiredFields specification;
     forbiddenFields := forbiddenFields specification |}.

(** ** Samples for the validator *)

Definition allow_author_relation : QuerySpecification :=
  {| allowedFields := None; allowedOperators := None;
     allowedRelations := Some ["author"]; maxPageSize := None;
     defaultPageSize := None; requiredFields := None; forbiddenFields := None |}.

Definition filter_owner_name : FilteringQuery :=
  {| filters := Some [("owner.name", VStr "ann")];
     searchFilters := None; rangedFilters := None;
     orderKey := None; orderRule := None; page := None; rows := None |}.

(** ** On what the extractor reads *)

(** The seven parameters the extractor looks at. *)
Definition extractor_keys : list string :=
  ["filters"; "searchFilters"; "rangedFilters"; "orderKey"; "orderRule";
   "page"; "rows"].

(** Two ways of giving a parameter that the extractor cannot tell apart:
    the same value; a repeated parameter and its first occurrence, when that
    is not the empty string; the empty string and no parameter at all. *)
Inductive reads_alike : option Param -> option Param -> Prop :=
| alike_same p : reads_alike p p
| alike_first s rest :
    s <> EmptyString -> reads_alike (Some (PArr (s :: rest))) (Some (PStr s))
| alike_empty : reads_alike (Some (PStr EmptyString)) None.

(** The console after a call that found [out] on it: one warning for
    each of the three decoded parameters that did not decode, in the order
    of the blocks. *)
Definition console_after
    (JSON_parse_record : string -> option obj)
    (JSON_parse_ranges : string -> option (list RangedFilter))
    (queryParams : gmap string Param) (out : list string) : list string :=
  out
  ++ json_warning JSON_parse_record "Failed to parse filters: "
       (queryParams !! "filters")
  ++ json_warning JSON_parse_record "Failed to parse searchFilters: "
       (queryParams !! "searchFilters")
  ++ json_warning JSON_parse_ranges "Failed to parse rangedFilters: "
       (queryParams !! "rangedFilters").

Definition params_repeated : gmap string Param :=
  {[ "orderKey" := PArr ["name"; "age"]; "page" := PStr "";
     "sessionId" := PStr "abc" ]}.

Definition params_single : gmap string Param :=
  {[ "orderKey" := PStr "name" ]}.

(** ** On the transformer's output, field by field *)

(** What a predicate becomes: the same as an element of [AND] and inside
    an [OR]. *)
Definition becomes (ToNumber Date_new : value -> number) (config : TransformConfig)
    (c t : value) : Prop :=
  Transformer.transformCondition ToNumber Date_new config c = Some t /\
  Transformer.transformAndElement ToNumber Date_new config c = Some t.

(** The relation a key is mapped to: an empty name counts as none. *)
Definition relation_of (config : TransformConfig) (k : string) : option string :=
  match fieldMappings config !! k with
  | Some r => if str_truthy r then Some r else None
  | None => None
  end.

(** The predicate [pv] at the place the configuration gives the key:
    under its new name, inside its relation if it has one. *)
Definition placed (config : TransformConfig) (k : string) (pv : value) : value :=
  match relation_of config k with
  | Some relation =>
      VObj [(relation, VObj [(Transformer.actualField_of config k, pv)])]
  | None => VObj [(Transformer.actualField_of config k, pv)]
  end.

(** The key has no relation handler with a function of its own. *)
Definition no_relation_function (config : TransformConfig) (k : string) : Prop :=
  default ∅ (relationHandlers config) !! k ≫= relationCustomHandler = None.

(** The request with one filter and nothing else. *)
Definition one_filter (k : string) (v : value) : FilteringQuery :=
  {| filters := Some [(k, v)]; searchFilters := None; rangedFilters := None;
     orderKey := None; orderRule := None; page := None; rows := None |}.

(** A handler of type number or date, without a function of its own, that
    cannot convert the string [s]. *)
Definition cannot_convert (ToNumber Date_new : value -> number)
    (h : FieldTypeHandler) (s : string) : Prop :=
  customHandler h = None /\
  (type h = TNumber /\ ToNumber (VStr s) = NaN \/
   type h = TDate /\ Date_new (VStr s) = NaN).

(** ** Samples for the transformer *)

Definition created_range : RangedFilter :=
  {| key := "createdAt"; start := VStr "2024-01-01"; end_ := VStr "2024-12-31" |}.

(** A value whose conversion to a primitive throws. *)
Definition unprintable : value :=
  VObj [("x", VObj [("toString", VNum (Num 1)); ("valueOf", VNum (Num 1))])].

Definition number_handler : FieldTypeHandler :=
  {| type := TNumber; searchOperator := None; customHandler := None |}.

(** [age] is a number and lives in [profile] under the name [years]. *)
Definition profile_config : TransformConfig :=
  {| fieldMappings := {[ "age" := "profile" ]};
     fieldNameMappings := Some {[ "age" := "years" ]};
     fieldTypeHandlers := Some {[ "age" := number_handler ]};
     relationHandlers := None |}.

(** ** On the facade *)





(** The direction the compiler gives the order: the request's, [asc]
    without one. *)
Definition direction (fq : FilteringQuery) : value :=
  VStr (default "asc" (orderRule fq)).

(** The name the order uses inside a relation: the relation handler's
    [nestedField] if it has a non-empty one, the key's new name otherwise. *)
Definition nested_name (config : TransformConfig) (k : string) : string :=
  match default ∅ (relationHandlers config) !! k ≫= nestedField with
  | Some n => if str_truthy n then n else Transformer.actualField_of config k
  | None => Transformer.actualField_of config k
  end.

Definition order_by_age : FilteringQuery :=
  {| filters := None; searchFilters := None; rangedFilters := None;
     orderKey := Some "age"; orderRule := Some "desc";
     page := None; rows := None |}.

Definition profile_facade : Facade.BuildQueryFilter :=
  {| Facade.specification := Some allow_a;
     Facade.transformConfig := Some profile_config |}.

Definition params_page_word : gmap string Param :=
  {[ "page" := PStr "two"; "rows" := PStr "2" ]}.

(** ** On transforming what was transformed *)

(** A predicate in its default wrapper, on a key that is not named like a
    member of [Object.prototype]. *)
Definition wrapped_condition (c : value) : Prop :=
  exists k v,
    c = VObj [(k, default_wrapper v)] /\
    Transformer.inherited k = false /\ scalar v.

Definition wrapped_element (c : value) : Prop :=
  wrapped_condition c \/
  exists cs, c = VObj [("OR", VArr cs)] /\ cs <> [] /\ Forall wrapped_condition cs.
(* ================================================================== *)
(** * Proofs *)
(* ================================================================== *)

(** ** Loops that push *)

Lemma fold_left_push {A B} (skip : A -> bool) (f : A -> B) (l : list A) :
  forall acc,
    fold_left (fun acc x => if skip x then acc else push acc (f x)) l acc
    = acc ++ map f (List.filter (fun x => negb (skip x)) l).
Proof.
  induction l as [|x l IH]; intros acc; simpl.
  - now rewrite app_nil_r.
  - rewrite IH. destruct (skip x); simpl; [reflexivity|].
    unfold push. now rewrite <- app_assoc.
Qed.

Lemma fold_left_ext {A B} (f g : B -> A -> B) (l : list A) :
  (forall b a, f b a = g b a) ->
  forall b, fold_left f l b = fold_left g l b.
Proof.
  intros E. induction l as [|x l IH]; intros b; simpl; [reflexivity|].
  now rewrite E, IH.
Qed.

(** ** The filters stage *)

Lemma buildWhereQuery_map (m : obj) :
  QueryBuilder.buildWhereQuery m = map filter_entry (present m).
Proof.
  unfold QueryBuilder.buildWhereQuery, present.
  rewrite (fold_left_ext _
             (fun acc kv => if nullish kv.2 then acc else push acc (filter_entry kv))).
  - now rewrite fold_left_push.
  - intros acc [k v]. unfold filter_entry, equality_predicate; simpl.
    destruct (nullish v) eqn:N; [reflexivity|].
    destruct (includes dot k); destruct v; try reflexivity; discriminate.
Qed.

Lemma filter_entry_entry_for (kv : string * value) : entry_for kv (filter_entry kv).
Proof.
  destruct kv as [k v]. unfold entry_for, filter_entry. simpl.
  destruct v; try reflexivity.
  eexists. split; [reflexivity|].
  induction l; simpl; constructor; auto.
Qed.

Lemma buildFilterQuery_where (fq : FilteringQuery) :
  where_ (QueryBuilder.buildFilterQuery fq)
  = VObj [("AND", VArr (filter_conditions fq ++ search_conditions fq
                          ++ range_conditions fq))].
Proof.
  unfold QueryBuilder.buildFilterQuery, filter_conditions, search_conditions,
    range_conditions.
  destruct (QueryBuilder.buildPagination fq) as [t s]. simpl.
  destruct (filters fq), (searchFilters fq), (rangedFilters fq); simpl;
    rewrite ?app_nil_r, <- ?app_assoc; reflexivity.
Qed.

(** ** The order of the map *)

Lemma set_named (k : string) (v : value) (o : obj) :
  ~ In k (map fst o) -> array_index k = None ->
  set k v o = o ++ [(k, v)].
Proof.
  intros Hk Hi. induction o as [|[k' v'] o IH]; [reflexivity|].
  cbn [set app]. cbn [map fst In] in Hk.
  destruct (String.eqb_spec k k') as [->|_]; [tauto|].
  unfold precedes. rewrite Hi. rewrite IH by tauto. reflexivity.
Qed.

Lemma fold_set_named (members acc : obj) :
  List.NoDup (map fst (acc ++ members)) -> named members ->
  fold_left (fun o '(k, v) => set k v o) members acc = acc ++ members.
Proof.
  revert acc. induction members as [|[k v] members IH]; intros acc Hd Hn.
  - now rewrite app_nil_r.
  - inversion Hn as [|? ? Hk Hn']; subst. cbn [fold_left]. cbn [fst] in Hk.
    assert (Hfresh : ~ In k (map fst acc)).
    { pose proof Hd as Hd'. rewrite map_app in Hd'. cbn [map fst] in Hd'.
      apply List.NoDup_remove_2 in Hd'. rewrite in_app_iff in Hd'. tauto. }
    rewrite (set_named k v acc Hfresh Hk).
    rewrite IH; [now rewrite <- app_assoc| |exact Hn'].
    now rewrite <- app_assoc.
Qed.

(** A map without array indices among its keys lists its members as they
    were written. *)
Lemma own_entries_named (members : obj) :
  List.NoDup (map fst members) -> named members -> own_entries members = members.
Proof.
  intros Hd Hn. unfold own_entries. now rewrite fold_set_named.
Qed.

Lemma ascending_cons (a : string * value) (l : obj) :
  ascending (a :: l)
  <-> Forall (fun b => (index_of a <= index_of b)%N) l /\ ascending l.
Proof. reflexivity. Qed.

(** A new array index goes to its place among the indices. *)
Lemma set_index (k : string) (v : value) (i : N) (rest : obj) :
  array_index k = Some i ->
  Forall (fun kv => is_index kv = false) rest ->
  forall first,
    ~ In k (map fst (first ++ rest)) ->
    Forall (fun kv => is_index kv = true) first ->
    ascending first ->
    exists first',
      set k v (first ++ rest) = first' ++ rest /\
      ascending first' /\
      (forall kv, In kv first' <-> kv = (k, v) \/ In kv first).
Proof.
  intros Hi Hrest. induction first as [|[k1 v1] f IH]; intros Hk Hf Ha.
  - exists [(k, v)]. cbn [app]. split; [|split].
    + destruct rest as [|[k' v'] r]; [reflexivity|]. cbn [set].
      cbn [app map fst In] in Hk.
      destruct (String.eqb_spec k k') as [->|_]; [tauto|].
      inversion Hrest as [|? ? H' _]; subst. unfold is_index in H'. cbn [fst] in H'.
      unfold precedes. rewrite Hi.
      destruct (array_index k'); [discriminate|reflexivity].
    + split; [constructor|exact I].
    + intros kv. cbn [In]. split; intros [H|[]]; left; congruence.
  - cbn [app set]. cbn [app map fst In] in Hk.
    destruct (String.eqb_spec k k1) as [->|_]; [tauto|].
    inversion Hf as [|? ? H1 Hf']; subst.
    apply ascending_cons in Ha as [Ha1 Ha2].
    unfold precedes. rewrite Hi.
    assert (E1 : index_of (k, v) = i) by (unfold index_of; cbn [fst]; now rewrite Hi).
    unfold is_index in H1. cbn [fst] in H1.
    destruct (array_index k1) as [i1|] eqn:Hi1; [|discriminate].
    assert (E2 : index_of (k1, v1) = i1)
      by (unfold index_of; cbn [fst]; now rewrite Hi1).
    destruct (N.ltb_spec i i1) as [Hlt|Hge].
    + exists ((k, v) :: (k1, v1) :: f). split; [reflexivity|]. split.
      * apply ascending_cons. split; [|apply ascending_cons; now split].
        constructor; [rewrite E1, E2; lia|].
        eapply List.Forall_impl; [|exact Ha1]. intros b Hb. cbv beta in *.
        rewrite E1. rewrite E2 in Hb. lia.
      * intros kv. cbn [In]. intuition congruence.
    + destruct (IH ltac:(tauto) Hf' Ha2) as (f' & E & A & M).
      exists ((k1, v1) :: f'). split; [cbn [app]; now rewrite E|]. split.
      * apply ascending_cons. split; [|exact A].
        apply List.Forall_forall. intros b Hb. apply M in Hb as [->|Hb].
        -- rewrite E1, E2. lia.
        -- revert b Hb. now apply List.Forall_forall.
      * intros kv. cbn [In]. rewrite M. tauto.
Qed.

Lemma entries_order_keys (members m : obj) :
  entries_order members m ->
  forall kv, In kv m <-> In kv members.
Proof.
  intros (indexed & -> & _ & M) kv. rewrite in_app_iff, M, filter_In.
  destruct (is_index kv); cbn [negb]; intuition congruence.
Qed.

Lemma entries_order_set (members m : obj) (k : string) (v : value) :
  entries_order members m ->
  ~ In k (map fst members) ->
  entries_order (members ++ [(k, v)]) (set k v m).
Proof.
  intros EO Hk.
  assert (Hm : ~ In k (map fst m)).
  { intros H. apply in_map_iff in H as (kv & <- & H).
    apply (entries_order_keys _ _ EO) in H. apply Hk. now apply in_map. }
  destruct EO as (indexed & -> & A & M).
  destruct (array_index k) as [i|] eqn:Hi.
  - assert (Hx : is_index (k, v) = true) by (unfold is_index; cbn [fst]; now rewrite Hi).
    destruct (set_index k v i (List.filter (fun kv => negb (is_index kv)) members)
                Hi) with (first := indexed) as (first' & E & A' & M').
    + apply List.Forall_forall. intros kv H. apply filter_In in H as [_ H].
      now apply negb_true_iff.
    + exact Hm.
    + apply List.Forall_forall. intros kv H. now apply M in H.
    + exact A.
    + exists first'. split; [|split; [exact A'|]].
      * rewrite E, List.filter_app. cbn [List.filter]. rewrite Hx. cbn [negb].
        now rewrite app_nil_r.
      * intros kv. rewrite M', M, in_app_iff. cbn [In].
        split; [intros [->|[H1 H2]]; [split; [right; now left|exact Hx]|tauto]
               |intros [[H1|[H1|[]]] H2]; [right; tauto|left; congruence]].
  - assert (Hx : is_index (k, v) = false) by (unfold is_index; cbn [fst]; now rewrite Hi).
    exists indexed. split; [|split; [exact A|]].
    + rewrite set_named by assumption.
      rewrite List.filter_app. cbn [List.filter]. rewrite Hx. cbn [negb].
      now rewrite <- app_assoc.
    + intros kv. rewrite M, in_app_iff. cbn [In].
      split; [tauto|intros [[H1|[H1|[]]] H2]; [tauto|subst; congruence]].
Qed.

Lemma fold_set_order (members pre acc : obj) :
  List.NoDup (map fst (pre ++ members)) ->
  entries_order pre acc ->
  entries_order (pre ++ members)
    (fold_left (fun o '(k, v) => set k v o) members acc).
Proof.
  revert pre acc. induction members as [|[k v] members IH]; intros pre acc Hd EO.
  - now rewrite app_nil_r.
  - cbn [fold_left].
    replace (pre ++ (k, v) :: members) with ((pre ++ [(k, v)]) ++ members) in *
      by now rewrite <- app_assoc.
    apply IH; [exact Hd|]. apply entries_order_set; [exact EO|].
    rewrite !map_app in Hd. cbn [map fst] in Hd.
    rewrite <- app_assoc in Hd. cbn [app] in Hd.
    apply List.NoDup_remove_2 in Hd. rewrite in_app_iff in Hd. tauto.
Qed.

(** The map written with distinct keys lists its members in the order of
    [Object.entries]. *)
Lemma own_entries_order (members : obj) :
  List.NoDup (map fst members) -> entries_order members (own_entries members).
Proof.
  intros Hd. apply (fold_set_order members [] []); [exact Hd|].
  exists []. split; [reflexivity|]. split; [exact I|].
  intros kv. cbn [In]. tauto.
Qed.

(** C1, as the code has it.  When the request has a [filters] map,
    [where.AND] starts with one entry per key of the map whose value is
    neither null nor undefined, in the order in which [Object.entries] lists
    the map.  For a map written with distinct keys this order has the keys
    that are array indices first, in ascending order, and then the other
    keys as they were written: it is the order of insertion when no key is
    an array index.  The entry of an array value is an [OR] of one
    equality-style predicate per element, in element order, and the entry
    of any other value is its equality-style predicate.  What follows are
    the search and range conditions. *)
Theorem compile_filters_one_entry_per_key :
  forall (fq : FilteringQuery) (m : obj),
    filters fq = Some m ->
    exists es,
      where_ (QueryBuilder.buildFilterQuery fq)
      = VObj [("AND", VArr (es ++ search_conditions fq ++ range_conditions fq))]
      /\ length es = length (present m)
      /\ Forall2 entry_for (present m) es
      /\ (forall members,
            List.NoDup (map fst members) ->
            m = own_entries members ->
            entries_order members m /\
            (named members -> Forall2 entry_for (present members) es)).
Proof.
  intros fq m Hm. exists (map filter_entry (present m)).
  rewrite buildFilterQuery_where. unfold filter_conditions. rewrite Hm.
  rewrite buildWhereQuery_map. split; [reflexivity|].
  assert (F : Forall2 entry_for (present m) (map filter_entry (present m))).
  { induction (present m); simpl; constructor; auto using filter_entry_entry_for. }
  split; [now rewrite length_map|]. split; [exact F|].
  intros members Hd E. split.
  - rewrite E. now apply own_entries_order.
  - intros Hn. rewrite (own_entries_named members Hd Hn) in E. now subst.
Qed.

Lemma sample_members_distinct :
  List.NoDup (map fst [("status", VStr "active");
                  ("category", VArr [VStr "a"; VStr "b"]);
                  ("deleted", VNull);
                  ("author.name", VStr "ann")]).
Proof.
  cbn [map fst].
  apply List.NoDup_cons; [cbn [In]; intros [H|[H|[H|[]]]]; discriminate H|].
  apply List.NoDup_cons; [cbn [In]; intros [H|[H|[]]]; discriminate H|].
  apply List.NoDup_cons; [cbn [In]; intros [H|[]]; discriminate H|].
  apply List.NoDup_cons; [cbn [In]; intros []|]. apply List.NoDup_nil.
Qed.

Lemma compile_filters_one_entry_per_key_witness :
  exists es,
    where_ (QueryBuilder.buildFilterQuery sample_filters)
    = VObj [("AND", VArr (es ++ search_conditions sample_filters
                            ++ range_conditions sample_filters))]
    /\ length es = 3%nat
    /\ Forall2 entry_for
         [("status", VStr "active");
          ("category", VArr [VStr "a"; VStr "b"]);
          ("author.name", VStr "ann")] es.
Proof.
  destruct (compile_filters_one_entry_per_key sample_filters _ eq_refl)
    as (es & W & L & _ & I).
  exists es. split; [exact W|]. split; [exact L|].
  apply (I [("status", VStr "active");
            ("category", VArr [VStr "a"; VStr "b"]);
            ("deleted", VNull);
            ("author.name", VStr "ann")]).
  - exact sample_members_distinct.
  - reflexivity.
  - apply List.Forall_cons; [reflexivity|].
    apply List.Forall_cons; [reflexivity|].
    apply List.Forall_cons; [reflexivity|].
    apply List.Forall_cons; [reflexivity|]. apply List.Forall_nil.
Defined.

(** C1 as worded fails when a key is an array index: the map written
    [{b: 1, "1": 2}] lists its key [1] first, and so does [AND]. *)
Lemma insertion_order_fails :
  and_of (where_ (QueryBuilder.buildFilterQuery (written members_b_1)))
  = [VObj [("1", VNum (Num 2))]; VObj [("b", VNum (Num 1))]]
  /\ ~ insertion_order_claim members_b_1.
Proof.
  split; [reflexivity|].
  unfold insertion_order_claim. intros H. inversion H as [|? ? ? ? E _]; subst.
  discriminate E.
Qed.

(** ** The ranges stage *)

Lemma buildRangedFilter_map (rs : list RangedFilter) :
  QueryBuilder.buildRangedFilter rs = map range_predicate rs.
Proof.
  unfold QueryBuilder.buildRangedFilter.
  rewrite (fold_left_ext _
             (fun acc r => if false then acc else push acc (range_predicate r))).
  - rewrite (fold_left_push (fun _ => false) range_predicate). simpl.
    f_equal. induction rs as [|r rs IH]; simpl; congruence.
  - intros acc r. unfold range_predicate, equality_predicate.
    now destruct (includes dot (key r)).
Qed.

(** ** The search stage *)

Lemma search_loop (multi : bool) (s : obj) :
  forall w o,
    fold_left
      (fun '(whereConditions, orQuerySearchArray) '(key, value) =>
         if nullish value then (whereConditions, orQuerySearchArray)
         else
           let searchQuery :=
             if includes dot key then
               let parts := split dot key in
               let relation := part 0 parts in
               let column := part 1 parts in
               QueryBuilder.nested relation column (VObj [("contains", value)])
             else VObj [(key, VObj [("contains", value)])] in
           if multi
           then (whereConditions, push orQuerySearchArray searchQuery)
           else (push whereConditions searchQuery, orQuerySearchArray))
      s (w, o)
    = if multi then (w, o ++ search_direct s) else (w ++ search_direct s, o).
Proof.
  unfold search_direct, present.
  induction s as [|[k v] s IH]; intros w o; simpl.
  - destruct multi; now rewrite app_nil_r.
  - destruct (nullish v) eqn:N; simpl; [apply IH|].
    destruct multi; rewrite IH; unfold push, contains_predicate, equality_predicate;
      simpl; destruct (includes dot k); now rewrite <- app_assoc.
Qed.

Lemma buildSearchQuery_eq (s : obj) :
  QueryBuilder.buildSearchQuery s
  = if (1 <? length s)%nat
    then match present s with
         | [] => []
         | _ :: _ => [search_or s]
         end
    else search_direct s.
Proof.
  unfold QueryBuilder.buildSearchQuery. rewrite search_loop.
  destruct (1 <? length s)%nat; simpl; [|reflexivity].
  unfold search_or, search_direct. destruct (present s); reflexivity.
Qed.

(** C2, as the code has it.  With at most one key in the [searchFilters]
    map the contains-predicate of a present value goes to [AND] directly;
    with more than one key (null ones counted) the contains-predicates of
    the present values go into a single [OR], and nothing is appended when
    no value is present. *)
Theorem search_or_wrapping_by_key_count :
  forall s : obj,
    ((length s <= 1)%nat ->
       QueryBuilder.buildSearchQuery s = search_direct s) /\
    ((1 < length s)%nat -> present s <> [] ->
       QueryBuilder.buildSearchQuery s = [search_or s]) /\
    ((1 < length s)%nat -> present s = [] ->
       QueryBuilder.buildSearchQuery s = []).
Proof.
  intros s. rewrite buildSearchQuery_eq.
  destruct (Nat.ltb_spec 1 (length s)) as [H|H].
  - split; [intros; lia|]. split; intros _ Hp.
    + destruct (present s); [congruence|reflexivity].
    + unfold search_or. now rewrite Hp.
  - split; [reflexivity|]. split; intros; lia.
Qed.

(** C2 as worded fails under either reading: two null-valued keys append
    nothing where an [OR] is announced, and one present value beside a null
    one is wrapped in an [OR] where a direct predicate is announced. *)
Lemma search_claim_fails :
  ~ search_claim_by_keys [("a", VNull); ("b", VNull)] /\
  ~ search_claim_by_values [("title", VStr "x"); ("desc", VNull)].
Proof.
  split; intros [H1 H2].
  - specialize (H2 ltac:(simpl; lia)). discriminate H2.
  - specialize (H1 eq_refl). discriminate H1.
Qed.

(** ** Pagination *)

Lemma buildFilterQuery_pagination (fq : FilteringQuery) :
  take_skip fq = QueryBuilder.buildPagination fq.
Proof.
  unfold take_skip, QueryBuilder.buildFilterQuery.
  now destruct (QueryBuilder.buildPagination fq).
Qed.

(** C3, as the code has it.  "Set" is "truthy": a [page] that is a number
    other than 0 pages the result, with [rows] if that is a number other
    than 0 and with 10 otherwise; a [page] that is undefined, 0 or NaN gives
    the first ten.  The difference and the product are the exact ones for
    integers of magnitude up to 2^53 whose difference and product stay in
    this range, where doubles do not round. *)
Theorem pagination_by_truthiness :
  forall fq : FilteringQuery,
    let q := QueryBuilder.buildFilterQuery fq in
    (forall p r, page fq = Some (Num p) -> p <> 0 ->
                 rows fq = Some (Num r) -> r <> 0 ->
                 safe_integer p -> safe_integer r ->
                 safe_integer (p - 1) -> safe_integer ((p - 1) * r) ->
                 take q = Num r /\ skip q = Num ((p - 1) * r)) /\
    (forall p, page fq = Some (Num p) -> p <> 0 -> falsy_field (rows fq) ->
               safe_integer p ->
               safe_integer (p - 1) -> safe_integer (10 * (p - 1)) ->
               take q = Num 10 /\ skip q = Num (10 * (p - 1))) /\
    (falsy_field (page fq) -> take q = Num 10 /\ skip q = Num 0).
Proof.
  intros fq q.
  pose proof (buildFilterQuery_pagination fq) as E. unfold take_skip in E.
  fold q in E.
  unfold QueryBuilder.buildPagination in E.
  repeat split; intros.
  1-2: rewrite H, H1 in E; simpl in E;
       destruct (Z.eqb_spec p 0); [contradiction|];
       destruct (Z.eqb_spec r 0); [contradiction|]; simpl in E; congruence.
  1-2: rewrite H in E; simpl in E;
       destruct (Z.eqb_spec p 0); [contradiction|]; simpl in E;
       destruct H1 as [R|[R|R]]; rewrite R in E; simpl in E; congruence.
  1-2: destruct H as [R|[R|R]]; rewrite R in E; simpl in E; congruence.
Qed.

Lemma pagination_by_truthiness_witness :
  take (QueryBuilder.buildFilterQuery (paged (Some (Num 2)) (Some (Num 25))))
  = Num 25 /\
  skip (QueryBuilder.buildFilterQuery (paged (Some (Num 2)) (Some (Num 25))))
  = Num 25.
Proof.
  apply (proj1 (pagination_by_truthiness (paged (Some (Num 2)) (Some (Num 25))))
           2 25 eq_refl ltac:(discriminate) eq_refl ltac:(discriminate));
    unfold safe_integer; simpl; lia.
Defined.

(** C3 as worded fails where a field is set and falsy: a [page] that is
    [NaN] (what the extractor passes on for a non-numeric parameter) or 0
    gives the first ten whatever [rows] is, and [rows = 0] is replaced by
    10. *)
Lemma pagination_claim_fails :
  (take_skip (paged (Some NaN) (Some (Num 5))) = (Num 10, Num 0)
   /\ ~ pagination_claim (paged (Some NaN) (Some (Num 5)))) /\
  (take_skip (paged (Some (Num 0)) (Some (Num 5))) = (Num 10, Num 0)
   /\ ~ pagination_claim (paged (Some (Num 0)) (Some (Num 5)))) /\
  (take_skip (paged (Some (Num 2)) (Some (Num 0))) = (Num 10, Num 10)
   /\ ~ pagination_claim (paged (Some (Num 2)) (Some (Num 0)))).
Proof.
  repeat split; intros [H _]; discriminate H.
Qed.

(** ** Dotted keys *)

Lemma includes_app_dot (a b : string) :
  includes dot (a +:+ String dot b) = true.
Proof.
  induction a as [|c a IH]; simpl; [reflexivity|].
  now destruct (Ascii.eqb c dot).
Qed.

Lemma split_app_dot (a b : string) :
  includes dot a = false ->
  split dot (a +:+ String dot b) = a :: split dot b.
Proof.
  induction a as [|c a IH]; simpl; intros H; [reflexivity|].
  destruct (Ascii.eqb c dot); [discriminate|].
  now rewrite IH.
Qed.

Lemma split_no_dot (a : string) :
  includes dot a = false -> split dot a = [a].
Proof.
  induction a as [|c a IH]; simpl; intros H; [reflexivity|].
  destruct (Ascii.eqb c dot); [discriminate|].
  now rewrite IH.
Qed.

Lemma append_empty (s : string) : s +:+ EmptyString = s.
Proof.
  induction s as [|c s IH]; [reflexivity|].
  change (String c (s +:+ EmptyString) = String c s). now rewrite IH.
Qed.

Lemma split_head_tail (column : string) (more : list string) :
  includes dot column = false ->
  exists rest, split dot (column +:+ dotted_tail more) = column :: rest.
Proof.
  intros H. destruct more as [|seg more]; simpl.
  - exists []. rewrite append_empty. now apply split_no_dot.
  - eexists. now apply split_app_dot.
Qed.

(** C5, as the code has it.  A key [relation.column.s1...sn] is split at
    every dot; the first segment names the relation, the second the column,
    and the segments after the second dot are dropped. *)
Theorem dotted_key_keeps_two_segments :
  forall (relation column : string) (more : list string) (v : value),
    includes dot relation = false ->
    includes dot column = false ->
    nullish v = false ->
    QueryBuilder.buildWhereQuery
      [(relation +:+ String dot (column +:+ dotted_tail more), v)]
    = [match v with
       | VArr vs =>
           VObj [("OR", VArr (map (QueryBuilder.nested relation column) vs))]
       | _ => QueryBuilder.nested relation column v
       end].
Proof.
  intros relation column more v Hr Hc Hv.
  rewrite buildWhereQuery_map. unfold present. simpl. rewrite Hv. simpl.
  unfold filter_entry, equality_predicate. simpl.
  rewrite includes_app_dot, split_app_dot by assumption.
  destruct (split_head_tail column more Hc) as [rest ->]. simpl.
  destruct v; reflexivity.
Qed.

Lemma dotted_key_keeps_two_segments_witness :
  QueryBuilder.buildWhereQuery [("a.b.c.d", VStr "x")]
  = [QueryBuilder.nested "a" "b" (VStr "x")].
Proof.
  exact (dotted_key_keeps_two_segments "a" "b" ["c"; "d"] (VStr "x")
           eq_refl eq_refl eq_refl).
Defined.

(** C5 as worded fails at the key [a.b.c]: the column of the compiled
    predicate is [b], not the remainder [b.c]. *)
Lemma first_dot_split_fails :
  QueryBuilder.buildWhereQuery [("a.b.c", VNum (Num 1))]
  = [QueryBuilder.nested "a" "b" (VNum (Num 1))] /\
  first_dot_predicate "a.b.c" (VNum (Num 1))
  = QueryBuilder.nested "a" "b.c" (VNum (Num 1)) /\
  QueryBuilder.buildWhereQuery [("a.b.c", VNum (Num 1))]
  <> [first_dot_predicate "a.b.c" (VNum (Num 1))].
Proof.
  repeat split. discriminate.
Qed.

(** ** Allowed and forbidden fields *)

(** C4 at its examples and where it breaks.  For [filters], a field absent
    from [allowedFields] gives one warning, and one error instead when
    [forbiddenFields] lists it too.  The search, range and order helpers
    never read [forbiddenFields]: the same forbidden field gives a warning
    and no error there.  And [forbiddenFields] is read only under the test
    on [allowedFields]: configured alone, it reports nothing. *)
Theorem forbidden_field_is_an_error_for_filters_only :
  forall Date_new : value -> number,
    Validation.validateQuery Date_new filter_b (Some allow_a)
    = {| isValid := true; errors := [];
         warnings := ["Field 'b' is not in allowed fields list"] |} /\
    Validation.validateQuery Date_new filter_b (Some allow_a_forbid_b)
    = {| isValid := false; errors := ["Field 'b' is forbidden"];
         warnings := [] |} /\
    Validation.validateQuery Date_new search_b (Some allow_a_forbid_b)
    = {| isValid := true; errors := [];
         warnings := ["Search field 'b' is not in allowed fields list"] |} /\
    Validation.validateQuery Date_new range_b (Some allow_a_forbid_b)
    = {| isValid := true; errors := [];
         warnings := ["Range field 'b' is not in allowed fields list"] |} /\
    Validation.validateQuery Date_new order_b (Some allow_a_forbid_b)
    = {| isValid := true; errors := [];
         warnings := ["Order field 'b' is not in allowed fields list"] |} /\
    Validation.validateQuery Date_new filter_b (Some forbid_b)
    = {| isValid := true; errors := []; warnings := [] |}.
Proof.
  intros Date_new. repeat split.
Qed.

(** ** The pattern of [isValidDate] *)

#[local] Arguments String.append : simpl nomatch.

Lemma is_digit_spec (c : ascii) : Validation.is_digit c = true <-> digit_char c.
Proof.
  unfold digit_char.
  destruct c as [[] [] [] [] [] [] [] []]; vm_compute;
    (split; [ first [ discriminate | intros _; tauto ]
            | first [ reflexivity | intros H; repeat destruct H as [H|H]; try discriminate H; destruct H ] ]).
Qed.

Lemma append_assoc (a b c : string) : (a +:+ b) +:+ c = a +:+ (b +:+ c).
Proof.
  induction a as [|x a IH]; simpl; [reflexivity|]. now rewrite IH.
Qed.

Lemma digits_spec (n : nat) :
  forall s r,
    Validation.digits n s = Some r <-> exists d, digit_run n d /\ s = d +:+ r.
Proof.
  unfold digit_run. induction n as [|n IH]; intros s r; simpl.
  - split.
    + intros [= ->]. exists EmptyString. repeat split.
    + intros (d & [L _] & ->). destruct d; [reflexivity|discriminate].
  - destruct s as [|c s].
    + split; [discriminate|]. intros (d & [L _] & E).
      destruct d; discriminate.
    + destruct (Validation.is_digit c) eqn:Dc.
      * rewrite IH. split.
        -- intros (d & [L A] & ->). exists (String c d). simpl.
           repeat split; [now rewrite L | now apply is_digit_spec | exact A].
        -- intros (d & [L A] & E). destruct d as [|c' d]; [discriminate|].
           simpl in *. injection E as -> ->. exists d. intuition.
      * split; [discriminate|]. intros (d & [L A] & E).
        destruct d as [|c' d]; [discriminate|]. simpl in *.
        injection E as -> ->. destruct A as [A _].
        apply is_digit_spec in A. congruence.
Qed.

Lemma lit_spec (c : ascii) (s r : string) :
  Validation.lit c s = Some r <-> s = String c r.
Proof.
  unfold Validation.lit. destruct s as [|a s]; [split; discriminate|].
  destruct (Ascii.eqb_spec a c) as [->|N]; split; congruence.
Qed.

Lemma digits_star_run (d r : string) :
  all_digits d -> Validation.digits_star r = r ->
  Validation.digits_star (d +:+ r) = r.
Proof.
  intros A R. induction d as [|c d IH]; simpl; [exact R|].
  destruct A as [Dc A]. apply is_digit_spec in Dc. rewrite Dc. now apply IH.
Qed.

Lemma digits_star_split (s : string) :
  exists d, all_digits d /\ s = d +:+ Validation.digits_star s.
Proof.
  induction s as [|c s (d & A & E)]; simpl.
  - exists EmptyString. now split.
  - destruct (Validation.is_digit c) eqn:Dc.
    + exists (String c d). simpl. rewrite <- E.
      repeat split; [now apply is_digit_spec | exact A].
    + exists EmptyString. now split.
Qed.

Lemma fraction_Z_end_spec (s : string) :
  Validation.fraction_Z_end s = true <->
  exists frac, fraction frac /\ s = frac +:+ "Z".
Proof.
  unfold Validation.fraction_Z_end, fraction. split.
  - destruct s as [|c s]; [discriminate|].
    destruct (Ascii.eqb_spec c ".") as [->|N].
    + destruct (Validation.digits 1 s) as [r'|] eqn:D1; [|discriminate].
      intros Z. apply String.eqb_eq in Z.
      apply digits_spec in D1 as (d1 & [L1 A1] & ->).
      destruct (digits_star_split r') as (d & A & E). rewrite Z in E. subst r'.
      exists (String "." (d1 +:+ d)). split.
      * right. exists (d1 +:+ d). split; [|split; [|reflexivity]].
        -- destruct d1; [discriminate L1|]. simpl. discriminate.
        -- clear L1. induction d1 as [|x d1 IH]; simpl; [exact A|].
           destruct A1. split; auto.
      * simpl. now rewrite append_assoc.
    + intros Z. apply String.eqb_eq in Z. exists EmptyString. split; [now left|exact Z].
  - intros (frac & [->|(ds & Hne & A & ->)] & ->); [reflexivity|].
    simpl. destruct ds as [|c ds]; [congruence|]. simpl.
    destruct A as [Dc A]. apply is_digit_spec in Dc. rewrite Dc.
    rewrite digits_star_run; [reflexivity|exact A|reflexivity].
Qed.

Lemma digits_app (n : nat) (d r : string) :
  digit_run n d -> Validation.digits n (d +:+ r) = Some r.
Proof.
  intros H. apply digits_spec. now exists d.
Qed.

#[local] Arguments Validation.digits : simpl never.

(** The matcher accepts exactly the strings of the strict shape. *)
Lemma dateRegex_test_spec (s : string) :
  Validation.dateRegex_test s = true <-> iso_utc_format s.
Proof.
  unfold Validation.dateRegex_test, iso_utc_format, iso_utc_shape. split.
  - destruct (Validation.digits 4 s) as [s1|] eqn:E1; simpl; [|discriminate].
    destruct (Validation.lit "-" s1) as [s2|] eqn:E2; simpl; [|discriminate].
    destruct (Validation.digits 2 s2) as [s3|] eqn:E3; simpl; [|discriminate].
    destruct (Validation.lit "-" s3) as [s4|] eqn:E4; simpl; [|discriminate].
    destruct (Validation.digits 2 s4) as [s5|] eqn:E5; simpl; [|discriminate].
    destruct (Validation.lit "T" s5) as [s6|] eqn:E6; simpl; [|discriminate].
    destruct (Validation.digits 2 s6) as [s7|] eqn:E7; simpl; [|discriminate].
    destruct (Validation.lit ":" s7) as [s8|] eqn:E8; simpl; [|discriminate].
    destruct (Validation.digits 2 s8) as [s9|] eqn:E9; simpl; [|discriminate].
    destruct (Validation.lit ":" s9) as [s10|] eqn:E10; simpl; [|discriminate].
    destruct (Validation.digits 2 s10) as [s11|] eqn:E11; simpl; [|discriminate].
    intros F. apply fraction_Z_end_spec in F as (frac & Hf & ->).
    apply digits_spec in E1 as (Y & HY & ->), E3 as (M & HM & ->),
      E5 as (D & HD & ->), E7 as (h & Hh & ->), E9 as (m & Hm & ->),
      E11 as (sec & Hs & ->).
    apply lit_spec in E2 as ->, E4 as ->, E6 as ->, E8 as ->, E10 as ->.
    exists Y, M, D, h, m, sec, frac. repeat (split; [assumption|]). reflexivity.
  - intros (Y & M & D & h & m & sec & frac & HY & HM & HD & Hh & Hm & Hs & Hf & ->).
    rewrite (digits_app 4 Y) by assumption; simpl.
    rewrite (digits_app 2 M) by assumption; simpl.
    rewrite (digits_app 2 D) by assumption; simpl.
    rewrite (digits_app 2 h) by assumption; simpl.
    rewrite (digits_app 2 m) by assumption; simpl.
    rewrite (digits_app 2 sec) by assumption.
    apply fraction_Z_end_spec. now exists frac.
Qed.

Lemma isValidDate_spec (v : value) :
  Validation.isValidDate v = true <-> exists s, v = VStr s /\ iso_utc_format s.
Proof.
  destruct v; simpl; try (split; [discriminate | intros (s & E & _); discriminate E]).
  rewrite dateRegex_test_spec. split.
  - intros H. now exists s.
  - now intros (s' & [= <-] & H).
Qed.

(** ** Which errors are date-ordering errors *)

Lemma date_errors_push_warning (msg : string) (l : Validation.Log) :
  date_errors (Validation.push_warning msg l) = date_errors l.
Proof. reflexivity. Qed.

Lemma date_errors_push_error (msg : string) (l : Validation.Log) :
  date_errors (Validation.push_error msg l)
  = date_errors l ++ (if is_date_order_error msg then [msg] else []).
Proof.
  unfold date_errors, Validation.push_error, push. simpl.
  now rewrite List.filter_app.
Qed.

Lemma date_errors_push_other (msg : string) (l : Validation.Log) :
  is_date_order_error msg = false ->
  date_errors (Validation.push_error msg l) = date_errors l.
Proof.
  intros H. rewrite date_errors_push_error, H. apply app_nil_r.
Qed.

Lemma date_errors_check_relation (prefix field : string)
    (spec : QuerySpecification) (l : Validation.Log) :
  (forall x, is_date_order_error (prefix +:+ x) = false) ->
  date_errors (Validation.check_relation prefix field spec l) = date_errors l.
Proof.
  intros H. unfold Validation.check_relation.
  destruct (includes dot field); [|reflexivity].
  destruct (_ && _); [|reflexivity].
  now apply date_errors_push_other.
Qed.

Ltac other_message :=
  first [ apply date_errors_push_warning
        | apply date_errors_push_other; reflexivity
        | apply date_errors_check_relation; intros; reflexivity ].

Lemma date_errors_validateFilters (m : obj) (spec : QuerySpecification) :
  forall l, date_errors (Validation.validateFilters m spec l) = date_errors l.
Proof.
  unfold Validation.validateFilters.
  induction m as [|[field v] m IH]; intros l; simpl; [reflexivity|].
  rewrite IH. destruct (nullish v); [reflexivity|].
  rewrite date_errors_check_relation by (intros; reflexivity).
  destruct (Validation.configured_without _ _); [|reflexivity].
  destruct (Validation.optional_includes _ _); other_message.
Qed.

Lemma date_errors_validateSearchFilters (m : obj) (spec : QuerySpecification) :
  forall l, date_errors (Validation.validateSearchFilters m spec l) = date_errors l.
Proof.
  unfold Validation.validateSearchFilters.
  induction m as [|[field v] m IH]; intros l; simpl; [reflexivity|].
  rewrite IH. destruct (nullish v); [reflexivity|].
  rewrite date_errors_check_relation by (intros; reflexivity).
  destruct (Validation.configured_without _ _); [|reflexivity]. other_message.
Qed.

Lemma date_errors_validateOrderKey (k : string) (spec : QuerySpecification)
    (l : Validation.Log) :
  date_errors (Validation.validateOrderKey k spec l) = date_errors l.
Proof.
  unfold Validation.validateOrderKey.
  rewrite date_errors_check_relation by (intros; reflexivity).
  destruct (Validation.configured_without _ _); [|reflexivity]. other_message.
Qed.

Lemma date_errors_validatePagination (fq : FilteringQuery)
    (spec : QuerySpecification) (l : Validation.Log) :
  date_errors (Validation.validatePagination fq spec l) = date_errors l.
Proof.
  unfold Validation.validatePagination.
  assert (P : date_errors
                match page fq with
                | Some p =>
                    if num_lt p (Num 1)
                    then Validation.push_error "Page number must be greater than 0" l
                    else l
                | None => l
                end = date_errors l).
  { destruct (page fq) as [p|]; [|reflexivity].
    destruct (num_lt p (Num 1)); [other_message|reflexivity]. }
  destruct (rows fq) as [r|]; [|exact P].
  destruct (num_lt r (Num 1)).
  - rewrite date_errors_push_other by reflexivity. exact P.
  - destruct (maxPageSize spec) as [m|]; [|exact P].
    destruct (_ && _); [|exact P].
    rewrite date_errors_push_other by reflexivity. exact P.
Qed.

Section DateOrderProofs.

Variable Date_new : value -> number.

Lemma date_check_true (r : RangedFilter) :
  date_check Date_new r = true ->
  out_of_order Date_new r
    ("Range start date '" +:+ Validation.template (start r)
     +:+ "' is after end date '" +:+ Validation.template (end_ r) +:+ "'").
Proof.
  unfold date_check. rewrite !andb_true_iff. intros [[Hs He] Hgt].
  apply isValidDate_spec in Hs as (s & Es & Fs), He as (e & Ee & Fe).
  rewrite Es, Ee in *. exists s, e. repeat split; assumption.
Qed.

Lemma date_check_false (r : RangedFilter) :
  date_check Date_new r = false -> forall msg, ~ out_of_order Date_new r msg.
Proof.
  intros H msg (s & e & Es & Ee & Fs & Fe & Hgt & _).
  unfold date_check in H. rewrite Es, Ee, Hgt in H.
  rewrite (proj2 (isValidDate_spec (VStr s))) in H by eauto.
  rewrite (proj2 (isValidDate_spec (VStr e))) in H by eauto.
  discriminate H.
Qed.

Lemma date_errors_range_step (spec : QuerySpecification) (r : RangedFilter)
    (l : Validation.Log) :
  date_errors (Validation.validateRangedFilters Date_new [r] spec l)
  = date_errors l
    ++ (if date_check Date_new r
        then ["Range start date '" +:+ Validation.template (start r)
              +:+ "' is after end date '" +:+ Validation.template (end_ r)
              +:+ "'"]
        else []).
Proof.
  unfold Validation.validateRangedFilters, date_check. cbn [fold_left].
  set (l1 := if Validation.configured_without _ _ then _ else l).
  assert (E1 : date_errors l1 = date_errors l).
  { unfold l1. destruct (Validation.configured_without _ _); [|reflexivity].
    other_message. }
  set (l2 := Validation.check_relation _ _ _ l1).
  assert (E2 : date_errors l2 = date_errors l).
  { unfold l2. rewrite date_errors_check_relation by (intros; reflexivity).
    exact E1. }
  destruct (Validation.isValidDate (start r) && Validation.isValidDate (end_ r));
    cbn [andb]; [|now rewrite app_nil_r].
  destruct (num_gt _ _); [|now rewrite app_nil_r].
  rewrite date_errors_push_error, E2. reflexivity.
Qed.

Lemma validateRangedFilters_cons (spec : QuerySpecification)
    (r : RangedFilter) (rs : list RangedFilter) (l : Validation.Log) :
  Validation.validateRangedFilters Date_new (r :: rs) spec l
  = Validation.validateRangedFilters Date_new rs spec
      (Validation.validateRangedFilters Date_new [r] spec l).
Proof. reflexivity. Qed.

Lemma date_errors_validateRangedFilters (spec : QuerySpecification)
    (rs : list RangedFilter) :
  forall l,
    exists msgs,
      DateErrors Date_new rs msgs /\
      date_errors (Validation.validateRangedFilters Date_new rs spec l)
      = date_errors l ++ msgs.
Proof.
  induction rs as [|r rs IH]; intros l.
  - exists []. split; [constructor|]. now rewrite app_nil_r.
  - rewrite validateRangedFilters_cons.
    destruct (IH (Validation.validateRangedFilters Date_new [r] spec l))
      as (msgs & D & E).
    rewrite E, date_errors_range_step.
    destruct (date_check Date_new r) eqn:C.
    + eexists. split; [|now rewrite <- app_assoc].
      apply DateErrors_emit; [now apply date_check_true|exact D].
    + exists msgs. split; [|now rewrite app_nil_r].
      apply DateErrors_skip; [now apply date_check_false|exact D].
Qed.

Lemma date_errors_validateQuery (fq : FilteringQuery) (spec : QuerySpecification) :
  exists msgs,
    DateErrors Date_new (default [] (rangedFilters fq)) msgs /\
    List.filter is_date_order_error
      (errors (Validation.validateQuery Date_new fq (Some spec))) = msgs.
Proof.
  unfold Validation.validateQuery. simpl.
  set (l0 := {| Validation.log_errors := []; Validation.log_warnings := [] |}).
  set (l1 := match filters fq with Some f => _ | None => l0 end).
  assert (E1 : date_errors l1 = []).
  { unfold l1. destruct (filters fq); [|reflexivity].
    now rewrite date_errors_validateFilters. }
  set (l2 := match searchFilters fq with Some f => _ | None => l1 end).
  assert (E2 : date_errors l2 = []).
  { unfold l2. destruct (searchFilters fq); [|exact E1].
    now rewrite date_errors_validateSearchFilters. }
  set (l3 := match rangedFilters fq with Some f => _ | None => l2 end).
  assert (E3 : exists msgs,
             DateErrors Date_new (default [] (rangedFilters fq)) msgs /\
             date_errors l3 = msgs).
  { unfold l3. destruct (rangedFilters fq) as [rs|]; simpl.
    - destruct (date_errors_validateRangedFilters spec rs l2) as (msgs & D & E).
      exists msgs. split; [exact D|]. now rewrite E, E2.
    - exists []. split; [constructor|exact E2]. }
  set (l4 := match orderKey fq with Some k => _ | None => l3 end).
  assert (E4 : date_errors l4 = date_errors l3).
  { unfold l4. destruct (orderKey fq) as [k|]; [|reflexivity].
    destruct (str_truthy k); [|reflexivity].
    apply date_errors_validateOrderKey. }
  destruct E3 as (msgs & D & E3). exists msgs. split; [exact D|].
  change (date_errors (Validation.validatePagination fq spec l4) = msgs).
  now rewrite date_errors_validatePagination, E4.
Qed.

Lemma DateErrors_unchecked (rs : list RangedFilter) (msgs : list string) :
  DateErrors Date_new rs msgs ->
  (forall r, In r rs -> unchecked_bound (start r) \/ unchecked_bound (end_ r)) ->
  msgs = [].
Proof.
  induction 1 as [|r rs msg msgs O D IH|r rs msgs O D IH]; intros U.
  - reflexivity.
  - exfalso. destruct O as (s & e & Es & Ee & Fs & Fe & _).
    destruct (U r (or_introl eq_refl)) as [B|B].
    + exact (B s Es Fs).
    + exact (B e Ee Fe).
  - apply IH. intros r' Hr'. apply U. now right.
Qed.

End DateOrderProofs.

(** C8, as the code has it.  Validating against a specification, the
    date-ordering errors are exactly those the ranged filters call for, one
    per filter whose bounds are both strings of the shape
    [YYYY-MM-DDTHH:mm:ss[.f...]Z], the fraction of one or more digits, with
    the parsed start strictly after the parsed end, in the order of the
    filters; and when every filter has a bound that is not a string of that
    shape, there is no date-ordering error at all. *)
Theorem date_order_errors_exactly :
  forall (Date_new : value -> number) (fq : FilteringQuery)
         (spec : QuerySpecification) (rs : list RangedFilter),
    rangedFilters fq = Some rs ->
    let errs := errors (Validation.validateQuery Date_new fq (Some spec)) in
    DateErrors Date_new rs (List.filter is_date_order_error errs) /\
    ((forall r, In r rs ->
        unchecked_bound (start r) \/ unchecked_bound (end_ r)) ->
     List.filter is_date_order_error errs = []).
Proof.
  intros Date_new fq spec rs Hrs errs.
  destruct (date_errors_validateQuery Date_new fq spec) as (msgs & D & E).
  rewrite Hrs in D. simpl in D. fold errs in E. rewrite E.
  split; [exact D|]. intros U. exact (DateErrors_unchecked Date_new rs msgs D U).
Qed.

Lemma date_order_errors_exactly_witness :
  let errs :=
    errors (Validation.validateQuery sample_Date_new range_backwards (Some allow_a)) in
  DateErrors sample_Date_new
    [{| key := "createdAt";
        start := VStr "2023-12-31T00:00:00Z";
        end_ := VStr "2023-01-01T00:00:00Z" |}]
    (List.filter is_date_order_error errs) /\
  ((forall r,
      In r [{| key := "createdAt";
               start := VStr "2023-12-31T00:00:00Z";
               end_ := VStr "2023-01-01T00:00:00Z" |}] ->
      unchecked_bound (start r) \/ unchecked_bound (end_ r)) ->
   List.filter is_date_order_error errs = []).
Proof.
  exact (date_order_errors_exactly sample_Date_new range_backwards allow_a _ eq_refl).
Defined.

(** The example of the specification: one error, for the range that runs
    backwards. *)
Example range_backwards_one_error :
  errors (Validation.validateQuery sample_Date_new range_backwards (Some allow_a))
  = ["Range start date '2023-12-31T00:00:00Z' is after end date '2023-01-01T00:00:00Z'"].
Proof. reflexivity. Qed.

Lemma length_append (a b : string) :
  String.length (a +:+ b) = (String.length a + String.length b)%nat.
Proof.
  induction a as [|c a IH]; simpl; [reflexivity|]. now rewrite IH.
Qed.

Lemma millis_format_length (s : string) :
  iso_utc_millis_format s -> String.length s = 20%nat \/ String.length s = 24%nat.
Proof.
  intros (Y & M & D & h & m & sec & frac & [LY _] & [LM _] & [LD _] & [Lh _]
          & [Lm _] & [Ls _] & F & ->).
  rewrite !length_append, LY, LM, LD, Lh, Lm, Ls.
  destruct F as [->|(ds & [Lds _] & ->)]; simpl; [now left|].
  rewrite Lds. now right.
Qed.

(** C8 as worded fails on a fraction of one digit: the bound is not of the
    shape [YYYY-MM-DDTHH:mm:ss[.fff]Z], and the range that runs backwards is
    reported all the same. *)
Lemma millis_only_claim_fails :
  errors (Validation.validateQuery sample_Date_new range_half_second (Some allow_a))
  = ["Range start date '2023-12-31T00:00:00.5Z' is after end date '2023-01-01T00:00:00Z'"]
  /\ ~ iso_utc_millis_format "2023-12-31T00:00:00.5Z".
Proof.
  split; [reflexivity|]. intros H.
  apply millis_format_length in H as [H|H]; discriminate H.
Qed.

(** ** The facade *)

(** C10.  For a facade with any specification and transform
    configuration, the [query] of [build] is what [buildWithoutValidation]
    returns, on every request (and [build] throws exactly when
    [buildWithoutValidation] does). *)
Theorem build_query_is_buildWithoutValidation :
  forall (ToNumber Date_new : value -> number)
         (this : Facade.BuildQueryFilter) (filter : FilteringQuery),
    option_map query (Facade.build ToNumber Date_new this filter)
    = Facade.buildWithoutValidation ToNumber Date_new this filter.
Proof.
  intros ToNumber Date_new this filter.
  unfold Facade.build, Facade.buildWithoutValidation.
  destruct (Facade.applyWhere ToNumber Date_new this
              (QueryBuilder.buildFilterQuery filter)) as [q|]; [|reflexivity].
  cbn [mbind option_bind].
  destruct (Facade.applyOrderBy this q); reflexivity.
Qed.

(** ** The extractor *)

Section ExtractorProofs.

Variable JSON_parse_record : string -> option obj.
Variable JSON_parse_ranges : string -> option (list RangedFilter).
Variable parseInt : string -> number.

Lemma json_block {A} (decode : string -> option A)
    (setter : option A -> FilteringQuery -> FilteringQuery)
    (msg : string) (p : option Param) (st : Extractor.State) :
  Extractor.when (Extractor.param_truthy p)
    (Extractor.try_catch
       (Extractor.bind (Extractor.parse_if_string decode (Extractor.first_value p))
          (fun v => Extractor.assign (setter v)))
       (fun error => Extractor.console_warn (msg +:+ error))) st
  = (Extractor.Ok tt,
     {| Extractor.filter := after_json decode setter p (Extractor.filter st);
        Extractor.console := Extractor.console st ++ json_warning decode msg p |}).
Proof.
  unfold after_json, json_warning, Extractor.when.
  destruct st as [q out].
  destruct (Extractor.param_truthy p); [|cbn; now rewrite app_nil_r].
  unfold Extractor.try_catch, Extractor.bind, Extractor.parse_if_string,
    Extractor.JSON_parse.
  destruct (Extractor.first_value p) as [s|]; cbn; [|now rewrite app_nil_r].
  destruct (decode s); cbn; [now rewrite app_nil_r|reflexivity].
Qed.

Lemma assign_block (c : bool) (f : FilteringQuery -> FilteringQuery)
    (st : Extractor.State) :
  Extractor.when c (Extractor.assign f) st
  = (Extractor.Ok tt,
     {| Extractor.filter := if c then f (Extractor.filter st) else Extractor.filter st;
        Extractor.console := Extractor.console st |}).
Proof.
  destruct st, c; reflexivity.
Qed.

Lemma bind_ok {A B} (m : Extractor.M A) (k : A -> Extractor.M B)
    (st st' : Extractor.State) (a : A) :
  m st = (Extractor.Ok a, st') -> Extractor.bind m k st = k a st'.
Proof.
  intros H. unfold Extractor.bind. now rewrite H.
Qed.

Lemma run_returns (queryParams : gmap string Param) (out : list string) :
  exists st,
    Extractor.run JSON_parse_record JSON_parse_ranges parseInt queryParams out
    = (Extractor.Ok (extract_fields JSON_parse_record JSON_parse_ranges parseInt queryParams), st).
Proof.
  unfold Extractor.run, Extractor.extractQueryFromParams.
  erewrite bind_ok by apply json_block.
  erewrite bind_ok by apply json_block.
  erewrite bind_ok by apply json_block.
  erewrite bind_ok by apply assign_block.
  erewrite bind_ok by apply assign_block.
  erewrite bind_ok by apply assign_block.
  erewrite bind_ok by apply assign_block.
  unfold Extractor.read_filter. cbn [Extractor.filter Extractor.console].
  eexists. reflexivity.
Qed.

Lemma run_state (queryParams : gmap string Param) (out : list string) :
  let fq := extract_fields JSON_parse_record JSON_parse_ranges parseInt queryParams in
  Extractor.run JSON_parse_record JSON_parse_ranges parseInt queryParams out
  = (Extractor.Ok fq,
     {| Extractor.filter := fq;
        Extractor.console :=
          console_after JSON_parse_record JSON_parse_ranges queryParams out |}).
Proof.
  unfold Extractor.run, Extractor.extractQueryFromParams.
  erewrite bind_ok by apply json_block.
  erewrite bind_ok by apply json_block.
  erewrite bind_ok by apply json_block.
  erewrite bind_ok by apply assign_block.
  erewrite bind_ok by apply assign_block.
  erewrite bind_ok by apply assign_block.
  erewrite bind_ok by apply assign_block.
  unfold Extractor.read_filter, console_after.
  cbn [Extractor.filter Extractor.console]. now rewrite <- !app_assoc.
Qed.

Lemma extracted_fields (queryParams : gmap string Param) :
  extracted JSON_parse_record JSON_parse_ranges parseInt queryParams
  = Some (extract_fields JSON_parse_record JSON_parse_ranges parseInt queryParams).
Proof.
  unfold extracted. destruct (run_returns queryParams []) as [st ->]. reflexivity.
Qed.



End ExtractorProofs.







(** ** The transformer: dropping empty elements *)

#[local] Arguments String.eqb : simpl never.

Section TransformerProofs.

Variable ToNumber : value -> number.
Variable Date_new : value -> number.
Variable config : TransformConfig.

#[local] Abbreviation transformCondition := (Transformer.transformCondition ToNumber Date_new config).
#[local] Abbreviation transformAndElement := (Transformer.transformAndElement ToNumber Date_new config).
#[local] Abbreviation transformWhereClause := (Transformer.transformWhereClause ToNumber Date_new config).







Lemma inherited_proto (k : string) :
  Transformer.inherited k = false -> String.eqb k "__proto__" = false.
Proof.
  unfold Transformer.inherited, Transformer.Object_prototype. cbn [existsb].
  intros H. repeat (apply orb_false_elim in H as [? H]). assumption.
Qed.

Lemma assign_own (k : string) (v : value) (o : obj) :
  Transformer.inherited k = false ->
  Transformer.assign k v o = Some (set k v o).
Proof.
  intros H. unfold Transformer.assign. now rewrite (inherited_proto k H).
Qed.

Hypothesis config_targets : own_targets config.

Lemma actualField_own (k : string) :
  Transformer.inherited k = false ->
  Transformer.inherited (Transformer.actualField_of config k) = false.
Proof.
  intros Hk. unfold Transformer.actualField_of, Transformer.fieldNameMappings_.
  destruct (default ∅ (fieldNameMappings config) !! k) as [a|] eqn:E; [|exact Hk].
  destruct (str_truthy a); [|exact Hk].
  exact (proj2 config_targets k a E).
Qed.





Lemma prop_single (name k : string) (v : value) :
  Transformer.prop name (VObj [(k, v)])
  = if String.eqb name k then Some v else None.
Proof. reflexivity. Qed.











End TransformerProofs.


(** ** The transformer under the empty configuration *)

Section EmptyConfig.

Variable ToNumber : value -> number.
Variable Date_new : value -> number.
Variable config : TransformConfig.
Hypothesis config_empty : empty_maps config.

#[local] Abbreviation transformCondition :=
  (Transformer.transformCondition ToNumber Date_new config).
#[local] Abbreviation transformAndElement :=
  (Transformer.transformAndElement ToNumber Date_new config).
#[local] Abbreviation transformWhereClause :=
  (Transformer.transformWhereClause ToNumber Date_new config).

Lemma transformField_unmapped (k : string) (v : value) :
  Transformer.inherited k = false ->
  nullish v = false ->
  Transformer.transformField ToNumber Date_new config [] (k, v)
  = match Transformer.processFieldValue ToNumber Date_new v None with
    | Some VNull => Some []
    | Some pv => Some [(k, pv)]
    | None => None
    end.
Proof.
  destruct config_empty as (E1 & E2 & E3 & E4).
  intros Hk N. unfold Transformer.transformField, Transformer.actualField_of,
    Transformer.fieldNameMappings_, Transformer.fieldTypeHandlers_,
    Transformer.relationHandlers_.
  rewrite N, Hk, E1, E2, E3, !lookup_empty, String.eqb_refl. cbn [negb].
  unfold Transformer.assign. rewrite (inherited_proto k Hk).
  destruct (Transformer.processFieldValue _ _ _ _) as [[]|]; reflexivity.
Qed.

Lemma transformCondition_flat (c : value) :
  flat_condition c ->
  transformCondition c = Some (normalize_condition c) /\
  Transformer.nonempty (normalize_condition c) = true.
Proof.
  intros (k & v & -> & Hk & [S|(s & ->)]).
  - unfold Transformer.transformCondition. cbn [Transformer.entries mbind option_bind fold_left].
    rewrite transformField_unmapped
      by (try assumption; destruct v; try contradiction; reflexivity).
    destruct v; try contradiction; split; reflexivity.
  - unfold Transformer.transformCondition. cbn [Transformer.entries mbind option_bind fold_left].
    rewrite transformField_unmapped by (try assumption; reflexivity).
    split; reflexivity.
Qed.

Lemma mapM_flat (cs : list value) :
  Forall flat_condition cs ->
  mapM transformCondition cs = Some (map normalize_condition cs) /\
  List.filter Transformer.nonempty (map normalize_condition cs)
  = map normalize_condition cs.
Proof.
  induction 1 as [|c cs H _ [IH1 IH2]]; [split; reflexivity|].
  destruct (transformCondition_flat c H) as [T N].
  cbn [mapM map List.filter]. rewrite T, IH1, N, IH2. split; reflexivity.
Qed.

Lemma transformAndElement_flat (c : value) :
  flat_element c ->
  transformAndElement c = Some (normalize_element c) /\
  Transformer.nonempty (normalize_element c) = true.
Proof.
  intros [F|(cs & -> & Hne & F)].
  - destruct (transformCondition_flat c F) as [T N].
    destruct F as (k & v & -> & Hk & [S|(s & ->)]).
    + unfold Transformer.transformAndElement. rewrite prop_single.
      destruct v; try contradiction;
        (split; [destruct (String.eqb "OR" k); exact T|exact N]).
    + unfold Transformer.transformAndElement. rewrite prop_single.
      split; [destruct (String.eqb "OR" k); exact T|exact N].
  - destruct (mapM_flat cs F) as [M K].
    unfold Transformer.transformAndElement. rewrite prop_single.
    cbn [normalize_element]. rewrite String.eqb_refl, M.
    cbn [mbind option_bind]. rewrite K.
    destruct cs as [|c cs]; [congruence|]. split; reflexivity.
Qed.

Lemma mapM_flat_elements (cs : list value) :
  Forall flat_element cs ->
  mapM transformAndElement cs = Some (map normalize_element cs) /\
  List.filter Transformer.nonempty (map normalize_element cs)
  = map normalize_element cs.
Proof.
  induction 1 as [|c cs H _ [IH1 IH2]]; [split; reflexivity|].
  destruct (transformAndElement_flat c H) as [T N].
  cbn [mapM map List.filter]. rewrite T, IH1, N, IH2. split; reflexivity.
Qed.

Lemma transformWhereClause_flat (cs : list value) :
  Forall flat_element cs ->
  transformWhereClause (VObj [("AND", VArr cs)])
  = Some (normalize_where (VObj [("AND", VArr cs)])).
Proof.
  intros F. destruct (mapM_flat_elements cs F) as [M K].
  unfold Transformer.transformWhereClause, normalize_where. cbn [truthy negb].
  change (Transformer.prop "AND" (VObj [("AND", VArr cs)])) with (Some (VArr cs)).
  change (and_of (VObj [("AND", VArr cs)])) with cs.
  cbv beta iota. rewrite M. cbn [mbind option_bind]. rewrite K.
  destruct cs; reflexivity.
Qed.

End EmptyConfig.

(** ** What plain requests compile to *)

Lemma filter_entry_flat (kv : string * value) :
  plain_filter kv -> nullish kv.2 = false -> flat_element (filter_entry kv).
Proof.
  destruct kv as [k v]. unfold plain_filter, filter_entry, equality_predicate.
  cbn [fst snd]. intros [[-> Hk] [S|[N|(vs & -> & Hne & F)]]] Hn.
  - left. exists k, v.
    split; [destruct v; try contradiction; reflexivity|]. split; [exact Hk|now left].
  - congruence.
  - right. eexists. split; [reflexivity|]. split.
    + destruct vs; [congruence|discriminate].
    + clear Hne Hn. induction F as [|x vs Hx _ IH]; simpl; [constructor|].
      constructor; [|exact IH]. exists k, x.
      split; [reflexivity|]. split; [exact Hk|now left].
Qed.

Lemma filter_conditions_flat (m : obj) :
  Forall plain_filter m -> Forall flat_element (map filter_entry (present m)).
Proof.
  unfold present. induction 1 as [|kv m H _ IH]; simpl; [constructor|].
  destruct (nullish kv.2) eqn:N; simpl; [exact IH|].
  constructor; [now apply filter_entry_flat|exact IH].
Qed.

Lemma search_direct_flat (s : obj) :
  Forall plain_search s -> Forall flat_condition (search_direct s).
Proof.
  unfold search_direct, present.
  induction 1 as [|[k v] s [[Hk Hi] Hv] _ IH]; simpl; [constructor|].
  cbn [fst snd] in *. destruct (nullish v) eqn:N; simpl; [exact IH|].
  constructor; [|exact IH].
  destruct Hv as [[x ->]|Hv]; [|congruence].
  unfold contains_predicate, equality_predicate. cbn [fst snd]. rewrite Hk.
  exists k, (VObj [("contains", VStr x)]).
  split; [reflexivity|]. split; [exact Hi|right; eauto].
Qed.

Lemma search_conditions_flat (s : obj) :
  Forall plain_search s -> Forall flat_element (QueryBuilder.buildSearchQuery s).
Proof.
  intros H. rewrite buildSearchQuery_eq.
  pose proof (search_direct_flat s H) as F.
  destruct (1 <? length s)%nat.
  - unfold search_or. fold (search_direct s).
    unfold search_direct in *. destruct (present s) as [|kv p]; constructor; [|constructor].
    right. eexists. split; [reflexivity|]. split; [discriminate|exact F].
  - eapply Forall_impl; [exact F|]. intros c Hc. now left.
Qed.

Lemma plain_request_flat (fq : FilteringQuery) :
  plain_request fq ->
  exists cs,
    where_ (QueryBuilder.buildFilterQuery fq) = VObj [("AND", VArr cs)] /\
    Forall flat_element cs /\
    (present (default [] (filters fq)) <> [] ->
     exists c rest, cs = c :: rest /\ normalize_element c <> c).
Proof.
  intros (Hf & Hs & Hr). rewrite buildFilterQuery_where. eexists.
  split; [reflexivity|].
  assert (R : range_conditions fq = []).
  { unfold range_conditions. destruct (rangedFilters fq); [|reflexivity].
    simpl in Hr. now subst. }
  rewrite R, app_nil_r. split.
  - apply Forall_app. split.
    + unfold filter_conditions. destruct (filters fq) as [m|]; [|constructor].
      rewrite buildWhereQuery_map. now apply filter_conditions_flat.
    + unfold search_conditions. destruct (searchFilters fq) as [s|]; [|constructor].
      now apply search_conditions_flat.
  - unfold filter_conditions. destruct (filters fq) as [m|]; simpl; [|congruence].
    rewrite buildWhereQuery_map. simpl in Hf.
    assert (P : Forall plain_filter (present m)).
    { unfold present. clear -Hf. induction Hf as [|kv m H _ IH]; simpl; [constructor|].
      destruct (negb _); [constructor; assumption|assumption]. }
    assert (Q : Forall (fun kv => nullish kv.2 = false) (present m)).
    { unfold present. clear. induction m as [|kv m IH]; simpl; [constructor|].
      destruct (nullish kv.2) eqn:N; simpl; [exact IH|constructor; assumption]. }
    destruct (present m) as [|[k v] p]; [congruence|]. intros _.
    inversion P as [|? ? [[Hk Hi] Hv] _]; subst. inversion Q as [|? ? Hn _]; subst.
    cbn [fst snd] in *. eexists _, _. split; [reflexivity|].
    unfold filter_entry, equality_predicate. cbn [fst snd]. rewrite Hk.
    destruct Hv as [S|[N|(vs & -> & Hne & F)]]; [|congruence|].
    + destruct v; try contradiction; discriminate.
    + cbn [normalize_element]. rewrite String.eqb_refl.
      destruct F as [|x vs Hx F]; [congruence|].
      destruct x; try contradiction; discriminate.
Qed.

(** ** Wrapping keeps the shape *)

Lemma Normalized_condition (c : value) :
  flat_condition c -> Normalized c (normalize_condition c).
Proof.
  intros (k & v & -> & _ & [S|(s & ->)]).
  - destruct v; try contradiction; apply Normalized_obj;
      (constructor; [|constructor]); (split; [reflexivity|]);
      now apply Normalized_wrap.
  - apply Normalized_same.
Qed.

Lemma Normalized_element (c : value) :
  flat_element c -> Normalized c (normalize_element c).
Proof.
  intros [F|(cs & -> & _ & F)].
  - replace (normalize_element c) with (normalize_condition c);
      [now apply Normalized_condition|].
    destruct F as (k & v & -> & _ & [S|(s & ->)]); [|reflexivity].
    destruct v; try contradiction; reflexivity.
  - cbn [normalize_element]. rewrite String.eqb_refl.
    apply Normalized_obj. constructor; [|constructor]. split; [reflexivity|].
    apply Normalized_arr. cbn [snd].
    induction F as [|c cs Hc _ IH]; simpl; [constructor|].
    constructor; [|exact IH]. now apply Normalized_condition.
Qed.

Lemma Normalized_where (cs : list value) :
  Forall flat_element cs -> cs <> [] ->
  Normalized (VObj [("AND", VArr cs)]) (normalize_where (VObj [("AND", VArr cs)])).
Proof.
  intros F Hne. unfold normalize_where.
  change (and_of (VObj [("AND", VArr cs)])) with cs.
  destruct cs as [|c0 cs0]; [congruence|].
  apply Normalized_obj. constructor; [|constructor]. split; [reflexivity|].
  apply Normalized_arr. cbn [snd].
  change (Forall2 Normalized (c0 :: cs0) (map normalize_element (c0 :: cs0))).
  clear Hne. induction F as [|c cs Hc _ IH]; simpl; [constructor|].
  constructor; [|exact IH]. now apply Normalized_element.
Qed.

(** C6, as the code has it.  Under a configuration whose maps are all
    empty, the tree compiled from a request without ranged filters and
    dotted keys, whose filter values are scalars or non-empty arrays of
    scalars and whose search values are strings, comes back with the same
    [AND]/[OR] shape and keys and each scalar filter value in its default
    wrapper ([contains] for a string, [equals] otherwise); an empty tree
    comes back as the empty object.  This is no identity: with a filter
    present the result differs from the tree. *)
Theorem empty_config_wraps_scalar_filters :
  forall (ToNumber Date_new : value -> number) (config : TransformConfig)
         (fq : FilteringQuery),
    empty_maps config ->
    plain_request fq ->
    let w := where_ (QueryBuilder.buildFilterQuery fq) in
    Transformer.transformWhereClause ToNumber Date_new config w
    = Some (normalize_where w) /\
    (and_of w <> [] -> Normalized w (normalize_where w)) /\
    (present (default [] (filters fq)) <> [] -> normalize_where w <> w).
Proof.
  intros ToNumber Date_new config fq Hc Hp w.
  destruct (plain_request_flat fq Hp) as (cs & E & F & D).
  unfold w. rewrite E. split; [now apply transformWhereClause_flat|].
  split.
  - intros Hne. now apply Normalized_where.
  - intros Hpres. destruct (D Hpres) as (c & rest & -> & Hc').
    unfold normalize_where. change (and_of (VObj [("AND", VArr (c :: rest))])) with (c :: rest).
    cbn [map]. intros [= H _]. contradiction.
Qed.

Lemma filter_status_plain : plain_request filter_status.
Proof.
  assert (K : forall k, includes dot k = false -> Transformer.inherited k = false ->
                        plain_key k) by (intros; split; assumption).
  split; [|split]; [| |reflexivity].
  - apply List.Forall_cons; [|apply List.Forall_cons; [|apply List.Forall_cons;
      [|apply List.Forall_nil]]]; (split; [apply K; reflexivity|]).
    + left. exact I.
    + right. right. eexists. split; [reflexivity|].
      split; [discriminate|].
      apply List.Forall_cons; [exact I|].
      apply List.Forall_cons; [exact I|apply List.Forall_nil].
    + right. left. reflexivity.
  - apply List.Forall_cons; [|apply List.Forall_nil].
    split; [apply K; reflexivity|]. left. eexists. reflexivity.
Qed.

Lemma empty_config_wraps_scalar_filters_witness :
  let w := where_ (QueryBuilder.buildFilterQuery filter_status) in
  Transformer.transformWhereClause sample_ToNumber sample_Date_new empty_config w
  = Some (normalize_where w) /\
  (and_of w <> [] -> Normalized w (normalize_where w)) /\
  (present (default [] (filters filter_status)) <> [] -> normalize_where w <> w).
Proof.
  apply (empty_config_wraps_scalar_filters sample_ToNumber sample_Date_new
           empty_config filter_status).
  - split; [reflexivity|]. split; [reflexivity|]. split; reflexivity.
  - exact filter_status_plain.
Defined.

(** The example of the specification: a string becomes [{contains: ...}]. *)
Example filter_status_transformed :
  Transformer.transformWhereClause sample_ToNumber sample_Date_new empty_config
    (where_ (QueryBuilder.buildFilterQuery filter_status))
  = Some (VObj [("AND", VArr
       [VObj [("status", VObj [("contains", VStr "active")])];
        VObj [("OR", VArr
           [VObj [("category", VObj [("contains", VStr "a")])];
            VObj [("category", VObj [("equals", VNum (Num 2))])]])];
        VObj [("title", VObj [("contains", VStr "x")])]])]).
Proof. vm_compute. reflexivity. Qed.

Ltac invert_normalized :=
  repeat match goal with
         | H : Normalized _ _ |- _ => inversion H; clear H; subst
         | H : Forall2 _ _ _ |- _ => inversion H; clear H; subst
         | H : _ /\ _ |- _ => destruct H
         | H : scalar _ |- _ => contradiction H
         | H : fst _ = fst _ |- _ => discriminate H
         end.

(** C6 as worded fails on a ranged filter and on a dotted key: the
    transformed tree keeps the lower bound only, as an [equals] on the
    field, and puts the wrapper where the column was. *)
Lemma normalization_claim_fails :
  (Transformer.transformWhereClause sample_ToNumber sample_Date_new empty_config
     (where_ (QueryBuilder.buildFilterQuery range_price))
   = Some (VObj [("AND", VArr [VObj [("price", VObj [("equals", VNum (Num 10))])]])])
   /\
   ~ Normalized
       (where_ (QueryBuilder.buildFilterQuery range_price))
       (VObj [("AND", VArr [VObj [("price", VObj [("equals", VNum (Num 10))])]])]))
  /\
  (Transformer.transformWhereClause sample_ToNumber sample_Date_new empty_config
     (where_ (QueryBuilder.buildFilterQuery dotted_author))
   = Some (VObj [("AND", VArr [VObj [("author", VObj [("contains", VStr "ann")])]])])
   /\
   ~ Normalized
       (where_ (QueryBuilder.buildFilterQuery dotted_author))
       (VObj [("AND", VArr [VObj [("author", VObj [("contains", VStr "ann")])]])])).
Proof.
  split; (split; [vm_compute; reflexivity|]); intros H; vm_compute in H;
    invert_normalized.
Qed.





(** What is extracted beside the field that did not decode. *)
Example params_bad_filters_extracted :
  extracted sample_parse_record sample_parse_ranges sample_parseInt
    params_bad_filters
  = Some {| filters := None; searchFilters := Some []; rangedFilters := None;
            orderKey := None; orderRule := None;
            page := Some (Num 2); rows := None |}.
Proof. vm_compute. reflexivity. Qed.

(* ================================================================== *)
(** * Further properties *)
(* ================================================================== *)

(** ** The compiler *)

Lemma range_predicate_entry (r : RangedFilter) : range_entry r (range_predicate r).
Proof.
  unfold range_entry, range_predicate, equality_predicate, bounds. split.
  - intros ->. reflexivity.
  - intros relation column more Hr Hc ->.
    rewrite includes_app_dot, split_app_dot by assumption.
    destruct (split_head_tail column more Hc) as [rest ->]. reflexivity.
Qed.

(** X1.  The ranged filters give the last entries of [where.AND], one per
    filter in input order: the bounds [{gte: start, lte: end}], passed on
    as they are, under the key, or under relation and column when the key
    has dots. *)
Theorem ranges_close_the_and :
  forall fq : FilteringQuery,
    exists es,
      where_ (QueryBuilder.buildFilterQuery fq)
      = VObj [("AND", VArr (filter_conditions fq ++ search_conditions fq ++ es))]
      /\ Forall2 range_entry (default [] (rangedFilters fq)) es.
Proof.
  intros fq. exists (map range_predicate (default [] (rangedFilters fq))).
  rewrite buildFilterQuery_where. split.
  - unfold range_conditions. destruct (rangedFilters fq) as [rs|]; [|reflexivity].
    now rewrite buildRangedFilter_map.
  - induction (default [] (rangedFilters fq)) as [|r rs IH]; simpl; constructor;
      [apply range_predicate_entry|exact IH].
Qed.







(** ** The validator: helpers that only push *)

Lemma log_app_empty_r (l : Validation.Log) : log_app l empty_log = l.
Proof. destruct l. unfold log_app. cbn. now rewrite !app_nil_r. Qed.

Lemma log_app_assoc (a b c : Validation.Log) :
  log_app a (log_app b c) = log_app (log_app a b) c.
Proof. unfold log_app. cbn. now rewrite !app_assoc. Qed.

Lemma appends_id : appends (fun l => l).
Proof. intros l. now rewrite log_app_empty_r. Qed.

Lemma appends_push_error (msg : string) : appends (Validation.push_error msg).
Proof.
  intros l. unfold Validation.push_error, log_app, push. cbn.
  now rewrite app_nil_r.
Qed.

Lemma appends_push_warning (msg : string) : appends (Validation.push_warning msg).
Proof.
  intros l. unfold Validation.push_warning, log_app, push. cbn.
  now rewrite app_nil_r.
Qed.

Lemma appends_comp (f g : Validation.Log -> Validation.Log) :
  appends f -> appends g -> appends (fun l => g (f l)).
Proof.
  intros Hf Hg l. rewrite (Hg (f l)), (Hf l), (Hg (f empty_log)).
  now rewrite log_app_assoc.
Qed.

Lemma appends_if (c : bool) (f g : Validation.Log -> Validation.Log) :
  appends f -> appends g -> appends (fun l => if c then f l else g l).
Proof. now destruct c. Qed.

Lemma appends_fold {A} (step : Validation.Log -> A -> Validation.Log) (xs : list A) :
  (forall x, appends (fun l => step l x)) ->
  appends (fun l => fold_left step xs l).
Proof.
  intros H. induction xs as [|x xs IH]; [apply appends_id|].
  cbn [fold_left]. exact (appends_comp (fun l => step l x) _ (H x) IH).
Qed.

Lemma appends_check_relation (prefix field : string) (s : QuerySpecification) :
  appends (Validation.check_relation prefix field s).
Proof.
  unfold Validation.check_relation.
  destruct (includes dot field); [|apply appends_id].
  apply appends_if; [apply appends_push_error|apply appends_id].
Qed.

Lemma appends_validateFilters (f : obj) (s : QuerySpecification) :
  appends (Validation.validateFilters f s).
Proof.
  apply appends_fold. intros [field v].
  apply appends_if; [apply appends_id|].
  apply (appends_comp _ (Validation.check_relation "Relation " field s));
    [|apply appends_check_relation].
  apply appends_if; [|apply appends_id].
  apply appends_if; [apply appends_push_error|apply appends_push_warning].
Qed.

Lemma appends_validateSearchFilters (f : obj) (s : QuerySpecification) :
  appends (Validation.validateSearchFilters f s).
Proof.
  apply appends_fold. intros [field v].
  apply appends_if; [apply appends_id|].
  apply (appends_comp _ (Validation.check_relation "Search relation " field s));
    [|apply appends_check_relation].
  apply appends_if; [apply appends_push_warning|apply appends_id].
Qed.

Lemma appends_validateRangedFilters (Date_new : value -> number)
    (rs : list RangedFilter) (s : QuerySpecification) :
  appends (Validation.validateRangedFilters Date_new rs s).
Proof.
  apply appends_fold. intros r.
  apply (appends_comp
           (fun l => Validation.check_relation "Range relation " (key r) s
                       (if Validation.configured_without (allowedFields s) (key r)
                        then Validation.push_warning _ l else l))
           (fun l => if Validation.isValidDate (start r) && Validation.isValidDate (end_ r)
                     then if num_gt (Date_new (start r)) (Date_new (end_ r))
                          then Validation.push_error _ l else l
                     else l)).
  - apply (appends_comp _ (Validation.check_relation "Range relation " (key r) s));
      [|apply appends_check_relation].
    apply appends_if; [apply appends_push_warning|apply appends_id].
  - apply appends_if; [|apply appends_id].
    apply appends_if; [apply appends_push_error|apply appends_id].
Qed.

Lemma appends_validateOrderKey (k : string) (s : QuerySpecification) :
  appends (Validation.validateOrderKey k s).
Proof.
  unfold Validation.validateOrderKey.
  apply (appends_comp _ (Validation.check_relation "Order relation " k s));
    [|apply appends_check_relation].
  apply appends_if; [apply appends_push_warning|apply appends_id].
Qed.

Lemma appends_validatePagination (fq : FilteringQuery) (s : QuerySpecification) :
  appends (Validation.validatePagination fq s).
Proof.
  unfold Validation.validatePagination.
  apply (appends_comp
           (fun l => match page fq with
                     | Some p => if num_lt p (Num 1)
                                 then Validation.push_error _ l else l
                     | None => l
                     end)
           (fun l => match rows fq with
                     | Some r =>
                         if num_lt r (Num 1) then Validation.push_error _ l
                         else match maxPageSize s with
                              | Some m => if num_truthy m && num_gt r m
                                          then Validation.push_error _ l else l
                              | None => l
                              end
                     | None => l
                     end)).
  - destruct (page fq); [|apply appends_id].
    apply appends_if; [apply appends_push_error|apply appends_id].
  - destruct (rows fq); [|apply appends_id].
    apply appends_if; [apply appends_push_error|].
    destruct (maxPageSize s); [|apply appends_id].
    apply appends_if; [apply appends_push_error|apply appends_id].
Qed.

Section StageProofs.

Variable Date_new : value -> number.
Variable s : QuerySpecification.
Variable fq : FilteringQuery.

Lemma appends_filters_stage : appends (filters_stage s fq).
Proof.
  unfold filters_stage. destruct (filters fq);
    [apply appends_validateFilters|apply appends_id].
Qed.

Lemma appends_search_stage : appends (search_stage s fq).
Proof.
  unfold search_stage. destruct (searchFilters fq);
    [apply appends_validateSearchFilters|apply appends_id].
Qed.

Lemma appends_ranges_stage : appends (ranges_stage Date_new s fq).
Proof.
  unfold ranges_stage. destruct (rangedFilters fq);
    [apply appends_validateRangedFilters|apply appends_id].
Qed.

Lemma appends_order_stage : appends (order_stage s fq).
Proof.
  unfold order_stage. destruct (orderKey fq); [|apply appends_id].
  apply appends_if; [apply appends_validateOrderKey|apply appends_id].
Qed.

Lemma appends_pagination_stage : appends (pagination_stage s fq).
Proof. apply appends_validatePagination. Qed.

Lemma validateQuery_stages :
  Validation.validateQuery Date_new fq (Some s)
  = result_of
      (pagination_stage s fq
         (order_stage s fq
            (ranges_stage Date_new s fq
               (search_stage s fq (filters_stage s fq empty_log))))).
Proof. reflexivity. Qed.

(** The arrays of a whole validation, stage after stage. *)
Lemma validateQuery_log :
  Validation.validateQuery Date_new fq (Some s)
  = result_of
      (log_app (filters_stage s fq empty_log)
         (log_app (search_stage s fq empty_log)
            (log_app (ranges_stage Date_new s fq empty_log)
               (log_app (order_stage s fq empty_log)
                  (pagination_stage s fq empty_log))))).
Proof.
  rewrite validateQuery_stages.
  rewrite (appends_pagination_stage _), (appends_order_stage _),
    (appends_ranges_stage _), (appends_search_stage _).
  now rewrite !log_app_assoc.
Qed.

End StageProofs.

Lemma length_app_zero {A} (a b : list A) :
  (length (a ++ b) =? 0)%nat = ((length a =? 0)%nat && (length b =? 0)%nat).
Proof. destruct a, b; reflexivity. Qed.

Lemma valid_pagination_part (Date_new : value -> number) (fq : FilteringQuery)
    (s : QuerySpecification) :
  isValid (Validation.validateQuery Date_new fq (Some s)) = true ->
  isValid (Validation.validateQuery Date_new (only_pagination fq) (Some s)) = true.
Proof.
  rewrite (validateQuery_log Date_new s fq).
  change (Validation.validateQuery Date_new (only_pagination fq) (Some s))
    with (result_of (pagination_stage s fq empty_log)).
  unfold result_of, log_app.
  cbn [isValid Validation.log_errors]. rewrite !length_app_zero.
  intros H. repeat (apply andb_prop in H as [_ H]). exact H.
Qed.

(** X3.  Validation is stage by stage and never stops early: the errors
    of a request are the errors of its filters, of its search filters, of
    its ranged filters, of its order and of its pagination, each validated
    alone, in this order; the warnings likewise; and the request is valid
    exactly when each part is. *)
Theorem validation_is_stagewise :
  forall (Date_new : value -> number) (fq : FilteringQuery)
         (specification : option QuerySpecification),
    let validate q := Validation.validateQuery Date_new q specification in
    errors (validate fq)
    = errors (validate (only_filters fq)) ++
      errors (validate (only_searchFilters fq)) ++
      errors (validate (only_rangedFilters fq)) ++
      errors (validate (only_order fq)) ++
      errors (validate (only_pagination fq)) /\
    warnings (validate fq)
    = warnings (validate (only_filters fq)) ++
      warnings (validate (only_searchFilters fq)) ++
      warnings (validate (only_rangedFilters fq)) ++
      warnings (validate (only_order fq)) ++
      warnings (validate (only_pagination fq)) /\
    isValid (validate fq)
    = isValid (validate (only_filters fq)) &&
      isValid (validate (only_searchFilters fq)) &&
      isValid (validate (only_rangedFilters fq)) &&
      isValid (validate (only_order fq)) &&
      isValid (validate (only_pagination fq)).
Proof.
  intros Date_new fq [s|] validate; [|repeat split; reflexivity].
  unfold validate. rewrite (validateQuery_log Date_new s fq).
  change (Validation.validateQuery Date_new (only_filters fq) (Some s))
    with (result_of (filters_stage s fq empty_log)).
  change (Validation.validateQuery Date_new (only_searchFilters fq) (Some s))
    with (result_of (search_stage s fq empty_log)).
  change (Validation.validateQuery Date_new (only_rangedFilters fq) (Some s))
    with (result_of (ranges_stage Date_new s fq empty_log)).
  change (Validation.validateQuery Date_new (only_order fq) (Some s))
    with (result_of (order_stage s fq empty_log)).
  change (Validation.validateQuery Date_new (only_pagination fq) (Some s))
    with (result_of (pagination_stage s fq empty_log)).
  unfold result_of, log_app.
  cbn [isValid errors warnings Validation.log_errors Validation.log_warnings].
  split; [reflexivity|]. split; [reflexivity|].
  rewrite !length_app_zero, !andb_assoc. reflexivity.
Qed.


(** ** The validator: pagination *)

Lemma isValid_only_pagination (Date_new : value -> number) (fq : FilteringQuery)
    (s : QuerySpecification) :
  isValid (Validation.validateQuery Date_new (only_pagination fq) (Some s)) = true
  <-> page_passes fq /\ rows_passes fq s.
Proof.
  change (Validation.validateQuery Date_new (only_pagination fq) (Some s))
    with (result_of (Validation.validatePagination fq s empty_log)).
  unfold result_of, Validation.validatePagination, page_passes, rows_passes,
    Validation.push_error, push, empty_log, num_gt, num_lt, num_truthy.
  cbn [isValid].
  destruct (page fq) as [[p|]|], (rows fq) as [[r|]|],
           (maxPageSize s) as [[m|]|];
    cbn [Validation.log_errors app length Nat.eqb andb];
    repeat match goal with
           | |- context [?a <? ?b] => destruct (Z.ltb_spec a b)
           | |- context [?a =? 0] => destruct (Z.eqb_spec a 0)
           end;
    cbn [Validation.log_errors app length Nat.eqb andb negb];
    split; try discriminate; try tauto; try lia; intuition lia.
Qed.

(** X4.  The pagination check: a request is valid only if [page] is
    absent, NaN or at least 1 and [rows] is absent, NaN or at least 1 and
    not above a [maxPageSize] that is a number other than 0; on a request
    with nothing but pagination this is all that is asked.  A [page] or
    [rows] that is NaN is never reported. *)
Theorem pagination_check_exactly :
  forall (Date_new : value -> number) (fq : FilteringQuery)
         (specification : QuerySpecification),
    let validate q := Validation.validateQuery Date_new q (Some specification) in
    (isValid (validate fq) = true ->
     page_passes fq /\ rows_passes fq specification) /\
    (isValid (validate (only_pagination fq)) = true
     <-> page_passes fq /\ rows_passes fq specification).
Proof.
  intros Date_new fq s validate. split; [|apply isValid_only_pagination].
  intros V. apply (isValid_only_pagination Date_new).
  now apply valid_pagination_part.
Qed.



(** ** The validator: relations *)

Lemma nonempty_invalid (es : list string) :
  es <> [] -> (length es =? 0)%nat = false.
Proof. now destruct es. Qed.

Lemma appends_keeps_errors (f : Validation.Log -> Validation.Log) (l : Validation.Log) :
  appends f -> Validation.log_errors l <> [] -> Validation.log_errors (f l) <> [].
Proof.
  intros Hf Hl. rewrite (Hf l). unfold log_app. cbn [Validation.log_errors].
  destruct (Validation.log_errors l); [contradiction|discriminate].
Qed.

Lemma fold_reports {A} (step : Validation.Log -> A -> Validation.Log)
    (xs : list A) (x : A) :
  (forall x, appends (fun l => step l x)) ->
  (forall l, Validation.log_errors (step l x) <> []) ->
  In x xs ->
  forall l, Validation.log_errors (fold_left step xs l) <> [].
Proof.
  intros Ha Hx. induction xs as [|a xs IH]; intros Hin l; [destruct Hin|].
  cbn [fold_left]. destruct Hin as [->|Hin]; [|now apply IH].
  apply (appends_keeps_errors (fun l => fold_left step xs l));
    [now apply appends_fold|apply Hx].
Qed.

Lemma arr_includes_false (a : list string) (s : string) :
  ~ In s a -> Validation.arr_includes a s = false.
Proof.
  intros H. unfold Validation.arr_includes.
  destruct (existsb (String.eqb s) a) eqn:E; [|reflexivity].
  apply existsb_exists in E as (x & Hx & Ex).
  apply String.eqb_eq in Ex as <-. contradiction.
Qed.

Section RelationProofs.

Variable s : QuerySpecification.
Variables (relation rest : string) (rels : list string).
Hypothesis relation_segment : includes dot relation = false.
Hypothesis relation_named : relation <> "".
Hypothesis relations_configured : allowedRelations s = Some rels.
Hypothesis relation_missing : ~ In relation rels.

Lemma check_relation_reports (prefix : string) (l : Validation.Log) :
  Validation.log_errors
    (Validation.check_relation prefix (relation +:+ String dot rest) s l) <> [].
Proof.
  unfold Validation.check_relation.
  rewrite includes_app_dot, split_app_dot by assumption.
  cbn [part nth]. rewrite relations_configured.
  unfold Validation.configured_without. rewrite arr_includes_false by assumption.
  unfold str_truthy. destruct (String.eqb_spec relation ""); [contradiction|].
  cbn [negb andb]. unfold Validation.push_error, push. cbn [Validation.log_errors].
  now destruct (Validation.log_errors l).
Qed.

Lemma validateFilters_reports (f : obj) (v : value) (l : Validation.Log) :
  In (relation +:+ String dot rest, v) (present f) ->
  Validation.log_errors (Validation.validateFilters f s l) <> [].
Proof.
  intros Hin. apply filter_In in Hin as [Hin Hv]. cbn [snd] in Hv.
  apply negb_true_iff in Hv.
  unfold Validation.validateFilters. revert l.
  apply (fold_reports _ f (relation +:+ String dot rest, v)); [| |exact Hin].
  - intros [field w]. apply appends_if; [apply appends_id|].
    apply (appends_comp _ (Validation.check_relation "Relation " field s));
      [|apply appends_check_relation].
    apply appends_if; [|apply appends_id].
    apply appends_if; [apply appends_push_error|apply appends_push_warning].
  - intros l. rewrite Hv. apply check_relation_reports.
Qed.

Lemma validateSearchFilters_reports (f : obj) (v : value) (l : Validation.Log) :
  In (relation +:+ String dot rest, v) (present f) ->
  Validation.log_errors (Validation.validateSearchFilters f s l) <> [].
Proof.
  intros Hin. apply filter_In in Hin as [Hin Hv]. cbn [snd] in Hv.
  apply negb_true_iff in Hv.
  unfold Validation.validateSearchFilters. revert l.
  apply (fold_reports _ f (relation +:+ String dot rest, v)); [| |exact Hin].
  - intros [field w]. apply appends_if; [apply appends_id|].
    apply (appends_comp _ (Validation.check_relation "Search relation " field s));
      [|apply appends_check_relation].
    apply appends_if; [apply appends_push_warning|apply appends_id].
  - intros l. rewrite Hv. apply check_relation_reports.
Qed.

Lemma validateRangedFilters_reports (Date_new : value -> number)
    (rs : list RangedFilter) (r : RangedFilter) (l : Validation.Log) :
  In r rs -> key r = relation +:+ String dot rest ->
  Validation.log_errors (Validation.validateRangedFilters Date_new rs s l) <> [].
Proof.
  intros Hin Hk. unfold Validation.validateRangedFilters. revert l.
  apply (fold_reports _ rs r); [| |exact Hin].
  - intros r'. pose proof (appends_validateRangedFilters Date_new [r'] s) as H.
    exact H.
  - intros l.
    apply (appends_keeps_errors
             (fun l => if Validation.isValidDate (start r) && Validation.isValidDate (end_ r)
                       then if num_gt (Date_new (start r)) (Date_new (end_ r))
                            then Validation.push_error _ l else l
                       else l)).
    + apply appends_if; [|apply appends_id].
      apply appends_if; [apply appends_push_error|apply appends_id].
    + rewrite Hk. apply check_relation_reports.
Qed.

Lemma validateOrderKey_reports (l : Validation.Log) :
  Validation.log_errors
    (Validation.validateOrderKey (relation +:+ String dot rest) s l) <> [].
Proof. apply check_relation_reports. Qed.

Lemma dotted_truthy : str_truthy (relation +:+ String dot rest) = true.
Proof.
  unfold str_truthy. destruct relation; [contradiction|reflexivity].
Qed.

Lemma checked_key_reports (Date_new : value -> number) (fq : FilteringQuery) :
  checked_key fq (relation +:+ String dot rest) ->
  isValid (Validation.validateQuery Date_new fq (Some s)) = false.
Proof.
  intros H. rewrite validateQuery_stages. unfold result_of. cbn [isValid].
  apply nonempty_invalid.
  destruct H as [(v & H)|[(v & H)|[(r & H & K)|H]]].
  - repeat (apply appends_keeps_errors;
            [first [apply appends_pagination_stage | apply appends_order_stage
                   | apply appends_ranges_stage | apply appends_search_stage]|]).
    unfold filters_stage. destruct (filters fq) as [f|]; [|destruct H].
    now apply validateFilters_reports with v.
  - repeat (apply appends_keeps_errors;
            [first [apply appends_pagination_stage | apply appends_order_stage
                   | apply appends_ranges_stage]|]).
    unfold search_stage at 1. destruct (searchFilters fq) as [f|]; [|destruct H].
    now apply validateSearchFilters_reports with v.
  - repeat (apply appends_keeps_errors;
            [first [apply appends_pagination_stage | apply appends_order_stage]|]).
    unfold ranges_stage at 1. destruct (rangedFilters fq) as [rs|]; [|destruct H].
    now apply validateRangedFilters_reports with r.
  - apply appends_keeps_errors; [apply appends_pagination_stage|].
    unfold order_stage at 1. rewrite H, dotted_truthy.
    apply validateOrderKey_reports.
Qed.

End RelationProofs.

(** X6.  With [allowedRelations] configured, a key [relation....] whose
    first segment is not empty and not in the list makes the request
    invalid wherever the key is checked: as a filter or a search filter
    with a value that is neither null nor undefined, as a ranged filter or
    as the order key. *)
Theorem unlisted_relation_invalidates :
  forall (Date_new : value -> number) (fq : FilteringQuery)
         (specification : QuerySpecification)
         (relation rest : string) (rels : list string),
    includes dot relation = false ->
    relation <> EmptyString ->
    allowedRelations specification = Some rels ->
    ~ In relation rels ->
    checked_key fq (relation +:+ String dot rest) ->
    isValid (Validation.validateQuery Date_new fq (Some specification)) = false.
Proof.
  intros Date_new fq s relation rest rels H1 H2 H3 H4 H5.
  now apply (checked_key_reports s relation rest rels).
Qed.

Lemma unlisted_relation_invalidates_witness :
  isValid (Validation.validateQuery sample_Date_new filter_owner_name
             (Some allow_author_relation)) = false.
Proof.
  apply (unlisted_relation_invalidates sample_Date_new filter_owner_name
           allow_author_relation "owner" "name" ["author"]).
  - reflexivity.
  - discriminate.
  - reflexivity.
  - intros [H|[]]. discriminate H.
  - left. exists (VStr "ann"). left. reflexivity.
Defined.

(** ** The validator: what [allowedFields] can do *)

Section AllowedFields.

Variable s : QuerySpecification.
Hypothesis nothing_forbidden : forbiddenFields s = None.

#[local] Abbreviation s' := (without_allowedFields s).

Lemma check_relation_same_errors (prefix field : string) (l l' : Validation.Log) :
  Validation.log_errors l = Validation.log_errors l' ->
  Validation.log_errors (Validation.check_relation prefix field s l)
  = Validation.log_errors (Validation.check_relation prefix field s' l').
Proof.
  intros E. unfold Validation.check_relation.
  change (allowedRelations s') with (allowedRelations s).
  destruct (includes dot field); [|exact E].
  destruct (_ && _); [|exact E].
  unfold Validation.push_error. cbn [Validation.log_errors]. now rewrite E.
Qed.

Lemma fold_same_errors {A} (step step' : Validation.Log -> A -> Validation.Log)
    (xs : list A) :
  (forall x l l', Validation.log_errors l = Validation.log_errors l' ->
                  Validation.log_errors (step l x) = Validation.log_errors (step' l' x)) ->
  forall l l', Validation.log_errors l = Validation.log_errors l' ->
               Validation.log_errors (fold_left step xs l)
               = Validation.log_errors (fold_left step' xs l').
Proof.
  intros H. induction xs as [|x xs IH]; intros l l' E; [exact E|].
  cbn [fold_left]. apply IH. now apply H.
Qed.

Lemma warned_same_errors (c : bool) (msg : string) (l l' : Validation.Log) :
  Validation.log_errors l = Validation.log_errors l' ->
  Validation.log_errors (if c then Validation.push_warning msg l else l)
  = Validation.log_errors l'.
Proof. now destruct c. Qed.

Lemma validateFilters_same_errors (f : obj) (l l' : Validation.Log) :
  Validation.log_errors l = Validation.log_errors l' ->
  Validation.log_errors (Validation.validateFilters f s l)
  = Validation.log_errors (Validation.validateFilters f s' l').
Proof.
  apply fold_same_errors. intros [field v] a b E.
  destruct (nullish v); [exact E|].
  apply check_relation_same_errors. rewrite nothing_forbidden.
  cbn [Validation.optional_includes allowedFields without_allowedFields
       Validation.configured_without].
  now apply warned_same_errors.
Qed.

Lemma validateSearchFilters_same_errors (f : obj) (l l' : Validation.Log) :
  Validation.log_errors l = Validation.log_errors l' ->
  Validation.log_errors (Validation.validateSearchFilters f s l)
  = Validation.log_errors (Validation.validateSearchFilters f s' l').
Proof.
  apply fold_same_errors. intros [field v] a b E.
  destruct (nullish v); [exact E|].
  apply check_relation_same_errors.
  cbn [allowedFields without_allowedFields Validation.configured_without].
  now apply warned_same_errors.
Qed.

Lemma validateRangedFilters_same_errors (Date_new : value -> number)
    (rs : list RangedFilter) (l l' : Validation.Log) :
  Validation.log_errors l = Validation.log_errors l' ->
  Validation.log_errors (Validation.validateRangedFilters Date_new rs s l)
  = Validation.log_errors (Validation.validateRangedFilters Date_new rs s' l').
Proof.
  apply fold_same_errors. intros r a b E.
  assert (C : Validation.log_errors
                (Validation.check_relation "Range relation " (key r) s
                   (if Validation.configured_without (allowedFields s) (key r)
                    then Validation.push_warning
                           ("Range field '" +:+ key r
                            +:+ "' is not in allowed fields list") a
                    else a))
              = Validation.log_errors
                  (Validation.check_relation "Range relation " (key r) s' b)).
  { apply check_relation_same_errors. now apply warned_same_errors. }
  cbn [allowedFields without_allowedFields Validation.configured_without].
  destruct (_ && _); [|exact C].
  destruct (num_gt _ _); [|exact C].
  unfold Validation.push_error. cbn [Validation.log_errors]. now rewrite C.
Qed.

Lemma validateOrderKey_same_errors (k : string) (l l' : Validation.Log) :
  Validation.log_errors l = Validation.log_errors l' ->
  Validation.log_errors (Validation.validateOrderKey k s l)
  = Validation.log_errors (Validation.validateOrderKey k s' l').
Proof.
  intros E. unfold Validation.validateOrderKey.
  apply check_relation_same_errors.
  cbn [allowedFields without_allowedFields Validation.configured_without].
  now apply warned_same_errors.
Qed.

Lemma validatePagination_same_errors (fq : FilteringQuery) (l l' : Validation.Log) :
  Validation.log_errors l = Validation.log_errors l' ->
  Validation.log_errors (Validation.validatePagination fq s l)
  = Validation.log_errors (Validation.validatePagination fq s' l').
Proof.
  intros E. unfold Validation.validatePagination.
  change (maxPageSize s') with (maxPageSize s).
  unfold Validation.push_error.
  destruct (page fq) as [p|], (rows fq) as [r|];
    repeat match goal with
           | |- context [if ?c then _ else _] => destruct c
           | |- context [match maxPageSize s with _ => _ end] =>
               destruct (maxPageSize s)
           end;
    cbn [Validation.log_errors]; now rewrite ?E.
Qed.

Lemma validateQuery_same_errors (Date_new : value -> number) (fq : FilteringQuery) :
  errors (Validation.validateQuery Date_new fq (Some s))
  = errors (Validation.validateQuery Date_new fq (Some s')).
Proof.
  rewrite !validateQuery_stages. unfold result_of. cbn [errors].
  apply validatePagination_same_errors.
  unfold order_stage, ranges_stage, search_stage, filters_stage.
  destruct (orderKey fq) as [k|]; [destruct (str_truthy k)|];
    destruct (rangedFilters fq), (searchFilters fq), (filters fq);
    repeat first [ apply validateOrderKey_same_errors
                 | apply validateRangedFilters_same_errors
                 | apply validateSearchFilters_same_errors
                 | apply validateFilters_same_errors ];
    reflexivity.
Qed.

End AllowedFields.

(** X7.  [allowedFields] alone never rejects: when the specification has
    no [forbiddenFields], validation gives the same errors, hence the same
    verdict, as under the specification with [allowedFields] taken out. *)
Theorem allowedFields_alone_never_rejects :
  forall (Date_new : value -> number) (fq : FilteringQuery)
         (specification : QuerySpecification),
    forbiddenFields specification = None ->
    let validate s := Validation.validateQuery Date_new fq (Some s) in
    errors (validate specification)
    = errors (validate (without_allowedFields specification)) /\
    isValid (validate specification)
    = isValid (validate (without_allowedFields specification)).
Proof.
  intros Date_new fq s H validate.
  pose proof (validateQuery_same_errors s H Date_new fq) as E.
  split; [exact E|].
  unfold validate. rewrite !validateQuery_stages in *. unfold result_of in *.
  cbn [isValid errors] in *. now rewrite E.
Qed.

Lemma allowedFields_alone_never_rejects_witness :
  errors (Validation.validateQuery sample_Date_new filter_b (Some allow_a))
  = errors (Validation.validateQuery sample_Date_new filter_b
              (Some (without_allowedFields allow_a))) /\
  isValid (Validation.validateQuery sample_Date_new filter_b (Some allow_a))
  = isValid (Validation.validateQuery sample_Date_new filter_b
               (Some (without_allowedFields allow_a))).
Proof.
  exact (allowedFields_alone_never_rejects sample_Date_new filter_b allow_a eq_refl).
Defined.

(** ** The extractor: what it reads and what it writes *)

Section ExtractorReads.

Variable JSON_parse_record : string -> option obj.
Variable JSON_parse_ranges : string -> option (list RangedFilter).
Variable parseInt : string -> number.

#[local] Abbreviation run :=
  (Extractor.run JSON_parse_record JSON_parse_ranges parseInt).

Lemma reads_alike_same (p p' : option Param) :
  reads_alike p p' ->
  Extractor.param_truthy p = Extractor.param_truthy p' /\
  (Extractor.param_truthy p = true ->
   Extractor.first_value p = Extractor.first_value p').
Proof.
  intros [q|s rest Hs|]; cbn.
  - now split.
  - unfold str_truthy. destruct (String.eqb_spec s ""); [contradiction|now split].
  - split; [reflexivity|discriminate].
Qed.

Lemma run_alike (queryParams queryParams' : gmap string Param) (out : list string) :
  (forall k, In k extractor_keys ->
             reads_alike (queryParams !! k) (queryParams' !! k)) ->
  run queryParams out = run queryParams' out.
Proof.
  intros H.
  assert (K : forall k, In k extractor_keys ->
              Extractor.param_truthy (queryParams !! k)
              = Extractor.param_truthy (queryParams' !! k) /\
              (Extractor.param_truthy (queryParams !! k) = true ->
               Extractor.first_value (queryParams !! k)
               = Extractor.first_value (queryParams' !! k))).
  { intros k Hk. apply reads_alike_same. now apply H. }
  clear H. rewrite !run_state.
  unfold console_after, extract_fields, after_json, json_warning.
  repeat match goal with
         | |- context [Extractor.param_truthy (queryParams !! ?k)] =>
             let T := fresh "T" in let F := fresh "F" in
             destruct (K k) as [T F];
             [unfold extractor_keys; cbn [In]; tauto|];
             destruct (Extractor.param_truthy (queryParams !! k));
             [rewrite (F eq_refl)|]; rewrite <- T; clear T F
         end.
  all: reflexivity.
Qed.

End ExtractorReads.

(** X8.  The extractor reads the seven parameters [filters],
    [searchFilters], [rangedFilters], [orderKey], [orderRule], [page] and
    [rows] and nothing else; of a repeated parameter it reads the first
    occurrence only; an empty string is read as no parameter.  Two
    mappings that differ in these ways only give the same request and the
    same console. *)
Theorem extract_reads_first_occurrence :
  forall (JSON_parse_record : string -> option obj)
         (JSON_parse_ranges : string -> option (list RangedFilter))
         (parseInt : string -> number)
         (queryParams queryParams' : gmap string Param) (out : list string),
    (forall k, In k extractor_keys ->
               reads_alike (queryParams !! k) (queryParams' !! k)) ->
    Extractor.run JSON_parse_record JSON_parse_ranges parseInt queryParams out
    = Extractor.run JSON_parse_record JSON_parse_ranges parseInt queryParams' out.
Proof.
  intros. now apply run_alike.
Qed.

(** X9.  A call of the extractor returns and leaves on the console what
    was there, followed by one warning for each of [filters],
    [searchFilters] and [rangedFilters] that did not decode, in this
    order; nothing else is written. *)
Theorem extract_warns_once_per_failure :
  forall (JSON_parse_record : string -> option obj)
         (JSON_parse_ranges : string -> option (list RangedFilter))
         (parseInt : string -> number)
         (queryParams : gmap string Param) (out : list string),
    exists fq st,
      Extractor.run JSON_parse_record JSON_parse_ranges parseInt queryParams out
      = (Extractor.Ok fq, st) /\
      Extractor.console st
      = console_after JSON_parse_record JSON_parse_ranges queryParams out /\
      (length out <= length (Extractor.console st) <= length out + 3)%nat.
Proof.
  intros d1 d2 pI queryParams out. eexists _, _.
  split; [apply run_state|]. cbn [Extractor.console]. split; [reflexivity|].
  unfold console_after, json_warning. rewrite !length_app.
  repeat match goal with
         | |- context [if ?c then _ else _] => destruct c
         | |- context [match ?x with _ => _ end] => destruct x
         end; cbn [length]; lia.
Qed.

Lemma extract_reads_first_occurrence_witness :
  Extractor.run sample_parse_record sample_parse_ranges sample_parseInt
    params_repeated []
  = Extractor.run sample_parse_record sample_parse_ranges sample_parseInt
      params_single [].
Proof.
  apply (extract_reads_first_occurrence sample_parse_record sample_parse_ranges
           sample_parseInt params_repeated params_single []).
  intros k Hk. cbn [In extractor_keys] in Hk.
  destruct Hk as [<-|[<-|[<-|[<-|[<-|[<-|[<-|[]]]]]]]]; vm_compute.
  - apply alike_same.
  - apply alike_same.
  - apply alike_same.
  - apply alike_first. discriminate.
  - apply alike_same.
  - apply alike_empty.
  - apply alike_same.
Defined.

(** ** The transformer under a configuration that maps nothing *)

Lemma extractRawValue_single_scalar (column : string) (v : value) :
  scalar v -> Transformer.extractRawValue (VObj [(column, v)]) = v.
Proof.
  intros S. cbn [Transformer.extractRawValue Transformer.get_with get].
  destruct v; try contradiction;
    repeat match goal with
           | |- context [String.eqb ?a ?b] => destruct (String.eqb a b)
           end; reflexivity.
Qed.

Lemma processFieldValue_scalar (ToNumber Date_new : value -> number) (v : value) :
  scalar v ->
  Transformer.processFieldValue ToNumber Date_new v None
  = Some (default_wrapper v).
Proof. destruct v; try contradiction; reflexivity. Qed.

Lemma processFieldValue_single_scalar (ToNumber Date_new : value -> number)
    (column : string) (v : value) :
  scalar v ->
  Transformer.processFieldValue ToNumber Date_new (VObj [(column, v)]) None
  = Some (default_wrapper v).
Proof.
  intros S. unfold Transformer.processFieldValue.
  rewrite extractRawValue_single_scalar by assumption.
  destruct v; try contradiction; reflexivity.
Qed.

Lemma processFieldValue_single_contains (ToNumber Date_new : value -> number)
    (column s : string) :
  Transformer.processFieldValue ToNumber Date_new
    (VObj [(column, VObj [("contains", VStr s)])]) None
  = Some (VObj [("contains", VStr s)]).
Proof.
  unfold Transformer.processFieldValue.
  cbn [Transformer.extractRawValue Transformer.get_with get typeof_object].
  repeat match goal with
         | |- context [String.eqb ?a column] => destruct (String.eqb a column)
         end; reflexivity.
Qed.

Lemma processFieldValue_bounds (ToNumber Date_new : value -> number)
    (r : RangedFilter) :
  scalar (start r) ->
  Transformer.processFieldValue ToNumber Date_new (bounds r) None
  = Some (default_wrapper (start r)).
Proof.
  intros S. unfold Transformer.processFieldValue, bounds.
  change (Transformer.extractRawValue (VObj [("gte", start r); ("lte", end_ r)]))
    with (start r).
  destruct (start r); try contradiction; reflexivity.
Qed.

Lemma default_wrapper_kept (v : value) : default_wrapper v <> VNull.
Proof. now destruct v. Qed.

Section SingleField.

Variable ToNumber : value -> number.
Variable Date_new : value -> number.
Variable config : TransformConfig.

(** An element with one field whose value is not an array goes through
    [transformCondition], whatever the field is called. *)
Lemma transformAndElement_single (k : string) (v : value) :
  isArray v = false ->
  Transformer.transformAndElement ToNumber Date_new config (VObj [(k, v)])
  = Transformer.transformCondition ToNumber Date_new config (VObj [(k, v)]).
Proof.
  intros A. unfold Transformer.transformAndElement. rewrite prop_single.
  destruct (String.eqb "OR" k); [|reflexivity].
  destruct v; try reflexivity; discriminate A.
Qed.

Lemma becomes_single (k : string) (v t : value) :
  isArray v = false ->
  Transformer.transformCondition ToNumber Date_new config (VObj [(k, v)]) = Some t ->
  becomes ToNumber Date_new config (VObj [(k, v)]) t.
Proof.
  intros A H. split; [exact H|]. now rewrite transformAndElement_single.
Qed.

End SingleField.

Section UnmappedProofs.

Variable ToNumber : value -> number.
Variable Date_new : value -> number.
Variable config : TransformConfig.
Hypothesis config_empty : empty_maps config.

Lemma transformCondition_unmapped (k : string) (v pv : value) :
  Transformer.inherited k = false ->
  nullish v = false ->
  Transformer.processFieldValue ToNumber Date_new v None = Some pv ->
  pv <> VNull ->
  Transformer.transformCondition ToNumber Date_new config (VObj [(k, v)])
  = Some (VObj [(k, pv)]).
Proof.
  intros Hk Hv P Hp. unfold Transformer.transformCondition.
  cbn [Transformer.entries mbind option_bind fold_left].
  rewrite (transformField_unmapped ToNumber Date_new config config_empty k v Hk Hv), P.
  destruct pv; try reflexivity; contradiction.
Qed.

Lemma dotted_filter_unmapped (relation column : string) (more : list string) (v : value) :
  includes dot relation = false ->
  includes dot column = false ->
  Transformer.inherited relation = false ->
  scalar v ->
  becomes ToNumber Date_new config
    (equality_predicate (relation +:+ String dot (column +:+ dotted_tail more)) v)
    (VObj [(relation, default_wrapper v)]).
Proof.
  intros Hr Hc Hi S. unfold equality_predicate.
  rewrite includes_app_dot, split_app_dot by assumption.
  destruct (split_head_tail column more Hc) as [rest ->].
  cbn [part nth]. unfold QueryBuilder.nested.
  apply becomes_single; [reflexivity|].
  apply transformCondition_unmapped;
    [assumption|reflexivity|now apply processFieldValue_single_scalar
    |apply default_wrapper_kept].
Qed.

Lemma dotted_search_unmapped (relation column : string) (more : list string) (s : string) :
  includes dot relation = false ->
  includes dot column = false ->
  Transformer.inherited relation = false ->
  becomes ToNumber Date_new config
    (contains_predicate (relation +:+ String dot (column +:+ dotted_tail more)) (VStr s))
    (VObj [(relation, VObj [("contains", VStr s)])]).
Proof.
  intros Hr Hc Hi. unfold contains_predicate, equality_predicate.
  rewrite includes_app_dot, split_app_dot by assumption.
  destruct (split_head_tail column more Hc) as [rest ->].
  cbn [part nth]. unfold QueryBuilder.nested.
  apply becomes_single; [reflexivity|].
  apply transformCondition_unmapped;
    [assumption|reflexivity|apply processFieldValue_single_contains|discriminate].
Qed.

Lemma range_unmapped (r : RangedFilter) :
  plain_key (key r) ->
  scalar (start r) ->
  becomes ToNumber Date_new config (range_predicate r)
    (VObj [(key r, default_wrapper (start r))]).
Proof.
  intros [Hd Hi] S. unfold range_predicate, equality_predicate. rewrite Hd.
  apply becomes_single; [reflexivity|].
  apply transformCondition_unmapped;
    [assumption|reflexivity|now apply processFieldValue_bounds
    |apply default_wrapper_kept].
Qed.

End UnmappedProofs.

(** X10.  Under a configuration that maps nothing, the column of a dotted
    key is lost: the compiled predicate of a filter [relation.column] with
    a scalar value becomes the default predicate of the value on
    [relation] itself, and that of a search filter with a string becomes
    [contains] on [relation]. *)
Theorem unmapped_dotted_key_loses_column :
  forall (ToNumber Date_new : value -> number) (config : TransformConfig)
         (relation column : string) (more : list string),
    empty_maps config ->
    includes dot relation = false ->
    includes dot column = false ->
    Transformer.inherited relation = false ->
    let k := relation +:+ String dot (column +:+ dotted_tail more) in
    (forall v, scalar v ->
       becomes ToNumber Date_new config
         (equality_predicate k v) (VObj [(relation, default_wrapper v)])) /\
    (forall s,
       becomes ToNumber Date_new config
         (contains_predicate k (VStr s))
         (VObj [(relation, VObj [("contains", VStr s)])])).
Proof.
  intros ToNumber Date_new config relation column more He Hr Hc Hi k. split.
  - intros v S. now apply dotted_filter_unmapped.
  - intros s. now apply dotted_search_unmapped.
Qed.

(** X11.  Under a configuration that maps nothing, a range on a key
    without dots keeps its lower bound only: the compiled predicate
    [{key: {gte: start, lte: end}}] with a scalar [start] becomes the
    default predicate of [start] ([contains] for a string, [equals]
    otherwise), and [end] is gone. *)
Theorem unmapped_range_keeps_start_only :
  forall (ToNumber Date_new : value -> number) (config : TransformConfig)
         (r : RangedFilter),
    empty_maps config ->
    plain_key (key r) ->
    scalar (start r) ->
    becomes ToNumber Date_new config (range_predicate r)
      (VObj [(key r, default_wrapper (start r))]).
Proof.
  intros ToNumber Date_new config r He Hk S. now apply range_unmapped.
Qed.

Lemma unmapped_dotted_key_loses_column_witness :
  (forall v, scalar v ->
     becomes sample_ToNumber sample_Date_new empty_config
       (equality_predicate "author.name" v) (VObj [("author", default_wrapper v)])) /\
  (forall s,
     becomes sample_ToNumber sample_Date_new empty_config
       (contains_predicate "author.name" (VStr s))
       (VObj [("author", VObj [("contains", VStr s)])])).
Proof.
  apply (unmapped_dotted_key_loses_column sample_ToNumber sample_Date_new
           empty_config "author" "name" []).
  - repeat split.
  - reflexivity.
  - reflexivity.
  - reflexivity.
Defined.

Lemma unmapped_range_keeps_start_only_witness :
  becomes sample_ToNumber sample_Date_new empty_config
    (range_predicate created_range)
    (VObj [("createdAt", VObj [("contains", VStr "2024-01-01")])]).
Proof.
  apply (unmapped_range_keeps_start_only sample_ToNumber sample_Date_new
           empty_config created_range).
  - repeat split.
  - split; reflexivity.
  - exact I.
Defined.

(** ** The transformer: one field at a time *)

Section PlacementProofs.

Variable ToNumber : value -> number.
Variable Date_new : value -> number.
Variable config : TransformConfig.
Hypothesis config_targets : own_targets config.

Variables (k : string) (v : value).
Hypothesis key_own : Transformer.inherited k = false.
Hypothesis value_present : nullish v = false.
Hypothesis no_function : no_relation_function config k.

#[local] Abbreviation processed :=
  (Transformer.processFieldValue ToNumber Date_new v
     (default ∅ (fieldTypeHandlers config) !! k)).

Lemma transformField_processed :
  Transformer.transformField ToNumber Date_new config [] (k, v)
  = pv ← processed;
    match pv with
    | VNull => Some []
    | _ =>
        if match fieldMappings config !! k with
           | Some r => str_truthy r
           | None => false
           end
        then Transformer.assign_nested (default "" (fieldMappings config !! k))
               (Transformer.actualField_of config k) pv []
        else if negb (String.eqb (Transformer.actualField_of config k) k)
             then Transformer.assign (Transformer.actualField_of config k) pv []
             else Transformer.assign k pv []
    end.
Proof.
  unfold Transformer.transformField.
  rewrite value_present, key_own.
  unfold no_relation_function in no_function.
  unfold Transformer.relationHandlers_, Transformer.fieldTypeHandlers_.
  rewrite no_function.
  destruct (match fieldMappings config !! k with Some r => str_truthy r | None => false end);
    destruct processed as [[]|]; reflexivity.
Qed.

Lemma transformField_thrown :
  processed = None ->
  Transformer.transformField ToNumber Date_new config [] (k, v) = None.
Proof. intros P. now rewrite transformField_processed, P. Qed.

Lemma transformField_dropped :
  processed = Some VNull ->
  Transformer.transformField ToNumber Date_new config [] (k, v) = Some [].
Proof. intros P. now rewrite transformField_processed, P. Qed.

Lemma assign_renamed (p : value) :
  (if negb (String.eqb (Transformer.actualField_of config k) k)
   then Transformer.assign (Transformer.actualField_of config k) p []
   else Transformer.assign k p [])
  = Some [(Transformer.actualField_of config k, p)].
Proof.
  pose proof (actualField_own config config_targets k key_own) as Ha.
  destruct (String.eqb_spec (Transformer.actualField_of config k) k) as [E|_];
    cbn [negb].
  - rewrite E. now rewrite assign_own.
  - now rewrite assign_own.
Qed.

Lemma transformField_placed (pv : value) :
  processed = Some pv ->
  pv <> VNull ->
  Transformer.transformField ToNumber Date_new config [] (k, v)
  = match placed config k pv with
    | VObj o => Some o
    | _ => None
    end.
Proof.
  intros P Hp. rewrite transformField_processed, P. cbn [mbind option_bind].
  unfold placed, relation_of. rewrite assign_renamed.
  pose proof (actualField_own config config_targets k key_own) as Ha.
  destruct (fieldMappings config !! k) as [r|] eqn:R.
  - pose proof (proj1 config_targets k r R) as Hr.
    destruct (str_truthy r); cbn [from_option id].
    + unfold Transformer.assign_nested. rewrite Hr. cbn [get].
      rewrite assign_own by assumption. cbn [mbind option_bind set].
      destruct pv; try reflexivity; contradiction.
    + destruct pv; try reflexivity; contradiction.
  - destruct pv; try reflexivity; contradiction.
Qed.

Lemma transformCondition_thrown :
  processed = None ->
  Transformer.transformCondition ToNumber Date_new config (VObj [(k, v)]) = None.
Proof.
  intros P. unfold Transformer.transformCondition.
  cbn [Transformer.entries mbind option_bind fold_left].
  now rewrite transformField_thrown.
Qed.

Lemma transformCondition_dropped :
  processed = Some VNull ->
  Transformer.transformCondition ToNumber Date_new config (VObj [(k, v)])
  = Some (VObj []).
Proof.
  intros P. unfold Transformer.transformCondition.
  cbn [Transformer.entries mbind option_bind fold_left].
  now rewrite transformField_dropped.
Qed.

Lemma transformCondition_placed (pv : value) :
  processed = Some pv ->
  pv <> VNull ->
  Transformer.transformCondition ToNumber Date_new config (VObj [(k, v)])
  = Some (placed config k pv).
Proof.
  intros P Hp. unfold Transformer.transformCondition.
  cbn [Transformer.entries mbind option_bind fold_left].
  rewrite (transformField_placed pv P Hp).
  unfold placed. now destruct (relation_of config k).
Qed.

End PlacementProofs.

(** X12.  What the transformer does to a predicate [{key: value}] whose
    value is not null, undefined or an array, when the key has no relation
    handler with a function of its own and neither the key nor a name the
    configuration maps to is named like a member of [Object.prototype].
    The value is processed with the key's type handler.  If that throws
    (a number or date handler meeting a value that does not convert to a
    primitive), so does the transformation; a [null] outcome leaves the
    empty object; any other outcome is stored under the key's new name
    (the key itself without one), inside the key's relation if it is
    mapped to one.  The same holds for an element of [AND] and inside an
    [OR]. *)
Theorem single_field_placement :
  forall (ToNumber Date_new : value -> number) (config : TransformConfig)
         (k : string) (v : value),
    own_targets config ->
    Transformer.inherited k = false ->
    nullish v = false ->
    isArray v = false ->
    no_relation_function config k ->
    let processed := Transformer.processFieldValue ToNumber Date_new v
                       (default ∅ (fieldTypeHandlers config) !! k) in
    (processed = None ->
     Transformer.transformCondition ToNumber Date_new config (VObj [(k, v)]) = None /\
     Transformer.transformAndElement ToNumber Date_new config (VObj [(k, v)]) = None) /\
    (processed = Some VNull ->
     becomes ToNumber Date_new config (VObj [(k, v)]) (VObj [])) /\
    (forall pv, processed = Some pv -> pv <> VNull ->
     becomes ToNumber Date_new config (VObj [(k, v)]) (placed config k pv)).
Proof.
  intros ToNumber Date_new config k v Ht Hk Hv Ha Hf processed.
  split; [|split].
  - intros P. rewrite transformAndElement_single by exact Ha.
    split; now apply transformCondition_thrown.
  - intros P. apply becomes_single; [exact Ha|].
    now apply transformCondition_dropped.
  - intros pv P Hp. apply becomes_single; [exact Ha|].
    now apply transformCondition_placed.
Qed.

Lemma profile_config_targets : own_targets profile_config.
Proof.
  split.
  - intros k r H. unfold profile_config in H. cbn [fieldMappings] in H.
    apply lookup_singleton_Some in H as [_ <-]. reflexivity.
  - intros k a H. unfold profile_config in H.
    cbn [fieldNameMappings from_option id] in H.
    apply lookup_singleton_Some in H as [_ <-]. reflexivity.
Qed.

Lemma single_field_placement_witness :
  becomes sample_ToNumber sample_Date_new profile_config
    (VObj [("age", VNum (Num 30))])
    (VObj [("profile", VObj [("years", VObj [("equals", VNum (Num 30))])])]) /\
  Transformer.transformCondition sample_ToNumber sample_Date_new profile_config
    (VObj [("age", unprintable)]) = None.
Proof.
  split.
  - refine (proj2 (proj2 (single_field_placement sample_ToNumber sample_Date_new
                            profile_config "age" (VNum (Num 30))
                            profile_config_targets eq_refl eq_refl eq_refl eq_refl))
              _ eq_refl _).
    discriminate.
  - refine (proj1 (proj1 (single_field_placement sample_ToNumber sample_Date_new
                            profile_config "age" unprintable
                            profile_config_targets eq_refl eq_refl eq_refl eq_refl)
                     eq_refl)).
Defined.

(** ** A value that does not convert *)

Lemma processFieldValue_cannot_convert (ToNumber Date_new : value -> number)
    (h : FieldTypeHandler) (s : string) :
  cannot_convert ToNumber Date_new h s ->
  Transformer.processFieldValue ToNumber Date_new (VStr s) (Some h) = Some VNull.
Proof.
  intros [C [[T N]|[T N]]]; unfold Transformer.processFieldValue;
    cbn [Transformer.extractRawValue]; rewrite C, T;
    cbn [Transformer.toNumber Transformer.newDate coercion_throws
         mbind option_bind]; now rewrite N.
Qed.

(** X13.  A filter on a key without dots that is typed number or date
    (no function in its type handler, no relation handler with a function
    of its own, the key not named like a member of [Object.prototype]) and
    whose string value does not convert is dropped without a word: the
    request with this filter alone is transformed to the empty [where], the
    one of a request without any filter. *)
Theorem unconvertible_filter_vanishes :
  forall (ToNumber Date_new : value -> number) (config : TransformConfig)
         (k s : string) (h : FieldTypeHandler),
    plain_key k ->
    no_relation_function config k ->
    default ∅ (fieldTypeHandlers config) !! k = Some h ->
    cannot_convert ToNumber Date_new h s ->
    Transformer.transformWhereClause ToNumber Date_new config
      (where_ (QueryBuilder.buildFilterQuery (one_filter k (VStr s))))
    = Some (VObj []).
Proof.
  intros ToNumber Date_new config k s h [Hd Hk] Hf Hh Hc.
  rewrite buildFilterQuery_where.
  unfold filter_conditions, search_conditions, range_conditions, one_filter.
  cbn [filters searchFilters rangedFilters]. rewrite buildWhereQuery_map.
  unfold present. cbn [List.filter snd nullish negb map app].
  unfold filter_entry. cbn [fst snd]. unfold equality_predicate. rewrite Hd.
  unfold Transformer.transformWhereClause. cbn [truthy negb].
  rewrite prop_single.
  change (String.eqb "AND" "AND") with true. cbv beta iota.
  cbn [mapM]. rewrite transformAndElement_single by reflexivity.
  rewrite (transformCondition_dropped ToNumber Date_new config k (VStr s) Hk eq_refl Hf)
    by (rewrite Hh; now apply processFieldValue_cannot_convert).
  reflexivity.
Qed.

Lemma unconvertible_filter_vanishes_witness :
  Transformer.transformWhereClause sample_ToNumber sample_Date_new profile_config
    (where_ (QueryBuilder.buildFilterQuery (one_filter "age" (VStr "old"))))
  = Some (VObj []).
Proof.
  apply (unconvertible_filter_vanishes sample_ToNumber sample_Date_new
           profile_config "age" "old" number_handler).
  - split; reflexivity.
  - reflexivity.
  - reflexivity.
  - split; [reflexivity|]. left. split; reflexivity.
Defined.

(** ** The facade *)















Section FacadeProofs.

Variable ToNumber : value -> number.
Variable Date_new : value -> number.


Lemma compiled_orderBy (fq : FilteringQuery) :
  orderBy (QueryBuilder.buildFilterQuery fq)
  = match orderKey fq with
    | Some k => if str_truthy k then VObj [(k, direction fq)] else VObj []
    | None => VObj []
    end.
Proof.
  unfold QueryBuilder.buildFilterQuery, direction.
  destruct (QueryBuilder.buildPagination fq). cbn [orderBy].
  destruct (orderKey fq) as [k|]; [|reflexivity].
  destruct (str_truthy k); [|reflexivity]. now destruct (orderRule fq).
Qed.



End FacadeProofs.






(** X15.  The order a request compiles to, seen through a configuration:
    for an order key that is not empty and has no relation handler with a
    function of its own, the direction ([asc] by default) is stored under
    the key's new name, or inside the key's relation under the handler's
    [nestedField], else the new name.  The key is taken whole: its dots
    do not matter. *)
Theorem order_follows_the_mappings :
  forall (config : TransformConfig) (fq : FilteringQuery) (k : string),
    orderKey fq = Some k ->
    k <> EmptyString ->
    Transformer.inherited k = false ->
    no_relation_function config k ->
    Transformer.transformOrderBy config (orderBy (QueryBuilder.buildFilterQuery fq))
    = Some match relation_of config k with
           | Some relation =>
               VObj [(relation, VObj [(nested_name config k, direction fq)])]
           | None => VObj [(Transformer.actualField_of config k, direction fq)]
           end.
Proof.
  intros config fq k Hk Hne Hi Hf. rewrite compiled_orderBy, Hk.
  unfold str_truthy at 1. destruct (String.eqb_spec k ""); [contradiction|].
  cbn [negb]. unfold Transformer.transformOrderBy.
  cbn [truthy negb Transformer.entries from_option id]. rewrite Hi.
  unfold relation_of, nested_name, no_relation_function in *.
  unfold Transformer.relationHandlers_. rewrite Hf. f_equal.
  destruct (fieldMappings config !! k) as [r|]; [destruct (str_truthy r)|];
    cbn [from_option id]; try reflexivity.
  all: destruct (String.eqb_spec (Transformer.actualField_of config k) k) as [E|_];
    cbn [negb]; [now rewrite E|reflexivity].
Qed.

Lemma order_follows_the_mappings_witness :
  Transformer.transformOrderBy profile_config
    (orderBy (QueryBuilder.buildFilterQuery order_by_age))
  = Some (VObj [("profile", VObj [("years", VStr "desc")])]).
Proof.
  exact (order_follows_the_mappings profile_config order_by_age "age"
           eq_refl ltac:(discriminate) eq_refl eq_refl).
Defined.

(** X16.  The configuration never touches pagination, and validation
    never touches the query: in a result of [build], [take] and [skip] are
    the compiled ones and [validation] is what [validate] returns; a
    facade without a configuration returns the compiled query as it is. *)
Theorem build_keeps_pagination :
  forall (ToNumber Date_new : value -> number)
         (this : Facade.BuildQueryFilter) (fq : FilteringQuery)
         (r : BuildQueryResult),
    Facade.build ToNumber Date_new this fq = Some r ->
    take (query r) = take (QueryBuilder.buildFilterQuery fq) /\
    skip (query r) = skip (QueryBuilder.buildFilterQuery fq) /\
    validation r = Facade.validate Date_new this fq /\
    (Facade.transformConfig this = None ->
     query r = QueryBuilder.buildFilterQuery fq).
Proof.
  intros ToNumber Date_new this fq r. unfold Facade.build, Facade.validate,
    Facade.applyWhere, Facade.applyOrderBy.
  destruct (Facade.transformConfig this) as [config|].
  - destruct (truthy (where_ _));
      [destruct (Transformer.transformWhereClause _ _ _ _); [|discriminate]|];
      cbn [mbind option_bind orderBy];
      (destruct (truthy (orderBy _));
       [destruct (Transformer.transformOrderBy _ _); [|discriminate]|]);
      cbn [mbind option_bind]; intros [= <-]; repeat split; discriminate.
  - cbn [mbind option_bind]. intros [= <-]. repeat split.
Qed.

Lemma build_keeps_pagination_witness :
  exists r,
    Facade.build sample_ToNumber sample_Date_new profile_facade
      (paged (Some (Num 2)) (Some (Num 25))) = Some r /\
    take (query r) = Num 25 /\
    skip (query r) = Num 25 /\
    validation r
    = Facade.validate sample_Date_new profile_facade
        (paged (Some (Num 2)) (Some (Num 25))) /\
    (Facade.transformConfig profile_facade = None ->
     query r = QueryBuilder.buildFilterQuery (paged (Some (Num 2)) (Some (Num 25)))).
Proof.
  eexists. split; [vm_compute; reflexivity|].
  apply (build_keeps_pagination sample_ToNumber sample_Date_new profile_facade
           (paged (Some (Num 2)) (Some (Num 25)))).
  vm_compute. reflexivity.
Defined.

(** ** From parameters to pagination *)

Lemma extract_fields_page (JSON_parse_record : string -> option obj)
    (JSON_parse_ranges : string -> option (list RangedFilter))
    (parseInt : string -> number) (queryParams : gmap string Param) (s : string) :
  queryParams !! "page" = Some (PStr s) ->
  s <> EmptyString ->
  page (extract_fields JSON_parse_record JSON_parse_ranges parseInt queryParams)
  = Some (parseInt s).
Proof.
  intros H Hs. unfold extract_fields. rewrite H.
  cbn [Extractor.param_truthy Extractor.first_value Extractor.parseInt_arg].
  unfold str_truthy. destruct (String.eqb_spec s ""); [contradiction|].
  cbn [negb]. now destruct (Extractor.param_truthy (queryParams !! "rows")).
Qed.

(** X17.  A [page] parameter that [parseInt] cannot read is not an error
    anywhere: extraction returns a request whose [page] is NaN, the
    validator's page check lets it pass, and the compiler gives the first
    ten rows, [take = 10] and [skip = 0], whatever [rows] says. *)
Theorem unreadable_page_gives_first_page :
  forall (JSON_parse_record : string -> option obj)
         (JSON_parse_ranges : string -> option (list RangedFilter))
         (parseInt : string -> number) (Date_new : value -> number)
         (specification : QuerySpecification)
         (queryParams : gmap string Param) (s : string),
    queryParams !! "page" = Some (PStr s) ->
    s <> EmptyString ->
    parseInt s = NaN ->
    exists fq,
      extracted JSON_parse_record JSON_parse_ranges parseInt queryParams = Some fq /\
      page fq = Some NaN /\
      errors (Validation.validateQuery Date_new (paged (page fq) None)
                (Some specification)) = [] /\
      take (QueryBuilder.buildFilterQuery fq) = Num 10 /\
      skip (QueryBuilder.buildFilterQuery fq) = Num 0.
Proof.
  intros d1 d2 parseInt Date_new spec queryParams s H Hs Hn.
  eexists. split; [apply extracted_fields|].
  pose proof (extract_fields_page d1 d2 parseInt queryParams s H Hs) as P.
  rewrite Hn in P. split; [exact P|]. rewrite P. split; [reflexivity|].
  pose proof (buildFilterQuery_pagination
                (extract_fields d1 d2 parseInt queryParams)) as E.
  unfold take_skip, QueryBuilder.buildPagination in E. rewrite P in E.
  cbn [num_truthy] in E. now injection E as -> ->.
Qed.

Lemma unreadable_page_gives_first_page_witness :
  exists fq,
    extracted sample_parse_record sample_parse_ranges sample_parseInt
      params_page_word = Some fq /\
    page fq = Some NaN /\
    errors (Validation.validateQuery sample_Date_new (paged (page fq) None)
              (Some allow_a)) = [] /\
    take (QueryBuilder.buildFilterQuery fq) = Num 10 /\
    skip (QueryBuilder.buildFilterQuery fq) = Num 0.
Proof.
  apply (unreadable_page_gives_first_page sample_parse_record sample_parse_ranges
           sample_parseInt sample_Date_new allow_a params_page_word "two").
  - reflexivity.
  - discriminate.
  - reflexivity.
Defined.

(** ** Transforming what was transformed *)

Lemma processFieldValue_wrapped (ToNumber Date_new : value -> number) (v : value) :
  scalar v ->
  Transformer.processFieldValue ToNumber Date_new (default_wrapper v) None
  = Some (default_wrapper v).
Proof. destruct v; try contradiction; reflexivity. Qed.

Lemma normalize_condition_wrapped (c : value) :
  flat_condition c -> wrapped_condition (normalize_condition c).
Proof.
  intros (k & v & -> & Hk & [S|(s & ->)]).
  - exists k, v. destruct v; try contradiction; repeat split; assumption.
  - exists k, (VStr s). repeat split; assumption.
Qed.

Lemma normalize_element_wrapped (c : value) :
  flat_element c -> wrapped_element (normalize_element c).
Proof.
  intros [F|(cs & -> & Hne & F)].
  - left. pose proof (normalize_condition_wrapped c F) as W.
    destruct F as (k & v & -> & Hk & [S|(s & ->)]).
    + destruct v; try contradiction; exact W.
    + exact W.
  - right. exists (map normalize_condition cs). cbn [normalize_element].
    rewrite String.eqb_refl. split; [reflexivity|]. split.
    + destruct cs; [congruence|discriminate].
    + clear Hne. induction F; cbn [map]; constructor;
        [now apply normalize_condition_wrapped|assumption].
Qed.

Section TwiceProofs.

Variable ToNumber : value -> number.
Variable Date_new : value -> number.
Variable config : TransformConfig.
Hypothesis config_empty : empty_maps config.

Lemma transformCondition_wrapped (c : value) :
  wrapped_condition c ->
  Transformer.transformCondition ToNumber Date_new config c = Some c /\
  Transformer.nonempty c = true.
Proof.
  intros (k & v & -> & Hk & S). split; [|reflexivity].
  apply (transformCondition_unmapped ToNumber Date_new config config_empty);
    [assumption|now destruct v|now apply processFieldValue_wrapped
    |apply default_wrapper_kept].
Qed.

Lemma mapM_wrapped (cs : list value) :
  Forall wrapped_condition cs ->
  mapM (Transformer.transformCondition ToNumber Date_new config) cs = Some cs /\
  List.filter Transformer.nonempty cs = cs.
Proof.
  induction 1 as [|c cs H _ [IH1 IH2]]; [split; reflexivity|].
  destruct (transformCondition_wrapped c H) as [T N].
  cbn [mapM List.filter]. rewrite T, IH1, N, IH2. split; reflexivity.
Qed.

Lemma transformAndElement_wrapped (c : value) :
  wrapped_element c ->
  Transformer.transformAndElement ToNumber Date_new config c = Some c /\
  Transformer.nonempty c = true.
Proof.
  intros [W|(cs & -> & Hne & F)].
  - destruct (transformCondition_wrapped c W) as [T N]. split; [|exact N].
    destruct W as (k & v & -> & _ & S).
    rewrite transformAndElement_single by now destruct v. exact T.
  - destruct (mapM_wrapped cs F) as [M K].
    unfold Transformer.transformAndElement. rewrite prop_single.
    rewrite String.eqb_refl, M. cbn [mbind option_bind]. rewrite K.
    destruct cs; [congruence|]. split; reflexivity.
Qed.

Lemma mapM_wrapped_elements (cs : list value) :
  Forall wrapped_element cs ->
  mapM (Transformer.transformAndElement ToNumber Date_new config) cs = Some cs /\
  List.filter Transformer.nonempty cs = cs.
Proof.
  induction 1 as [|c cs H _ [IH1 IH2]]; [split; reflexivity|].
  destruct (transformAndElement_wrapped c H) as [T N].
  cbn [mapM List.filter]. rewrite T, IH1, N, IH2. split; reflexivity.
Qed.

Lemma transformWhereClause_wrapped (cs : list value) :
  Forall wrapped_element cs -> cs <> [] ->
  Transformer.transformWhereClause ToNumber Date_new config (VObj [("AND", VArr cs)])
  = Some (VObj [("AND", VArr cs)]).
Proof.
  intros F Hne. destruct (mapM_wrapped_elements cs F) as [M K].
  unfold Transformer.transformWhereClause. cbn [truthy negb].
  change (Transformer.prop "AND" (VObj [("AND", VArr cs)])) with (Some (VArr cs)).
  cbv beta iota. rewrite M. cbn [mbind option_bind]. rewrite K.
  destruct cs; [congruence|]. reflexivity.
Qed.

Lemma transformWhereClause_twice (cs : list value) :
  Forall flat_element cs ->
  exists w,
    Transformer.transformWhereClause ToNumber Date_new config (VObj [("AND", VArr cs)])
    = Some w /\
    Transformer.transformWhereClause ToNumber Date_new config w = Some w.
Proof.
  intros F. eexists. split;
    [exact (transformWhereClause_flat ToNumber Date_new config config_empty cs F)|].
  unfold normalize_where. change (and_of (VObj [("AND", VArr cs)])) with cs.
  destruct cs as [|c cs]; [reflexivity|].
  apply transformWhereClause_wrapped; [|discriminate].
  induction F; cbn [map]; constructor;
    [now apply normalize_element_wrapped|assumption].
Qed.

End TwiceProofs.

(** X18.  Under a configuration that maps nothing, transforming twice is
    transforming once: the tree compiled from a request without ranged
    filters and dotted keys, with scalar (or arrays of scalar) filter values
    and string search values, is transformed to a tree that a second pass
    returns unchanged. *)
Theorem transform_twice_is_once :
  forall (ToNumber Date_new : value -> number) (config : TransformConfig)
         (fq : FilteringQuery),
    empty_maps config ->
    plain_request fq ->
    exists w,
      Transformer.transformWhereClause ToNumber Date_new config
        (where_ (QueryBuilder.buildFilterQuery fq)) = Some w /\
      Transformer.transformWhereClause ToNumber Date_new config w = Some w.
Proof.
  intros ToNumber Date_new config fq Hc Hp.
  destruct (plain_request_flat fq Hp) as (cs & -> & F & _).
  now apply transformWhereClause_twice.
Qed.

Lemma empty_config_maps : empty_maps empty_config.
Proof. repeat split. Qed.

Lemma transform_twice_is_once_witness :
  exists w,
    Transformer.transformWhereClause sample_ToNumber sample_Date_new empty_config
      (where_ (QueryBuilder.buildFilterQuery filter_status)) = Some w /\
    Transformer.transformWhereClause sample_ToNumber sample_Date_new empty_config w
    = Some w.
Proof.
  exact (transform_twice_is_once sample_ToNumber sample_Date_new empty_config
           filter_status empty_config_maps filter_status_plain).
Defined.
